(** * Data replication core (mongo/db/repl/data_replicator.cpp)

    A shallow embedding of the oplog fetchers, the databases cloner, the
    initial-sync state and the [DataReplicator] state machine, together with
    the properties of the data-replicator design document that can be
    settled on the code.

    Conventions of the embedding.

    - Every member function becomes a Rocq function named [Class_method] in a
      state-and-error monad over the object it runs on.
    - Collaborators whose code lives elsewhere (the executor, the cursor
      fetcher, the applier, the reporter, the per-database cloner, the
      replication coordinator, fail points, [sleepmillis]) are external
      calls: a program is a tree of such calls, and running it against an
      arbitrary handler yields the result, the final object and the trace of
      calls with their answers.
    - A callback handed to a component ([_work], [_finishFn]) is an external
      call of that component; what the owner does in the callback is
      embedded where the owner's member function is.
    - Dereferencing an empty smart pointer, a failed [invariant], an
      [fassert] and an uncaught exception stop the program with a fault.
    - Logging has no effect on the objects and is left out, except where the
      logged expression itself dereferences a handle.
    - The mutex is not part of the state: each public entry point and each
      executor callback is one atomic step.  The one call that locks
      [_mutex] on a thread that already holds it, the [_doNextActions()] in
      the failure branch of [_scheduleApplyAfterFetch], is a fault.  Where
      the caller blocks while callbacks run ([waitForEvent] and the waits of
      the control interface), the wait is an external call that returns the
      object as the callbacks left it.
    - The oplog buffer is a FIFO list; its byte limit and the blocking of a
      producer on a full buffer are not represented. *)

From Stdlib Require Import ZArith List Ascii String Bool Lia.
Import ListNotations.

Local Open Scope string_scope.
Local Open Scope list_scope.
Local Open Scope Z_scope.

Set Implicit Arguments.
#[local] Set Warnings "-register-all".

(** ** Base types *)

Module ErrorCodes.

Inductive Error : Set :=
| OK
| NotYetInitialized
| InvalidOptions
| CallbackCanceled
| InitialSyncFailure
| UnknownError
| OplogStartMissing
| InvalidSyncSource
| IllegalOperation
| InvalidRoleModification
| AlreadyInitialized
| BadValue
| FailedToParse
| Other (n : nat).

Definition eqb (a b : Error) : bool :=
  match a, b with
  | OK, OK
  | NotYetInitialized, NotYetInitialized
  | InvalidOptions, InvalidOptions
  | CallbackCanceled, CallbackCanceled
  | InitialSyncFailure, InitialSyncFailure
  | UnknownError, UnknownError
  | OplogStartMissing, OplogStartMissing
  | InvalidSyncSource, InvalidSyncSource
  | IllegalOperation, IllegalOperation
  | InvalidRoleModification, InvalidRoleModification
  | AlreadyInitialized, AlreadyInitialized
  | BadValue, BadValue
  | FailedToParse, FailedToParse => true
  | Other n, Other m => Nat.eqb n m
  | _, _ => false
  end.

End ErrorCodes.

(** [Timestamp] is compared through its 64-bit value; [Timestamp()] is the
    null timestamp. *)
Definition Timestamp := Z.
Definition Timestamp_null : Timestamp := 0.

(** Modelled from the spec: [Timestamp] is declared in bson/timestamp.h,
    which is not part of the source file, and the spec keeps it opaque and
    totally ordered.  The 64-bit value holds the seconds in its upper half
    and the increment in its lower half, and [isNull()] is the test
    [secs == 0] of that header: a timestamp below 2^32 is null whatever its
    increment. *)
Definition Timestamp_getSecs (t : Timestamp) : Z := Z.shiftr t 32.
Definition Timestamp_isNull (t : Timestamp) : bool := Timestamp_getSecs t =? 0.

(** [OpTime]: a timestamp and a term. *)
Definition OpTime := (Timestamp * Z)%type.
Definition OpTime_getTimestamp (ot : OpTime) : Timestamp := fst ot.

Definition Date_t := Z.
Definition Milliseconds := Z.

(** [HostAndPort] is kept as its textual form; the default-constructed value
    is the empty one. *)
Definition HostAndPort := string.
Definition HostAndPort_default : HostAndPort := "".
Definition HostAndPort_empty (h : HostAndPort) : bool := String.eqb h "".

(** Modelled from the spec: the BSON values the replicator consumes ([ts],
    [ns], [o2._id], the [listDatabases] reply); the BSON library itself is
    not part of the source file. *)
Inductive BSONElement : Type :=
| EOO
| BSONTimestamp (t : Timestamp)
| BSONString (s : string)
| BSONBool (b : bool)
| BSONNumber (n : Z)
| BSONObject (fields : list (string * BSONElement)).

Definition BSONObj := list (string * BSONElement).

Fixpoint BSONObj_getField (o : BSONObj) (name : string) : BSONElement :=
  match o with
  | [] => EOO
  | (k, v) :: rest => if String.eqb k name then v else BSONObj_getField rest name
  end.

Definition BSONElement_eoo (e : BSONElement) : bool :=
  match e with EOO => true | _ => false end.

Definition BSONObj_hasField (o : BSONObj) (name : string) : bool :=
  negb (BSONElement_eoo (BSONObj_getField o name)).

(** [timestamp()] of an element that holds no timestamp is the null
    timestamp; [str()] of a non-string is the empty string. *)
Definition BSONElement_timestamp (e : BSONElement) : Timestamp :=
  match e with BSONTimestamp t => t | _ => Timestamp_null end.

Definition BSONElement_str (e : BSONElement) : string :=
  match e with BSONString s => s | _ => "" end.

Definition BSONElement_trueValue (e : BSONElement) : bool :=
  match e with
  | EOO => false
  | BSONBool b => b
  | BSONNumber n => negb (n =? 0)
  | _ => true
  end.

(** [getFieldDotted] for the one level of nesting the replicator asks for
    ("o2._id"). *)
Definition BSONObj_getFieldDotted (o : BSONObj) (outer inner : string) : BSONElement :=
  match BSONObj_getField o outer with
  | BSONObject sub => BSONObj_getField sub inner
  | _ => EOO
  end.

(** [Obj()] throws on an element that is not an object. *)
Definition BSONElement_Obj (e : BSONElement) : option BSONObj :=
  match e with BSONObject o => Some o | _ => None end.

(** Pieces of a [str::stream] message. *)
Inductive MsgPart : Type :=
| Str (s : string)
| ShowTimestamp (t : Timestamp)
| ShowElement (e : BSONElement)
| ShowCode (c : ErrorCodes.Error)
| ShowNumber (n : Z).

Definition Msg := list MsgPart.

Module Status.

Record t : Type := mk { code : ErrorCodes.Error; reason : Msg }.

Definition OK : t := mk ErrorCodes.OK [].
Definition isOK (s : t) : bool := ErrorCodes.eqb (code s) ErrorCodes.OK.
Definition toString (s : t) : Msg := ShowCode (code s) :: reason s.

End Status.

Inductive StatusWith (T : Type) : Type :=
| SWStatus (s : Status.t)
| SWValue (v : T).
Arguments SWStatus {T} s.
Arguments SWValue {T} v.

Definition StatusWith_getStatus {T} (sw : StatusWith T) : Status.t :=
  match sw with SWStatus s => s | SWValue _ => Status.OK end.

Definition StatusWith_isOK {T} (sw : StatusWith T) : bool :=
  Status.isOK (StatusWith_getStatus sw).

(** [NamespaceString] keeps the full [db.coll] name; [db()] and [coll()]
    split at the first dot. *)
Definition NamespaceString := string.

Fixpoint NamespaceString_db (ns : string) : string :=
  match ns with
  | EmptyString => EmptyString
  | String c rest =>
      if Ascii.eqb c "."%char then EmptyString else String c (NamespaceString_db rest)
  end.

Fixpoint NamespaceString_coll (ns : string) : string :=
  match ns with
  | EmptyString => EmptyString
  | String c rest =>
      if Ascii.eqb c "."%char then rest else NamespaceString_coll rest
  end.

Module NextAction.
Inductive t : Set := kContinue | kGetMore | kNoAction.
Definition eqb (a b : t) : bool :=
  match a, b with
  | kContinue, kContinue | kGetMore, kGetMore | kNoAction, kNoAction => true
  | _, _ => false
  end.
End NextAction.

Module BatchData.
Record t : Type := mk {
  cursorId : Z;
  nss : NamespaceString;
  documents : list BSONObj
}.
End BatchData.

Definition BatchDataStatus := StatusWith BatchData.t.
Definition TimestampStatus := StatusWith Timestamp.
Definition Operations := list BSONObj.

(** Executor handles.  A default-constructed [Event] is not valid. *)
Inductive Event : Set := Event_invalid | Event_id (n : nat).
Definition Event_isValid (e : Event) : bool :=
  match e with Event_invalid => false | Event_id _ => true end.

Definition Handle := nat.
Definition CBHStatus := StatusWith Handle.

Module MemberState.
Inductive t : Set := RS_STARTUP | RS_PRIMARY | RS_SECONDARY | RS_RECOVERING | RS_ROLLBACK.
End MemberState.

Module DataReplicatorState.
Inductive t : Set := Steady | InitialSync | Rollback | Uninitialized.
Definition eqb (a b : t) : bool :=
  match a, b with
  | Steady, Steady | InitialSync, InitialSync
  | Rollback, Rollback | Uninitialized, Uninitialized => true
  | _, _ => false
  end.
End DataReplicatorState.

Definition toString (s : DataReplicatorState.t) : string :=
  match s with
  | DataReplicatorState.InitialSync => "InitialSync"
  | DataReplicatorState.Rollback => "Rollback"
  | DataReplicatorState.Steady => "Steady Replication"
  | DataReplicatorState.Uninitialized => "Uninitialized"
  end.

Definition findCommonPoint (host : HostAndPort) (start : Timestamp) : Timestamp :=
  Timestamp_null.

Definition _didRollback (host : HostAndPort) : bool := false.

(** Machine integers: [int] members wrap at 32 bits, [size_t] at 64. *)
Definition int_wrap (z : Z) : Z := (z + 2 ^ 31) mod 2 ^ 32 - 2 ^ 31.
Definition size_t_wrap (z : Z) : Z := z mod 2 ^ 64.

(** ** Callbacks and descriptions of external objects *)

(** The function bound as a fetcher's batch callback. *)
Inductive CallbackFn : Type :=
| UserCallback (id : nat)
| Bound_onOplogFetchFinish
| Bound_onApplierReadyStart
| Bound_onMissingFetched (ops : Operations) (nss : NamespaceString)
| Bound_setTimestampSatus.

(** The function given to the databases cloner as [finishFn]. *)
Inductive FinishFn : Type :=
| OwnerFinish (id : nat)
| Bound_onDataClonerFinish.

(** The executor's cursor fetcher, by its constructor arguments. *)
Module Fetcher.
Record t : Type := mk {
  source : HostAndPort;
  dbname : string;
  cmd : BSONObj;
  callback : CallbackFn
}.
End Fetcher.

Module Request.
Record t : Type := mk { target : HostAndPort; dbname : string; cmdObj : BSONObj }.
End Request.

(** Work items given to the executor. *)
Inductive Work : Type :=
| Work_doNextActions
| Work_onListDatabaseFinish
| Work_onApplyBatchFinish (ts : TimestampStatus) (ops : Operations) (numApplied : Z).

Module CallbackArgs.
Record t : Type := mk { status : Status.t }.
End CallbackArgs.

Module Applier.
Record t : Type := mk { operations : Operations }.
End Applier.

Module Reporter.
Record t : Type := mk { hasCoordinator : bool; target : HostAndPort }.
End Reporter.

(** ** The objects of the replicator *)

Module QueryFetcher.
Record t : Type := mk {
  _fetcher : Fetcher.t;
  _responses : Z;
  _work : CallbackFn
}.
Definition set__responses (n : Z) (q : t) : t :=
  mk (_fetcher q) n (_work q).
End QueryFetcher.

Module OplogFetcher.
(** [base] is the [QueryFetcher] sub-object of the derived class. *)
Record t : Type := mk {
  base : QueryFetcher.t;
  _startTS : Timestamp
}.
Definition set_base (q : QueryFetcher.t) (o : t) : t := mk q (_startTS o).
End OplogFetcher.

Definition StorageInterface := nat.

Module DatabasesCloner.
Record t : Type := mk {
  _status : Status.t;               (* If it is not OK, we stop everything. *)
  _source : HostAndPort;            (* The source to use, until we get an error *)
  _active : bool;                   (* false until we start *)
  _databaseCloners : list string;   (* database cloners by name *)
  _clonersActive : Z;
  _finishFn : option FinishFn;      (* [None] is a std::function that is not callable *)
  _storage : option StorageInterface
}.
Definition set__status (x : Status.t) (c : t) : t :=
  mk x (_source c) (_active c) (_databaseCloners c) (_clonersActive c) (_finishFn c) (_storage c).
Definition set__active (x : bool) (c : t) : t :=
  mk (_status c) (_source c) x (_databaseCloners c) (_clonersActive c) (_finishFn c) (_storage c).
Definition set__databaseCloners (x : list string) (c : t) : t :=
  mk (_status c) (_source c) (_active c) x (_clonersActive c) (_finishFn c) (_storage c).
Definition set__clonersActive (x : Z) (c : t) : t :=
  mk (_status c) (_source c) (_active c) (_databaseCloners c) x (_finishFn c) (_storage c).
Definition set__storage (x : option StorageInterface) (c : t) : t :=
  mk (_status c) (_source c) (_active c) (_databaseCloners c) (_clonersActive c) (_finishFn c) x.
End DatabasesCloner.

Module InitialSyncState.
Record t : Type := mk {
  dbsCloner : DatabasesCloner.t;   (* Cloner for all databases included in initial sync. *)
  beginTimestamp : Timestamp;      (* Timestamp from the latest entry in oplog when started. *)
  stopTimestamp : Timestamp;       (* Referred to as minvalid *)
  finishEvent : Event;             (* event fired on completion, either successful or not. *)
  status : Status.t;               (* final status, only valid after the finishEvent fires. *)
  fetchedMissingDocs : Z;
  appliedOps : Z
}.
Definition set_dbsCloner (x : DatabasesCloner.t) (i : t) : t :=
  mk x (beginTimestamp i) (stopTimestamp i) (finishEvent i) (status i)
     (fetchedMissingDocs i) (appliedOps i).
Definition set_beginTimestamp (x : Timestamp) (i : t) : t :=
  mk (dbsCloner i) x (stopTimestamp i) (finishEvent i) (status i)
     (fetchedMissingDocs i) (appliedOps i).
Definition set_stopTimestamp (x : Timestamp) (i : t) : t :=
  mk (dbsCloner i) (beginTimestamp i) x (finishEvent i) (status i)
     (fetchedMissingDocs i) (appliedOps i).
Definition set_status (x : Status.t) (i : t) : t :=
  mk (dbsCloner i) (beginTimestamp i) (stopTimestamp i) (finishEvent i) x
     (fetchedMissingDocs i) (appliedOps i).
Definition set_fetchedMissingDocs (x : Z) (i : t) : t :=
  mk (dbsCloner i) (beginTimestamp i) (stopTimestamp i) (finishEvent i) (status i)
     x (appliedOps i).
Definition set_appliedOps (x : Z) (i : t) : t :=
  mk (dbsCloner i) (beginTimestamp i) (stopTimestamp i) (finishEvent i) (status i)
     (fetchedMissingDocs i) x.
End InitialSyncState.

Module DataReplicatorOptions.
Record t : Type := mk {
  syncSource : HostAndPort;
  remoteOplogNS : NamespaceString;
  startOptime : Timestamp;
  applierFn : option nat;           (* [None] is a std::function that is not callable *)
  initialSyncRetryWait : Milliseconds;
  syncSourceRetryWait : Milliseconds;
  blacklistSyncSourcePenaltyForOplogStartMissing : Milliseconds;
  blacklistSyncSourcePenaltyForNetworkConnectionError : Milliseconds
}.
End DataReplicatorOptions.

Definition ReplicationCoordinator := nat.

(** The two lambdas the constructor can store in [_batchCompletedFn]. *)
Inductive BatchCompletedFn : Set :=
| SetMyLastOptime
| DoNothing.

Module DataReplicator.
Record t : Type := mk {
  _opts : DataReplicatorOptions.t;
  _replCoord : option ReplicationCoordinator;
  _state : DataReplicatorState.t;
  _fetcherPaused : bool;
  _reporterPaused : bool;
  _applierActive : bool;
  _applierPaused : bool;
  _oplogBuffer : list BSONObj;
  _doShutdown : bool;
  _syncSource : HostAndPort;
  _fetcher : option OplogFetcher.t;
  _tmpFetcher : option QueryFetcher.t;
  _applier : option Applier.t;
  _reporter : option Reporter.t;
  _initialSyncState : option InitialSyncState.t;
  _lastTimestampApplied : Timestamp;
  _lastTimestampFetched : Timestamp;
  _rollbackCommonOptime : Timestamp;
  _storage : option StorageInterface;
  _onShutdown : Event;
  _batchCompletedFn : BatchCompletedFn
}.
Definition set__state (x : DataReplicatorState.t) (d : t) : t :=
  mk (_opts d) (_replCoord d) x (_fetcherPaused d) (_reporterPaused d)
     (_applierActive d) (_applierPaused d) (_oplogBuffer d) (_doShutdown d)
     (_syncSource d) (_fetcher d) (_tmpFetcher d) (_applier d) (_reporter d)
     (_initialSyncState d) (_lastTimestampApplied d) (_lastTimestampFetched d)
     (_rollbackCommonOptime d) (_storage d) (_onShutdown d) (_batchCompletedFn d).
Definition set__fetcherPaused (x : bool) (d : t) : t :=
  mk (_opts d) (_replCoord d) (_state d) x (_reporterPaused d) (_applierActive d)
     (_applierPaused d) (_oplogBuffer d) (_doShutdown d) (_syncSource d) (_fetcher d)
     (_tmpFetcher d) (_applier d) (_reporter d) (_initialSyncState d)
     (_lastTimestampApplied d) (_lastTimestampFetched d) (_rollbackCommonOptime d)
     (_storage d) (_onShutdown d) (_batchCompletedFn d).
Definition set__reporterPaused (x : bool) (d : t) : t :=
  mk (_opts d) (_replCoord d) (_state d) (_fetcherPaused d) x (_applierActive d)
     (_applierPaused d) (_oplogBuffer d) (_doShutdown d) (_syncSource d) (_fetcher d)
     (_tmpFetcher d) (_applier d) (_reporter d) (_initialSyncState d)
     (_lastTimestampApplied d) (_lastTimestampFetched d) (_rollbackCommonOptime d)
     (_storage d) (_onShutdown d) (_batchCompletedFn d).
Definition set__applierActive (x : bool) (d : t) : t :=
  mk (_opts d) (_replCoord d) (_state d) (_fetcherPaused d) (_reporterPaused d) x
     (_applierPaused d) (_oplogBuffer d) (_doShutdown d) (_syncSource d) (_fetcher d)
     (_tmpFetcher d) (_applier d) (_reporter d) (_initialSyncState d)
     (_lastTimestampApplied d) (_lastTimestampFetched d) (_rollbackCommonOptime d)
     (_storage d) (_onShutdown d) (_batchCompletedFn d).
Definition set__applierPaused (x : bool) (d : t) : t :=
  mk (_opts d) (_replCoord d) (_state d) (_fetcherPaused d) (_reporterPaused d)
     (_applierActive d) x (_oplogBuffer d) (_doShutdown d) (_syncSource d)
     (_fetcher d) (_tmpFetcher d) (_applier d) (_reporter d) (_initialSyncState d)
     (_lastTimestampApplied d) (_lastTimestampFetched d) (_rollbackCommonOptime d)
     (_storage d) (_onShutdown d) (_batchCompletedFn d).
Definition set__oplogBuffer (x : list BSONObj) (d : t) : t :=
  mk (_opts d) (_replCoord d) (_state d) (_fetcherPaused d) (_reporterPaused d)
     (_applierActive d) (_applierPaused d) x (_doShutdown d) (_syncSource d)
     (_fetcher d) (_tmpFetcher d) (_applier d) (_reporter d) (_initialSyncState d)
     (_lastTimestampApplied d) (_lastTimestampFetched d) (_rollbackCommonOptime d)
     (_storage d) (_onShutdown d) (_batchCompletedFn d).
Definition set__doShutdown (x : bool) (d : t) : t :=
  mk (_opts d) (_replCoord d) (_state d) (_fetcherPaused d) (_reporterPaused d)
     (_applierActive d) (_applierPaused d) (_oplogBuffer d) x (_syncSource d)
     (_fetcher d) (_tmpFetcher d) (_applier d) (_reporter d) (_initialSyncState d)
     (_lastTimestampApplied d) (_lastTimestampFetched d) (_rollbackCommonOptime d)
     (_storage d) (_onShutdown d) (_batchCompletedFn d).
Definition set__syncSource (x : HostAndPort) (d : t) : t :=
  mk (_opts d) (_replCoord d) (_state d) (_fetcherPaused d) (_reporterPaused d)
     (_applierActive d) (_applierPaused d) (_oplogBuffer d) (_doShutdown d) x
     (_fetcher d) (_tmpFetcher d) (_applier d) (_reporter d) (_initialSyncState d)
     (_lastTimestampApplied d) (_lastTimestampFetched d) (_rollbackCommonOptime d)
     (_storage d) (_onShutdown d) (_batchCompletedFn d).
Definition set__fetcher (x : option OplogFetcher.t) (d : t) : t :=
  mk (_opts d) (_replCoord d) (_state d) (_fetcherPaused d) (_reporterPaused d)
     (_applierActive d) (_applierPaused d) (_oplogBuffer d) (_doShutdown d)
     (_syncSource d) x (_tmpFetcher d) (_applier d) (_reporter d)
     (_initialSyncState d) (_lastTimestampApplied d) (_lastTimestampFetched d)
     (_rollbackCommonOptime d) (_storage d) (_onShutdown d) (_batchCompletedFn d).
Definition set__tmpFetcher (x : option QueryFetcher.t) (d : t) : t :=
  mk (_opts d) (_replCoord d) (_state d) (_fetcherPaused d) (_reporterPaused d)
     (_applierActive d) (_applierPaused d) (_oplogBuffer d) (_doShutdown d)
     (_syncSource d) (_fetcher d) x (_applier d) (_reporter d) (_initialSyncState d)
     (_lastTimestampApplied d) (_lastTimestampFetched d) (_rollbackCommonOptime d)
     (_storage d) (_onShutdown d) (_batchCompletedFn d).
Definition set__applier (x : option Applier.t) (d : t) : t :=
  mk (_opts d) (_replCoord d) (_state d) (_fetcherPaused d) (_reporterPaused d)
     (_applierActive d) (_applierPaused d) (_oplogBuffer d) (_doShutdown d)
     (_syncSource d) (_fetcher d) (_tmpFetcher d) x (_reporter d)
     (_initialSyncState d) (_lastTimestampApplied d) (_lastTimestampFetched d)
     (_rollbackCommonOptime d) (_storage d) (_onShutdown d) (_batchCompletedFn d).
Definition set__reporter (x : option Reporter.t) (d : t) : t :=
  mk (_opts d) (_replCoord d) (_state d) (_fetcherPaused d) (_reporterPaused d)
     (_applierActive d) (_applierPaused d) (_oplogBuffer d) (_doShutdown d)
     (_syncSource d) (_fetcher d) (_tmpFetcher d) (_applier d) x (_initialSyncState d)
     (_lastTimestampApplied d) (_lastTimestampFetched d) (_rollbackCommonOptime d)
     (_storage d) (_onShutdown d) (_batchCompletedFn d).
Definition set__initialSyncState (x : option InitialSyncState.t) (d : t) : t :=
  mk (_opts d) (_replCoord d) (_state d) (_fetcherPaused d) (_reporterPaused d)
     (_applierActive d) (_applierPaused d) (_oplogBuffer d) (_doShutdown d)
     (_syncSource d) (_fetcher d) (_tmpFetcher d) (_applier d) (_reporter d) x
     (_lastTimestampApplied d) (_lastTimestampFetched d) (_rollbackCommonOptime d)
     (_storage d) (_onShutdown d) (_batchCompletedFn d).
Definition set__lastTimestampApplied (x : Timestamp) (d : t) : t :=
  mk (_opts d) (_replCoord d) (_state d) (_fetcherPaused d) (_reporterPaused d)
     (_applierActive d) (_applierPaused d) (_oplogBuffer d) (_doShutdown d)
     (_syncSource d) (_fetcher d) (_tmpFetcher d) (_applier d) (_reporter d)
     (_initialSyncState d) x (_lastTimestampFetched d) (_rollbackCommonOptime d)
     (_storage d) (_onShutdown d) (_batchCompletedFn d).
Definition set__lastTimestampFetched (x : Timestamp) (d : t) : t :=
  mk (_opts d) (_replCoord d) (_state d) (_fetcherPaused d) (_reporterPaused d)
     (_applierActive d) (_applierPaused d) (_oplogBuffer d) (_doShutdown d)
     (_syncSource d) (_fetcher d) (_tmpFetcher d) (_applier d) (_reporter d)
     (_initialSyncState d) (_lastTimestampApplied d) x (_rollbackCommonOptime d)
     (_storage d) (_onShutdown d) (_batchCompletedFn d).
Definition set__rollbackCommonOptime (x : Timestamp) (d : t) : t :=
  mk (_opts d) (_replCoord d) (_state d) (_fetcherPaused d) (_reporterPaused d)
     (_applierActive d) (_applierPaused d) (_oplogBuffer d) (_doShutdown d)
     (_syncSource d) (_fetcher d) (_tmpFetcher d) (_applier d) (_reporter d)
     (_initialSyncState d) (_lastTimestampApplied d) (_lastTimestampFetched d) x
     (_storage d) (_onShutdown d) (_batchCompletedFn d).
Definition set__storage (x : option StorageInterface) (d : t) : t :=
  mk (_opts d) (_replCoord d) (_state d) (_fetcherPaused d) (_reporterPaused d)
     (_applierActive d) (_applierPaused d) (_oplogBuffer d) (_doShutdown d)
     (_syncSource d) (_fetcher d) (_tmpFetcher d) (_applier d) (_reporter d)
     (_initialSyncState d) (_lastTimestampApplied d) (_lastTimestampFetched d)
     (_rollbackCommonOptime d) x (_onShutdown d) (_batchCompletedFn d).
Definition set__onShutdown (x : Event) (d : t) : t :=
  mk (_opts d) (_replCoord d) (_state d) (_fetcherPaused d) (_reporterPaused d)
     (_applierActive d) (_applierPaused d) (_oplogBuffer d) (_doShutdown d)
     (_syncSource d) (_fetcher d) (_tmpFetcher d) (_applier d) (_reporter d)
     (_initialSyncState d) (_lastTimestampApplied d) (_lastTimestampFetched d)
     (_rollbackCommonOptime d) (_storage d) x (_batchCompletedFn d).
End DataReplicator.

(** ** External calls *)

(** [Ext X] is a call into a collaborator that answers with an [X].
    - [Exec_waitForEvent e cur] blocks the caller while the executor runs
      callbacks against the replicator [cur]; the answer is the replicator
      as they left it.
    - [Fetcher_wait f] waits for a fetcher to finish; the answer lists the
      batches it handed to its callback meanwhile.
    - [DatabaseCloner_new name] answers [false] when the constructor throws.
    - [Invoke_work] and [Invoke_finishFn] run a callback of the owner;
      [Invoke_work] answers with the value the callback leaves in
      [*nextAction].
    - [Indeterminate_size_t] is the value found in a [size_t] member that no
      constructor initialised. *)
Inductive Ext : Type -> Type :=
(* executor *)
| Exec_isRunThread : Ext bool
| Exec_now : Ext Date_t
| Exec_makeEvent : Ext (StatusWith Event)
| Exec_signalEvent (e : Event) : Ext unit
| Exec_waitForEvent (e : Event) (cur : DataReplicator.t) : Ext DataReplicator.t
| Exec_scheduleWork (w : Work) : Ext CBHStatus
| Exec_scheduleWorkAt (when : Date_t) (w : Work) : Ext CBHStatus
| Exec_scheduleRemoteCommand (r : Request.t) (w : Work) : Ext CBHStatus
(* replication coordinator *)
| Coord_chooseNewSyncSource : Ext HostAndPort
| Coord_getMyLastOptime : Ext OpTime
| Coord_setMyLastOptime (ot : OpTime) : Ext unit
| Coord_blacklistSyncSource (h : HostAndPort) (until : Date_t) : Ext unit
| Coord_setFollowerMode (m : MemberState.t) : Ext bool
(* cursor fetcher *)
| Fetcher_schedule (f : Fetcher.t) : Ext Status.t
| Fetcher_isActive (f : Fetcher.t) : Ext bool
| Fetcher_wait (f : Fetcher.t) : Ext (list (BatchDataStatus * NextAction.t))
(* applier, reporter, per-database cloner *)
| Applier_start (a : Applier.t) : Ext Status.t
| Applier_isActive (a : Applier.t) : Ext bool
| Reporter_getStatus (r : Reporter.t) : Ext Status.t
| Reporter_isActive (r : Reporter.t) : Ext bool
| Reporter_cancel (r : Reporter.t) : Ext unit
| Reporter_trigger (r : Reporter.t) : Ext unit
| DatabaseCloner_new (name : string) : Ext bool
| DatabaseCloner_start (name : string) : Ext Status.t
(* callbacks of the owner *)
| Invoke_work (fn : CallbackFn) (r : BatchDataStatus) (na : NextAction.t) : Ext NextAction.t
| Invoke_finishFn (fn : FinishFn) (s : Status.t) : Ext unit
(* process *)
| FailPoint (name : string) : Ext bool
| sleepmillis (ms : Z) : Ext unit
| Indeterminate_size_t : Ext Z.

(** ** Programs, faults and the monad *)

(** The ways a call stops short of returning.  [LoopBound] belongs to the
    embedding: it marks a loop that would run longer than its fuel. *)
Inductive Fault : Type :=
| NullDereference (what : string)
| InvariantFailure (what : string)
| FatalAssertion (msgid : Z) (s : Status.t)
| UncaughtException (what : string)
| UndefinedBehaviour (what : string)
| LoopBound.

Inductive Res (A : Type) : Type :=
| Val (a : A)
| Crash (f : Fault).
Arguments Val {A} a.
Arguments Crash {A} f.

Inductive Prog (R : Type) : Type :=
| Ret (r : R)
| Call (X : Type) (e : Ext X) (k : X -> Prog R).
Arguments Ret {R} r.
Arguments Call {R X} e k.

Fixpoint pbind {A B} (p : Prog A) (f : A -> Prog B) : Prog B :=
  match p with
  | Ret a => f a
  | Call e k => Call e (fun x => pbind (k x) f)
  end.

(** A member function of an object of type [S] returning [A]. *)
Definition M (S A : Type) : Type := S -> Prog (Res A * S).

Definition ret {S A} (a : A) : M S A := fun s => Ret (Val a, s).

Definition bind {S A B} (m : M S A) (f : A -> M S B) : M S B :=
  fun s => pbind (m s) (fun rs =>
    match fst rs with
    | Val a => f a (snd rs)
    | Crash x => Ret (Crash x, snd rs)
    end).

Definition crash {S A} (x : Fault) : M S A := fun s => Ret (Crash x, s).
Definition get {S} : M S S := fun s => Ret (Val s, s).
Definition gets {S A} (f : S -> A) : M S A := fun s => Ret (Val (f s), s).
Definition modify {S} (f : S -> S) : M S unit := fun s => Ret (Val tt, f s).
Definition call {S X} (e : Ext X) : M S X := fun s => Call e (fun x => Ret (Val x, s)).

Declare Scope prog_scope.
Delimit Scope prog_scope with prog.
Notation "x <- m ;; k" := (bind m (fun x => k))
  (at level 61, m at next level, right associativity) : prog_scope.
Notation "m ;; k" := (bind m (fun _ => k))
  (at level 61, right associativity) : prog_scope.
Local Open Scope prog_scope.

Definition invariant {S} (b : bool) (what : string) : M S unit :=
  if b then ret tt else crash (InvariantFailure what).

Definition when {S} (b : bool) (m : M S unit) : M S unit :=
  if b then m else ret tt.

(** Dereferencing a smart pointer. *)
Definition deref {S A} (p : option A) (what : string) : M S A :=
  match p with
  | Some a => ret a
  | None => crash (NullDereference what)
  end.

Definition StatusWith_getValue {S T} (sw : StatusWith T) : M S T :=
  match sw with
  | SWValue v => ret v
  | SWStatus _ => crash (InvariantFailure "StatusWith::getValue")
  end.

(** Running a member function of a sub-object held inside [S]. *)
Definition zoom {S T A} (getT : S -> T) (setT : T -> S -> S) (m : M T A) : M S A :=
  fun s => pbind (m (getT s)) (fun rt => Ret (fst rt, setT (snd rt) s)).

(** Running a member function through a smart pointer held inside [S]. *)
Definition zoom_ptr {S T A} (getP : S -> option T) (setP : T -> S -> S) (what : string)
    (m : M T A) : M S A :=
  fun s =>
    match getP s with
    | Some t => pbind (m t) (fun rt => Ret (fst rt, setP (snd rt) s))
    | None => Ret (Crash (NullDereference what), s)
    end.

(** ** Running a program against an environment *)

Inductive Obs : Type :=
| obs (X : Type) (e : Ext X) (x : X).
Arguments obs {X} e x.

Definition Trace := list Obs.

Definition Handler (ES : Type) : Type := forall X, Ext X -> ES -> X * ES.

(** The answer of the environment to a call, and the environment after it. *)
Definition ask {ES X} (h : Handler ES) (e : Ext X) (es : ES) : X := fst (h X e es).
Definition next {ES X} (h : Handler ES) (e : Ext X) (es : ES) : ES := snd (h X e es).

Fixpoint run {ES R} (h : Handler ES) (p : Prog R) (es : ES) : R * ES * Trace :=
  match p with
  | Ret r => (r, es, [])
  | Call e k =>
      let rt := run h (k (ask h e es)) (next h e es) in
      (fst (fst rt), snd (fst rt), obs e (ask h e es) :: snd rt)
  end.

Definition result {ES R} (h : Handler ES) (p : Prog R) (es : ES) : R :=
  fst (fst (run h p es)).
Definition trace {ES R} (h : Handler ES) (p : Prog R) (es : ES) : Trace :=
  snd (run h p es).

(** ** QueryFetcher and OplogFetcher *)

(** The virtual interface of [QueryFetcher]: a class with a [QueryFetcher]
    sub-object and its override of [_delegateCallback]. *)
Class QueryFetcherClass (T : Type) : Type := {
  as_QueryFetcher : T -> QueryFetcher.t;
  with_QueryFetcher : QueryFetcher.t -> T -> T;
  _delegateCallback : BatchDataStatus -> NextAction.t -> M T NextAction.t
}.

Definition QueryFetcher_new (src : HostAndPort) (nss : NamespaceString)
    (cmdBSON : BSONObj) (work : CallbackFn) : QueryFetcher.t :=
  QueryFetcher.mk (Fetcher.mk src (NamespaceString_db nss) cmdBSON work) 0 work.

Definition QueryFetcher_isActive {S} (q : QueryFetcher.t) : M S bool :=
  call (Fetcher_isActive (QueryFetcher._fetcher q)).

Definition QueryFetcher_schedule {S} (q : QueryFetcher.t) : M S Status.t :=
  call (Fetcher_schedule (QueryFetcher._fetcher q)).

Definition QueryFetcher__delegateCallback (fetchResult : BatchDataStatus)
    (nextAction : NextAction.t) : M QueryFetcher.t NextAction.t :=
  q <- get ;;
  call (Invoke_work (QueryFetcher._work q) fetchResult nextAction).

Definition QueryFetcher__onFetchCallback {T} {C : QueryFetcherClass T}
    (fetchResult : BatchDataStatus) (nextAction : NextAction.t)
    (getMoreBob : option BSONObj) : M T (NextAction.t * option BSONObj) :=
  modify (fun o =>
    let q := as_QueryFetcher o in
    with_QueryFetcher
      (QueryFetcher.set__responses (int_wrap (QueryFetcher._responses q + 1)) q) o) ;;
  nextAction <- _delegateCallback fetchResult nextAction ;;
  (* The fetcher will continue to call with kGetMore until an error or the last batch. *)
  if StatusWith_isOK fetchResult && NextAction.eqb nextAction NextAction.kGetMore then
    batchData <- StatusWith_getValue fetchResult ;;
    bob <- match getMoreBob with
           | Some b => ret b
           | None => crash (InvariantFailure "getMoreBob")
           end ;;
    ret (nextAction,
         Some (bob ++ [("getMore", BSONNumber (BatchData.cursorId batchData));
                       ("collection",
                        BSONString (NamespaceString_coll (BatchData.nss batchData)))]))
  else ret (nextAction, getMoreBob).

Definition OplogFetcher_new (startTS : Timestamp) (src : HostAndPort)
    (oplogNSS : NamespaceString) (work : CallbackFn) : OplogFetcher.t :=
  OplogFetcher.mk
    (QueryFetcher_new src oplogNSS
       [("find", BSONString (NamespaceString_coll oplogNSS));
        ("query", BSONObject [("ts", BSONObject [("$gte", BSONTimestamp startTS)])])]
       work)
    startTS.

Definition OplogFetcher_getStartTimestamp (o : OplogFetcher.t) : Timestamp :=
  OplogFetcher._startTS o.

Definition OplogFetcher__delegateCallback (fetchResult : BatchDataStatus)
    (nextAction : NextAction.t) : M OplogFetcher.t NextAction.t :=
  onRunThread <- call Exec_isRunThread ;;
  invariant onRunThread "_exec->isRunThread()" ;;
  o <- get ;;
  let _work := QueryFetcher._work (OplogFetcher.base o) in
  let _startTS := OplogFetcher._startTS o in
  let checkStartTS := QueryFetcher._responses (OplogFetcher.base o) =? 0 in
  if StatusWith_isOK fetchResult then
    batchData <- StatusWith_getValue fetchResult ;;
    let firstDoc := hd_error (BatchData.documents batchData) in
    match firstDoc with
    | None =>
        if checkStartTS then
          (* nextAction is set to kNoAction, then the message reads *firstDoc *)
          crash (UndefinedBehaviour "*firstDoc at documents.end()")
        else ret nextAction
    | Some doc =>
        if checkStartTS
           && negb (BSONElement_timestamp (BSONObj_getField doc "ts") =? _startTS)
        then
          call (Invoke_work _work
                  (SWStatus
                     (Status.mk ErrorCodes.OplogStartMissing
                        [Str "First returned ";
                         ShowElement (BSONObj_getField doc "ts");
                         Str " is not where we wanted to start: ";
                         ShowTimestamp _startTS]))
                  NextAction.kNoAction)
        else call (Invoke_work _work fetchResult nextAction)
    end
  else call (Invoke_work _work fetchResult nextAction).

#[export] Instance QueryFetcher_class : QueryFetcherClass QueryFetcher.t := {
  as_QueryFetcher := fun q => q;
  with_QueryFetcher := fun q _ => q;
  _delegateCallback := QueryFetcher__delegateCallback
}.

#[export] Instance OplogFetcher_class : QueryFetcherClass OplogFetcher.t := {
  as_QueryFetcher := OplogFetcher.base;
  with_QueryFetcher := OplogFetcher.set_base;
  _delegateCallback := OplogFetcher__delegateCallback
}.

(** ** DatabasesCloner *)

(** The constructor leaves [_storage] uninitialised; it is modelled as an
    empty pointer. *)
Definition DatabasesCloner_new (source : HostAndPort) (finishFn : option FinishFn)
    : DatabasesCloner.t :=
  let c := DatabasesCloner.mk (Status.mk ErrorCodes.NotYetInitialized [])
             source false [] 0 finishFn None in
  match finishFn with
  | Some _ => c
  | None =>
      DatabasesCloner.set__status
        (Status.mk ErrorCodes.InvalidOptions [Str "finishFn is not callable."]) c
  end.

Definition DatabasesCloner_isActive (c : DatabasesCloner.t) : bool :=
  DatabasesCloner._active c.

Definition DatabasesCloner_getStatus (c : DatabasesCloner.t) : Status.t :=
  DatabasesCloner._status c.

Definition DatabasesCloner_setStorageInterface (si : option StorageInterface)
    : M DatabasesCloner.t unit :=
  modify (DatabasesCloner.set__storage si).

(** Setting the status to not-OK will stop the process. *)
Definition DatabasesCloner__setStatus (s : Status.t) : M DatabasesCloner.t unit :=
  c <- get ;;
  (* Only set the first time called, all subsequent failures are not recorded --only first *)
  if negb (ErrorCodes.eqb (Status.code (DatabasesCloner._status c)) ErrorCodes.NotYetInitialized)
  then modify (DatabasesCloner.set__status s)
  else ret tt.

Definition DatabasesCloner__setStatus_CBH (s : CBHStatus) : M DatabasesCloner.t unit :=
  DatabasesCloner__setStatus (StatusWith_getStatus s).

(** Calling [_finishFn]: an empty std::function throws. *)
Definition DatabasesCloner_call_finishFn (s : Status.t) : M DatabasesCloner.t unit :=
  c <- get ;;
  match DatabasesCloner._finishFn c with
  | Some fn => call (Invoke_finishFn fn s)
  | None => crash (UncaughtException "std::bad_function_call")
  end.

Definition DatabasesCloner__failed : M DatabasesCloner.t unit :=
  (* TODO: cancel outstanding work, like any cloners active *)
  c <- get ;;
  invariant (match DatabasesCloner._finishFn c with Some _ => true | None => false end)
            "_finishFn" ;;
  DatabasesCloner_call_finishFn (DatabasesCloner._status c).

Definition DatabasesCloner__doNextActions : M DatabasesCloner.t unit :=
  c <- get ;;
  (* If we are no longer active or we had an error, stop doing more *)
  if negb (DatabasesCloner._active c && Status.isOK (DatabasesCloner._status c)) then
    if negb (Status.isOK (DatabasesCloner._status c)) then
      (* trigger failed state *)
      DatabasesCloner__failed
    else ret tt
  else ret tt.

Definition DatabasesCloner_cancel : M DatabasesCloner.t unit :=
  c <- get ;;
  if negb (DatabasesCloner._active c) then ret tt
  else
    modify (DatabasesCloner.set__active false) ;;
    (* TODO: cancel all cloners *)
    DatabasesCloner__setStatus
      (Status.mk ErrorCodes.CallbackCanceled [Str "Initial Sync Cancelled."]).

Definition DatabasesCloner_start : M DatabasesCloner.t Status.t :=
  modify (DatabasesCloner.set__active true) ;;
  c <- get ;;
  if negb (Status.isOK (DatabasesCloner._status c))
     && negb (ErrorCodes.eqb (Status.code (DatabasesCloner._status c))
                ErrorCodes.NotYetInitialized)
  then ret (DatabasesCloner._status c)
  else
    modify (DatabasesCloner.set__status Status.OK) ;;
    (* Schedule listDatabase command which will kick off the database cloner per result db. *)
    s <- call (Exec_scheduleRemoteCommand
                 (Request.mk (DatabasesCloner._source c) "admin"
                    [("listDatabases", BSONBool true)])
                 Work_onListDatabaseFinish) ;;
    when (negb (StatusWith_isOK s))
         (DatabasesCloner__setStatus_CBH s ;; DatabasesCloner__failed) ;;
    DatabasesCloner__doNextActions ;;
    gets DatabasesCloner._status.

(** Called each time a database clone is finished. *)
Definition DatabasesCloner__onEachDBCloneFinish (status : Status.t) (name : string)
    : M DatabasesCloner.t unit :=
  c <- get ;;
  let clonersLeft := int_wrap (DatabasesCloner._clonersActive c - 1) in
  modify (DatabasesCloner.set__clonersActive clonersLeft) ;;
  when (negb (Status.isOK status)) (DatabasesCloner__setStatus status) ;;
  when (clonersLeft =? 0)
       (modify (DatabasesCloner.set__active false) ;;
        (* All cloners are done, trigger event. *)
        c <- get ;;
        DatabasesCloner_call_finishFn (DatabasesCloner._status c)) ;;
  DatabasesCloner__doNextActions.

(** The body of the [BSONForEach] loop over the [databases] array of the
    [listDatabases] reply; [break] ends the loop. *)
Fixpoint DatabasesCloner_forEachDatabase (dbsElem : BSONObj) : M DatabasesCloner.t unit :=
  match dbsElem with
  | [] => ret tt
  | (_, arrayElement) :: rest =>
      dbBSON <- match BSONElement_Obj arrayElement with
                | Some o => ret o
                | None => crash (UncaughtException "BSONElement::Obj")
                end ;;
      let name := BSONElement_str (BSONObj_getField dbBSON "name") in
      modify (fun c => DatabasesCloner.set__clonersActive
                         (int_wrap (DatabasesCloner._clonersActive c + 1)) c) ;;
      created <- call (DatabaseCloner_new name) ;;
      s <- (if created : bool then call (DatabaseCloner_start name)
            else ret (Status.mk ErrorCodes.UnknownError [Str "Bad!"])) ;;
      if negb (Status.isOK s) then
        DatabasesCloner__setStatus
          (Status.mk ErrorCodes.InitialSyncFailure
             ([Str "could not create cloner for database: "; Str name; Str " due to: "]
              ++ Status.toString s))
        (* exit for_each loop *)
      else
        (* add cloner to list. *)
        modify (fun c => DatabasesCloner.set__databaseCloners
                           (DatabasesCloner._databaseCloners c ++ [name]) c) ;;
        DatabasesCloner_forEachDatabase rest
  end.

Definition DatabasesCloner__onListDatabaseFinish (response : StatusWith BSONObj)
    : M DatabasesCloner.t unit :=
  onRunThread <- call Exec_isRunThread ;;
  invariant onRunThread "_exec->isRunThread()" ;;
  let respStatus := StatusWith_getStatus response in
  if negb (Status.isOK respStatus) then
    (* TODO: retry internally? *)
    DatabasesCloner__setStatus respStatus ;;
    DatabasesCloner__doNextActions
  else
    respBSON <- StatusWith_getValue response ;;
    c <- get ;;
    (* There should not be any cloners yet *)
    invariant (Nat.eqb (List.length (DatabasesCloner._databaseCloners c)) 0)
              "_databaseCloners.size() == 0" ;;
    let okElem := BSONObj_getField respBSON "ok" in
    (if BSONElement_trueValue okElem then
       dbsElem <- match BSONElement_Obj (BSONObj_getField respBSON "databases") with
                  | Some o => ret o
                  | None => crash (UncaughtException "BSONElement::Obj")
                  end ;;
       DatabasesCloner_forEachDatabase dbsElem
     else
       DatabasesCloner__setStatus
         (Status.mk ErrorCodes.InitialSyncFailure
            [Str "failed to clone databases due to failed server response."])) ;;
    (* Move on to the next steps in the process. *)
    DatabasesCloner__doNextActions.

(** ** InitialSyncState *)

(** The constructor initialises [dbsCloner], [finishEvent] and [status]; the
    timestamps are default-constructed, and the two [size_t] counters are
    left uninitialised: their first values are given by the caller. *)
Definition InitialSyncState_new (cloner : DatabasesCloner.t) (event : Event)
    (fetchedMissingDocs0 appliedOps0 : Z) : InitialSyncState.t :=
  InitialSyncState.mk cloner Timestamp_null Timestamp_null event
    (Status.mk ErrorCodes.IllegalOperation [])
    (size_t_wrap fetchedMissingDocs0) (size_t_wrap appliedOps0).

Definition InitialSyncState_setStatus (s : Status.t) : M InitialSyncState.t unit :=
  modify (InitialSyncState.set_status s).

Definition InitialSyncState_setStatus_CBH (s : CBHStatus) : M InitialSyncState.t unit :=
  InitialSyncState_setStatus (StatusWith_getStatus s).

Definition InitialSyncState__setTimestampSatus {S} (fetchResult : BatchDataStatus)
    (nextAction : NextAction.t) (status : TimestampStatus) : M S TimestampStatus :=
  if negb (StatusWith_isOK fetchResult) then
    ret (SWStatus (StatusWith_getStatus fetchResult))
  else
    (* TODO: Set _beginTimestamp from first doc "ts" field. *)
    batchData <- StatusWith_getValue fetchResult ;;
    match hd_error (BatchData.documents batchData) with
    | None =>
        ret (SWStatus (Status.mk ErrorCodes.FailedToParse
                         [Str "Could not find an oplog entry with 'ts' field."]))
    | Some doc =>
        if negb (BSONObj_hasField doc "ts") then
          ret (SWStatus (Status.mk ErrorCodes.FailedToParse
                           [Str "Could not find an oplog entry with 'ts' field."]))
        else ret (SWValue (BSONElement_timestamp (BSONObj_getField doc "ts")))
    end.

(** The batches the fetcher hands to the bound callback while the caller
    waits on it. *)
Fixpoint InitialSyncState_deliver {S} (batches : list (BatchDataStatus * NextAction.t))
    (status : TimestampStatus) : M S TimestampStatus :=
  match batches with
  | [] => ret status
  | (fetchResult, nextAction) :: rest =>
      status <- InitialSyncState__setTimestampSatus fetchResult nextAction status ;;
      InitialSyncState_deliver rest status
  end.

Definition InitialSyncState_getLatestOplogTimestamp {S} (source : HostAndPort)
    (oplogNS : NamespaceString) : M S TimestampStatus :=
  let query := [("find", BSONString (NamespaceString_coll oplogNS));
                ("sort", BSONObject [("$natural", BSONNumber (-1))]);
                ("limit", BSONNumber 1)] in
  let timestampStatus : TimestampStatus := SWStatus (Status.mk ErrorCodes.BadValue []) in
  let f := Fetcher.mk source (NamespaceString_db oplogNS) query Bound_setTimestampSatus in
  s <- call (Fetcher_schedule f) ;;
  if negb (Status.isOK s) then ret (SWStatus s)
  else
    (* wait for fetcher to get the oplog position. *)
    batches <- call (Fetcher_wait f) ;;
    InitialSyncState_deliver batches timestampStatus.

(** ** DataReplicator *)

(** The constructor does not initialise [_storage]; it is modelled as an
    empty pointer.  [_syncSource], the timestamps and [_onShutdown] are
    default-constructed. *)
Definition DataReplicator_new (opts : DataReplicatorOptions.t)
    (replCoord : option ReplicationCoordinator) : DataReplicator.t :=
  DataReplicator.mk opts replCoord DataReplicatorState.Uninitialized
    false false false false
    []                       (* _oplogBuffer, limited to 256MB *)
    false
    HostAndPort_default None None None None None
    Timestamp_null Timestamp_null Timestamp_null
    None Event_invalid
    (* TODO: replace this with a method in the replication coordinator. *)
    (match replCoord with Some _ => SetMyLastOptime | None => DoNothing end).

Definition DataReplicator_new2 (opts : DataReplicatorOptions.t) : DataReplicator.t :=
  DataReplicator_new opts None.

Definition is_some {A} (o : option A) : bool :=
  match o with Some _ => true | None => false end.

Definition is_nil {A} (l : list A) : bool :=
  match l with [] => true | _ :: _ => false end.

(** [_initialSyncState->...] *)
Definition DataReplicator_initialSyncState : M DataReplicator.t InitialSyncState.t :=
  d <- get ;;
  deref (DataReplicator._initialSyncState d) "_initialSyncState".

Definition DataReplicator_on_initialSyncState {A} (m : M InitialSyncState.t A)
    : M DataReplicator.t A :=
  zoom_ptr DataReplicator._initialSyncState
    (fun i => DataReplicator.set__initialSyncState (Some i)) "_initialSyncState" m.

Definition DataReplicator_on_dbsCloner {A} (m : M DatabasesCloner.t A)
    : M DataReplicator.t A :=
  DataReplicator_on_initialSyncState
    (zoom InitialSyncState.dbsCloner InitialSyncState.set_dbsCloner m).

Definition DataReplicator__ensureGoodSyncSource_inlock : M DataReplicator.t Status.t :=
  d <- get ;;
  if HostAndPort_empty (DataReplicator._syncSource d) then
    match DataReplicator._replCoord d with
    | Some _ =>
        src <- call Coord_chooseNewSyncSource ;;
        modify (DataReplicator.set__syncSource src) ;;
        if negb (HostAndPort_empty src) then ret Status.OK
        else ret (Status.mk ErrorCodes.InvalidSyncSource [Str "No valid sync source."])
    | None =>
        (* set this back to the options source *)
        modify (DataReplicator.set__syncSource
                  (DataReplicatorOptions.syncSource (DataReplicator._opts d))) ;;
        ret (Status.mk ErrorCodes.InvalidSyncSource [Str "No valid sync source."])
    end
  else ret Status.OK.

Definition DataReplicator__scheduleFetch_inlock : M DataReplicator.t Status.t :=
  d <- get ;;
  early <-
    match DataReplicator._fetcher d with
    | Some _ => ret None
    | None =>
        startOptime <-
          match DataReplicator._replCoord d with
          | Some _ => ot <- call Coord_getMyLastOptime ;; ret (OpTime_getTimestamp ot)
          | None => ret (DataReplicatorOptions.startOptime (DataReplicator._opts d))
          end ;;
        good <- DataReplicator__ensureGoodSyncSource_inlock ;;
        failed <-
          (if negb (Status.isOK good) then
             status <- call (Exec_scheduleWork Work_doNextActions) ;;
             ret (if negb (StatusWith_isOK status)
                  then Some (StatusWith_getStatus status) else None)
           else ret None) ;;
        match failed with
        | Some status => ret (Some status)
        | None =>
            d <- get ;;
            let remoteOplogNS := DataReplicatorOptions.remoteOplogNS (DataReplicator._opts d) in
            (* TODO: add query options await_data, oplog_replay *)
            modify (DataReplicator.set__fetcher
                      (Some (OplogFetcher_new startOptime (DataReplicator._syncSource d)
                               remoteOplogNS Bound_onOplogFetchFinish))) ;;
            ret None
        end
    end ;;
  match early with
  | Some status => ret status
  | None =>
      d <- get ;;
      f <- deref (DataReplicator._fetcher d) "_fetcher" ;;
      active <- QueryFetcher_isActive (OplogFetcher.base f) ;;
      if negb active then
        status <- QueryFetcher_schedule (OplogFetcher.base f) ;;
        if negb (Status.isOK status) then ret status else ret Status.OK
      else ret Status.OK
  end.

(** [while (_oplogBuffer.tryPop(op)) ops.push_back(op);] *)
Fixpoint DataReplicator_popAll (buffer : list BSONObj) (ops : Operations)
    : Operations * list BSONObj :=
  match buffer with
  | [] => (ops, [])
  | op :: rest => DataReplicator_popAll rest (ops ++ [op])
  end.

Definition DataReplicator__getNextApplierBatch_inlock : M DataReplicator.t Operations :=
  (* TODO: limit the batch like SyncTail::tryPopAndWaitForMore *)
  d <- get ;;
  let r := DataReplicator_popAll (DataReplicator._oplogBuffer d) [] in
  modify (DataReplicator.set__oplogBuffer (snd r)) ;;
  ret (fst r).

Definition DataReplicator__scheduleApplyBatch_inlock_ops (ops : Operations)
    : M DataReplicator.t Status.t :=
  let a := Applier.mk ops in
  modify (DataReplicator.set__applier (Some a)) ;;
  call (Applier_start a).

Definition DataReplicator__scheduleApplyBatch_inlock : M DataReplicator.t Status.t :=
  d <- get ;;
  if negb (DataReplicator._applierPaused d) && negb (DataReplicator._applierActive d) then
    modify (DataReplicator.set__applierActive true) ;;
    ops <- DataReplicator__getNextApplierBatch_inlock ;;
    invariant (negb (is_nil ops)) "ops.size()" ;;
    invariant (is_some (DataReplicatorOptions.applierFn (DataReplicator._opts d)))
              "_opts.applierFn" ;;
    active <- match DataReplicator._applier d with
              | Some a => call (Applier_isActive a)
              | None => ret false
              end ;;
    invariant (negb active) "!(_applier && _applier->isActive())" ;;
    DataReplicator__scheduleApplyBatch_inlock_ops ops
  else ret Status.OK.

Definition DataReplicator__doNextActions_Steady_inlock : M DataReplicator.t unit :=
  (* Check sync source is still good. *)
  d <- get ;;
  when (HostAndPort_empty (DataReplicator._syncSource d))
       (deref (DataReplicator._replCoord d) "_replCoord" ;;
        src <- call Coord_chooseNewSyncSource ;;
        modify (DataReplicator.set__syncSource src)) ;;
  d <- get ;;
  (if HostAndPort_empty (DataReplicator._syncSource d) then
     (* No sync source, reschedule check *)
     now <- call Exec_now ;;
     let when_ := now + DataReplicatorOptions.syncSourceRetryWait (DataReplicator._opts d) in
     (* schedule self-callback w/executor *)
     call (Exec_scheduleWorkAt when_ Work_doNextActions) ;;
     ret tt
   else
     (* Check if active fetch, if not start one *)
     active <- match DataReplicator._fetcher d with
               | Some f => QueryFetcher_isActive (OplogFetcher.base f)
               | None => ret false
               end ;;
     when (negb active) (DataReplicator__scheduleFetch_inlock ;; ret tt)) ;;
  (* Check if no active apply and ops to apply; _oplogBuffer.size() is the
     number of bytes buffered, zero only for an empty buffer *)
  d <- get ;;
  when (negb (DataReplicator._applierActive d) && negb (is_nil (DataReplicator._oplogBuffer d)))
       (DataReplicator__scheduleApplyBatch_inlock ;; ret tt) ;;
  d <- get ;;
  if negb (DataReplicator._reporterPaused d) then
    bad <- match DataReplicator._reporter d with
           | None => ret true
           | Some r => s <- call (Reporter_getStatus r) ;; ret (negb (Status.isOK s))
           end ;;
    (* TODO get reporter in good shape *)
    when bad
         (modify (DataReplicator.set__reporter
                    (Some (Reporter.mk (is_some (DataReplicator._replCoord d))
                             (DataReplicator._syncSource d)))))
  else ret tt.

Definition DataReplicator__doNextActions_Rollback_inlock : M DataReplicator.t unit :=
  (* TODO: check rollback state and do next actions *)
  ret tt.

Definition DataReplicator__changeStateIfNeeded : M DataReplicator.t unit :=
  (* TODO *)
  ret tt.

Definition DataReplicator__doNextActions_InitialSync_inlock : M DataReplicator.t unit :=
  d <- get ;;
  match DataReplicator._initialSyncState d with
  | None =>
      (* TODO: Error case?, reset to uninit'd *)
      modify (DataReplicator.set__state DataReplicatorState.Uninitialized)
  | Some iss =>
      if negb (DatabasesCloner_isActive (InitialSyncState.dbsCloner iss)) then
        if negb (Status.isOK (DatabasesCloner_getStatus (InitialSyncState.dbsCloner iss))) then
          (* TODO: Initial sync failed *)
          ret tt
        else if negb (Timestamp_isNull (DataReplicator._lastTimestampApplied d))
                && (DataReplicator._lastTimestampApplied d
                      >=? InitialSyncState.stopTimestamp iss) then
          invariant (Event_isValid (InitialSyncState.finishEvent iss))
                    "_initialSyncState->finishEvent.isValid()" ;;
          modify (DataReplicator.set__state DataReplicatorState.Uninitialized) ;;
          DataReplicator_on_initialSyncState (InitialSyncState_setStatus Status.OK) ;;
          call (Exec_signalEvent (InitialSyncState.finishEvent iss))
        else
          (* Run steady state events to fetch/apply. *)
          DataReplicator__doNextActions_Steady_inlock
      else ret tt
  end.

Definition DataReplicator__anyActiveHandles_inlock : M DataReplicator.t bool :=
  d <- get ;;
  if DataReplicator._applierActive d then ret true else
  fetching <- match DataReplicator._fetcher d with
              | Some f => QueryFetcher_isActive (OplogFetcher.base f)
              | None => ret false
              end ;;
  if fetching : bool then ret true else
  if match DataReplicator._initialSyncState d with
     | Some iss => DatabasesCloner_isActive (InitialSyncState.dbsCloner iss)
     | None => false
     end
  then ret true else
  match DataReplicator._reporter d with
  | Some r => call (Reporter_isActive r)
  | None => ret false
  end.

Definition DataReplicator__doNextActions : M DataReplicator.t unit :=
  (* Check for shutdown flag, signal event *)
  d <- get ;;
  if DataReplicator._doShutdown d then
    any <- DataReplicator__anyActiveHandles_inlock ;;
    when (negb any) (call (Exec_signalEvent (DataReplicator._onShutdown d)))
  else
    (* Do work for the current state *)
    match DataReplicator._state d with
    | DataReplicatorState.Rollback =>
        DataReplicator__doNextActions_Rollback_inlock ;;
        DataReplicator__changeStateIfNeeded
    | DataReplicatorState.InitialSync =>
        DataReplicator__doNextActions_InitialSync_inlock ;;
        DataReplicator__changeStateIfNeeded
    | DataReplicatorState.Steady =>
        DataReplicator__doNextActions_Steady_inlock ;;
        DataReplicator__changeStateIfNeeded
    | DataReplicatorState.Uninitialized => ret tt
    end.

Definition DataReplicator_start : M DataReplicator.t Status.t :=
  d <- get ;;
  if negb (DataReplicatorState.eqb (DataReplicator._state d)
             DataReplicatorState.Uninitialized) then
    ret (Status.mk ErrorCodes.IllegalOperation
           [Str "Already started in another state: ";
            Str (toString (DataReplicator._state d))])
  else
    modify (DataReplicator.set__state DataReplicatorState.Steady) ;;
    modify (DataReplicator.set__applierPaused false) ;;
    modify (DataReplicator.set__fetcherPaused false) ;;
    modify (DataReplicator.set__reporterPaused false) ;;
    DataReplicator__doNextActions_Steady_inlock ;;
    ret Status.OK.

(** [_doNextActions()] called by a thread that holds [_mutex].  Its first
    statement, [LockGuard lk(_mutex)], locks the mutex again; [_mutex] is a
    [stdx::mutex], which is not recursive, so the behaviour is undefined and
    in practice the thread blocks for ever: the call does not return. *)
Definition DataReplicator__doNextActions_holding_mutex : M DataReplicator.t unit :=
  crash (UndefinedBehaviour "_mutex locked by the thread that owns it").

(** [_scheduleApplyAfterFetch] is called by [_handleFailedApplyBatch] only,
    and that by [_onApplyBatchFinish] only, which holds [_mutex] from its
    second statement on: the [_doNextActions()] of the failure branch runs
    with the mutex held. *)
Definition DataReplicator__scheduleApplyAfterFetch (ops : Operations)
    : M DataReplicator.t unit :=
  DataReplicator_on_initialSyncState
    (modify (fun i => InitialSyncState.set_fetchedMissingDocs
                        (size_t_wrap (InitialSyncState.fetchedMissingDocs i + 1)) i)) ;;
  (* TODO: check collection.isCapped, like SyncTail::getMissingDoc *)
  failedOplogEntry <- match ops with
                      | op :: _ => ret op
                      | [] => crash (UndefinedBehaviour "*ops.begin() of an empty batch")
                      end ;;
  let missingIdElem := BSONObj_getFieldDotted failedOplogEntry "o2" "_id" in
  let nss : NamespaceString := BSONElement_str (BSONObj_getField failedOplogEntry "ns") in
  let query := [("find", BSONString (NamespaceString_coll nss));
                ("query", BSONObject [("_id", missingIdElem)])] in
  d <- get ;;
  let tmp := QueryFetcher_new (DataReplicator._syncSource d) nss query
               (Bound_onMissingFetched ops nss) in
  modify (DataReplicator.set__tmpFetcher (Some tmp)) ;;
  s <- QueryFetcher_schedule tmp ;;
  if negb (Status.isOK s) then
    (* record error and take next step based on it. *)
    DataReplicator_on_initialSyncState (InitialSyncState_setStatus s) ;;
    DataReplicator__doNextActions_holding_mutex
  else ret tt.

Definition DataReplicator__handleFailedApplyBatch (ts : TimestampStatus) (ops : Operations)
    : M DataReplicator.t unit :=
  d <- get ;;
  match DataReplicator._state d with
  | DataReplicatorState.InitialSync =>
      (* TODO: fetch missing doc, and retry. *)
      DataReplicator__scheduleApplyAfterFetch ops
  | _ =>
      (* fatal *)
      crash (FatalAssertion 28666 (StatusWith_getStatus ts))
  end.

Definition DataReplicator_call_batchCompletedFn (ts : Timestamp) : M DataReplicator.t unit :=
  d <- get ;;
  match DataReplicator._batchCompletedFn d with
  | SetMyLastOptime =>
      deref (DataReplicator._replCoord d) "_replCoord" ;;
      call (Coord_setMyLastOptime (ts, 0))
  | DoNothing => ret tt
  end.

Definition DataReplicator__onApplyBatchFinish (cbData : CallbackArgs.t)
    (ts : TimestampStatus) (ops : Operations) (numApplied : Z) : M DataReplicator.t unit :=
  invariant (Status.isOK (CallbackArgs.status cbData)) "cbData.status.isOK()" ;;
  DataReplicator_on_initialSyncState
    (modify (fun i => InitialSyncState.set_appliedOps
                        (size_t_wrap (InitialSyncState.appliedOps i + numApplied)) i)) ;;
  if negb (StatusWith_isOK ts) then
    DataReplicator__handleFailedApplyBatch ts ops
  else
    modify (DataReplicator.set__applierActive false) ;;
    tsValue <- StatusWith_getValue ts ;;
    modify (DataReplicator.set__lastTimestampApplied tsValue) ;;
    DataReplicator_call_batchCompletedFn tsValue ;;
    (* TODO: move the reported to the replication coordinator *)
    d <- get ;;
    match DataReplicator._reporter d with
    | Some r => call (Reporter_trigger r)
    | None => ret tt
    end ;;
    DataReplicator__doNextActions.

Definition DataReplicator__needToRollback (source : HostAndPort) (lastApplied : Timestamp)
    : M DataReplicator.t bool :=
  let common := findCommonPoint source lastApplied in
  modify (DataReplicator.set__rollbackCommonOptime common) ;;
  if Timestamp_isNull common then ret false else ret true.

(** The scan of [_onOplogFetchFinish] for the last fetched document with a
    [ts]: [doc] runs from [docs.rbegin()] towards [docs.rend()]. *)
Fixpoint DataReplicator_lastTs_loop (tsElem : BSONElement) (doc : list BSONObj)
    : BSONElement :=
  match doc with
  | [] => tsElem
  | d :: rest =>
      if BSONElement_eoo tsElem
      then DataReplicator_lastTs_loop (BSONObj_getField d "ts") rest
      else tsElem
  end.

Definition DataReplicator__onOplogFetchFinish (fetchResult : BatchDataStatus)
    (nextAction : NextAction.t) : M DataReplicator.t unit :=
  onRunThread <- call Exec_isRunThread ;;
  invariant onRunThread "_exec->isRunThread()" ;;
  let status := StatusWith_getStatus fetchResult in
  if ErrorCodes.eqb (Status.code status) ErrorCodes.CallbackCanceled then ret tt
  else
    (if Status.isOK status then
       batchData <- StatusWith_getValue fetchResult ;;
       let docs := BatchData.documents batchData in
       match rev docs with
       | [] => ret tt
       | last :: _ =>
           modify (fun d => DataReplicator.set__oplogBuffer
                              (DataReplicator._oplogBuffer d ++ docs) d) ;;
           let tsElem :=
             DataReplicator_lastTs_loop (BSONObj_getField last "ts") (rev docs) in
           if negb (BSONElement_eoo tsElem)
           then modify (DataReplicator.set__lastTimestampFetched
                          (BSONElement_timestamp tsElem))
           else ret tt
       end
       (* kNoAction: TODO: create new fetcher?, with new query from where we left off *)
     else ret tt) ;;
    (if negb (Status.isOK status) then
       (* Got an error, now decide what to do... *)
       d <- get ;;
       match Status.code status with
       | ErrorCodes.OplogStartMissing =>
           (* possible rollback *)
           let didRollback := _didRollback (DataReplicator._syncSource d) in
           if negb didRollback then
             deref (DataReplicator._replCoord d) "_replCoord" ;;
             s <- call (Coord_setFollowerMode MemberState.RS_RECOVERING) ;;
             when (negb s)
                  (* the error message reads _fetcher->getStartTimestamp() *)
                  (deref (DataReplicator._fetcher d) "_fetcher" ;; ret tt) ;;
             now <- call Exec_now ;;
             let until := now + DataReplicatorOptions.blacklistSyncSourcePenaltyForOplogStartMissing
                                  (DataReplicator._opts d) in
             call (Coord_blacklistSyncSource (DataReplicator._syncSource d) until)
           else
             (* TODO: cleanup state/restart -- set _lastApplied, and other stuff *)
             ret tt
       | _ =>
           now <- call Exec_now ;;
           let until := now + DataReplicatorOptions.blacklistSyncSourcePenaltyForNetworkConnectionError
                                (DataReplicator._opts d) in
           deref (DataReplicator._replCoord d) "_replCoord" ;;
           call (Coord_blacklistSyncSource (DataReplicator._syncSource d) until)
       end ;;
       modify (DataReplicator.set__syncSource HostAndPort_default)
     else ret tt) ;;
    DataReplicator__doNextActions.

Definition DataReplicator__onDataClonerFinish (status : Status.t) : M DataReplicator.t unit :=
  if negb (Status.isOK status) then
    (* Initial sync failed during cloning of databases *)
    DataReplicator_on_initialSyncState (InitialSyncState_setStatus status) ;;
    iss <- DataReplicator_initialSyncState ;;
    call (Exec_signalEvent (InitialSyncState.finishEvent iss))
  else
    d <- get ;;
    let remoteOplogNS := DataReplicatorOptions.remoteOplogNS (DataReplicator._opts d) in
    let query := [("find", BSONString (NamespaceString_coll remoteOplogNS));
                  ("sort", BSONObject [("$natural", BSONNumber (-1))]);
                  ("limit", BSONNumber 1)] in
    let tmp := QueryFetcher_new (DataReplicator._syncSource d) remoteOplogNS query
                 Bound_onApplierReadyStart in
    modify (DataReplicator.set__tmpFetcher (Some tmp)) ;;
    s <- QueryFetcher_schedule tmp ;;
    if negb (Status.isOK s) then
      DataReplicator_on_initialSyncState (InitialSyncState_setStatus s)
    else ret tt.

Definition DataReplicator__onApplierReadyStart (fetchResult : BatchDataStatus)
    (nextAction : NextAction.t) : M DataReplicator.t unit :=
  onRunThread <- call Exec_isRunThread ;;
  invariant onRunThread "_exec->isRunThread()" ;;
  (* Data clone done, move onto apply. *)
  DataReplicator_initialSyncState ;;
  ts <- InitialSyncState__setTimestampSatus fetchResult nextAction
          (SWStatus (Status.mk ErrorCodes.OplogStartMissing [])) ;;
  if StatusWith_isOK ts then
    (* TODO: set minvalid? *)
    tsValue <- StatusWith_getValue ts ;;
    DataReplicator_on_initialSyncState (modify (InitialSyncState.set_stopTimestamp tsValue)) ;;
    d <- get ;;
    invariant (DataReplicator._applierPaused d) "_applierPaused" ;;
    modify (DataReplicator.set__applierPaused false) ;;
    DataReplicator__doNextActions_InitialSync_inlock
  else
    DataReplicator_on_initialSyncState
      (InitialSyncState_setStatus (StatusWith_getStatus ts)) ;;
    DataReplicator__doNextActions.

(** *** initialSync *)

Definition maxFailedAttempts : Z := 10.

(** One pass through the body of the retry loop, up to the test for
    success; the result is [attemptErrorStatus]. *)
Definition DataReplicator_initialSync_attempt (attemptErrorStatus : Status.t)
    : M DataReplicator.t Status.t :=
  (* For testing, we may want to fail if we receive a getmore. *)
  failPoint <- call (FailPoint "failInitialSyncWithBadHost") ;;
  let attemptErrorStatus :=
    if failPoint : bool
    then Status.mk ErrorCodes.InvalidSyncSource [Str "no sync source avail."]
    else attemptErrorStatus in
  d <- get ;;
  se <- (if Status.isOK attemptErrorStatus && HostAndPort_empty (DataReplicator._syncSource d)
         then
           s <- DataReplicator__ensureGoodSyncSource_inlock ;;
           ret (s, Event_invalid)
         else if Status.isOK attemptErrorStatus then
           status <- call Exec_makeEvent ;;
           if negb (StatusWith_isOK status)
           then ret (StatusWith_getStatus status, Event_invalid)
           else ev <- StatusWith_getValue status ;; ret (attemptErrorStatus, ev)
         else ret (attemptErrorStatus, Event_invalid)) ;;
  let attemptErrorStatus := fst se in
  let initialSyncFinishEvent := snd se in
  if Status.isOK attemptErrorStatus then
    invariant (Event_isValid initialSyncFinishEvent) "initialSyncFinishEvent.isValid()" ;;
    d <- get ;;
    fetchedMissingDocs0 <- call Indeterminate_size_t ;;
    appliedOps0 <- call Indeterminate_size_t ;;
    modify (DataReplicator.set__initialSyncState
              (Some (InitialSyncState_new
                       (DatabasesCloner_new (DataReplicator._syncSource d)
                          (Some Bound_onDataClonerFinish))
                       initialSyncFinishEvent fetchedMissingDocs0 appliedOps0))) ;;
    DataReplicator_on_dbsCloner
      (DatabasesCloner_setStorageInterface (DataReplicator._storage d)) ;;
    let ns := DataReplicatorOptions.remoteOplogNS (DataReplicator._opts d) in
    tsStatus <- InitialSyncState_getLatestOplogTimestamp (DataReplicator._syncSource d) ns ;;
    let attemptErrorStatus := StatusWith_getStatus tsStatus in
    if Status.isOK attemptErrorStatus then
      beginTimestamp <- StatusWith_getValue tsStatus ;;
      DataReplicator_on_initialSyncState
        (modify (InitialSyncState.set_beginTimestamp beginTimestamp)) ;;
      modify (DataReplicator.set__fetcher
                (Some (OplogFetcher_new beginTimestamp (DataReplicator._syncSource d)
                         ns Bound_onOplogFetchFinish))) ;;
      DataReplicator__scheduleFetch_inlock ;;
      (* When the cloner is done applier starts. *)
      DataReplicator_on_dbsCloner DatabasesCloner_start ;;
      iss <- DataReplicator_initialSyncState ;;
      invariant (Event_isValid (InitialSyncState.finishEvent iss))
                "_initialSyncState->finishEvent.isValid()" ;;
      d <- get ;;
      d' <- call (Exec_waitForEvent (InitialSyncState.finishEvent iss) d) ;;
      modify (fun _ => d') ;;
      iss <- DataReplicator_initialSyncState ;;
      ret (InitialSyncState.status iss)
    else ret attemptErrorStatus
  else ret attemptErrorStatus.

(** The statement after the loop. *)
Definition DataReplicator_initialSync_done : M DataReplicator.t TimestampStatus :=
  d <- get ;;
  ret (SWValue (DataReplicator._lastTimestampApplied d)).

(** [while (failedAttempts < maxFailedAttempts) { ... }].  The recursion is
    on [fuel]; the loop itself is driven by [failedAttempts], and [LoopBound]
    marks a run that would need more passes than [fuel] allows. *)
Fixpoint DataReplicator_initialSync_loop (fuel : nat) (failedAttempts : Z)
    (attemptErrorStatus : Status.t) : M DataReplicator.t TimestampStatus :=
  match fuel with
  | O => crash LoopBound
  | S fuel =>
      if failedAttempts <? maxFailedAttempts then
        attemptErrorStatus <- DataReplicator_initialSync_attempt attemptErrorStatus ;;
        if Status.isOK attemptErrorStatus then
          (* success *)
          DataReplicator_initialSync_done
        else
          let failedAttempts := int_wrap (failedAttempts + 1) in
          (* Sleep for retry time *)
          d <- get ;;
          call (sleepmillis
                  (DataReplicatorOptions.initialSyncRetryWait (DataReplicator._opts d))) ;;
          (* No need to print a stack *)
          if failedAttempts >=? maxFailedAttempts then
            ret (SWStatus
                   (Status.mk ErrorCodes.InitialSyncFailure
                      [Str "The maximum number of retries have been exhausted for initial sync."]))
          else
            DataReplicator_initialSync_loop fuel failedAttempts attemptErrorStatus
      else DataReplicator_initialSync_done
  end.

Definition DataReplicator_initialSync : M DataReplicator.t TimestampStatus :=
  d <- get ;;
  if negb (DataReplicatorState.eqb (DataReplicator._state d)
             DataReplicatorState.Uninitialized) then
    if DataReplicatorState.eqb (DataReplicator._state d) DataReplicatorState.InitialSync then
      ret (SWStatus (Status.mk ErrorCodes.InvalidRoleModification
                       [Str "Already doing initial sync;try resync"]))
    else
      ret (SWStatus (Status.mk ErrorCodes.AlreadyInitialized
                       [Str "Cannot do initial sync in ";
                        Str (toString (DataReplicator._state d)); Str " state."]))
  else
    modify (DataReplicator.set__state DataReplicatorState.InitialSync) ;;
    (* The reporter is paused for the duration of the initial sync, so cancel just in case. *)
    match DataReplicator._reporter d with
    | Some r => call (Reporter_cancel r)
    | None => ret tt
    end ;;
    modify (DataReplicator.set__reporterPaused true) ;;
    modify (DataReplicator.set__applierPaused true) ;;
    (* TODO: set minvalid doc initial sync state. *)
    DataReplicator_initialSync_loop (Z.to_nat maxFailedAttempts) 0 Status.OK.

(** *** Entry points that touch only the replicator's own members *)

Definition DataReplicator__resumeFinish (cbData : CallbackArgs.t) : M DataReplicator.t unit :=
  modify (DataReplicator.set__applierPaused false) ;;
  modify (DataReplicator.set__fetcherPaused false) ;;
  DataReplicator__doNextActions.

Definition DataReplicator__applyUntil (untilTimestamp : Timestamp)
    : M DataReplicator.t Timestamp :=
  (* TODO: block until all oplog buffer application is done to the given optime *)
  ret Timestamp_null.

Definition DataReplicator__applyUntilAndPause (untilTimestamp : Timestamp)
    : M DataReplicator.t Timestamp :=
  DataReplicator__applyUntil untilTimestamp.

Definition DataReplicator__resetState_inlock (lastAppliedOptime : Timestamp)
    : M DataReplicator.t unit :=
  any <- DataReplicator__anyActiveHandles_inlock ;;
  invariant (negb any) "!_anyActiveHandles_inlock()" ;;
  modify (DataReplicator.set__lastTimestampFetched lastAppliedOptime) ;;
  modify (DataReplicator.set__lastTimestampApplied lastAppliedOptime) ;;
  modify (DataReplicator.set__oplogBuffer []).

Definition DataReplicator_slavesHaveProgressed : M DataReplicator.t unit :=
  d <- get ;;
  match DataReplicator._reporter d with
  | Some r => call (Reporter_trigger r)
  | None => ret tt
  end.

Definition DataReplicator__setInitialSyncStorageInterface (si : option StorageInterface)
    : M DataReplicator.t unit :=
  modify (DataReplicator.set__storage si) ;;
  d <- get ;;
  match DataReplicator._initialSyncState d with
  | Some _ =>
      DataReplicator_on_dbsCloner
        (DatabasesCloner_setStorageInterface (DataReplicator._storage d))
  | None => ret tt
  end.

Definition DataReplicator__scheduleApplyBatch : M DataReplicator.t Status.t :=
  DataReplicator__scheduleApplyBatch_inlock.

Definition DataReplicator__scheduleFetch : M DataReplicator.t Status.t :=
  DataReplicator__scheduleFetch_inlock.

Definition DataReplicator__scheduleReport : M DataReplicator.t Status.t :=
  (* TODO *)
  ret Status.OK.

(** ** The control interface

    [pause], [resume], [flushAndPause], [shutdown], [resync], the
    missing-document callback and the applier's completion function cancel
    their collaborators, wait on them and schedule further kinds of work.
    Their programs are trees over [Ctl], which extends [Ext] with these
    calls; a member function embedded above runs inside them through
    [lift].

    - [Exec_wait handle cur] and [Applier_wait a cur] block the caller while
      the executor runs callbacks against the replicator [cur]; the answer
      is the replicator as they left it.
    - [Exec_waitDBWork handle] waits for the database work scheduled by
      [_onMissingFetched]; the answer is the status that work stored in
      [rs]. *)

(** Further work items given to the executor. *)
Inductive ControlWork : Type :=
| Work_resumeFinish
| Work_dropUserDatabases
| Work_insertMissingDoc (nss : NamespaceString) (missingDoc : BSONObj).

Inductive Ctl : Type -> Type :=
| Base (X : Type) (e : Ext X) : Ctl X
| Exec_scheduleControlWork (w : ControlWork) : Ctl CBHStatus
| Exec_scheduleDBWork (w : ControlWork) : Ctl CBHStatus
| Exec_wait (handle : Handle) (cur : DataReplicator.t) : Ctl DataReplicator.t
| Exec_waitDBWork (handle : Handle) : Ctl Status.t
| Fetcher_cancel (f : Fetcher.t) : Ctl unit
| Applier_cancel (a : Applier.t) : Ctl unit
| Applier_wait (a : Applier.t) (cur : DataReplicator.t) : Ctl DataReplicator.t.
Arguments Base {X} e.

Inductive CProg (R : Type) : Type :=
| CRet (r : R)
| CCall (X : Type) (e : Ctl X) (k : X -> CProg R).
Arguments CRet {R} r.
Arguments CCall {R X} e k.

Fixpoint cpbind {A B} (p : CProg A) (f : A -> CProg B) : CProg B :=
  match p with
  | CRet a => f a
  | CCall e k => CCall e (fun x => cpbind (k x) f)
  end.

(** A member function of the control interface. *)
Definition CM (S A : Type) : Type := S -> CProg (Res A * S).

Definition cbind {S A B} (m : CM S A) (f : A -> CM S B) : CM S B :=
  fun s => cpbind (m s) (fun rs =>
    match fst rs with
    | Val a => f a (snd rs)
    | Crash x => CRet (Crash x, snd rs)
    end).

Definition ccall {S X} (e : Ctl X) : CM S X := fun s => CCall e (fun x => CRet (Val x, s)).

Fixpoint lift_prog {R} (p : Prog R) : CProg R :=
  match p with
  | Ret r => CRet r
  | Call e k => CCall (Base e) (fun x => lift_prog (k x))
  end.

Definition lift {S A} (m : M S A) : CM S A := fun s => lift_prog (m s).

Declare Scope ctl_scope.
Delimit Scope ctl_scope with ctl.
Notation "x <- m ;; k" := (cbind m (fun x => k))
  (at level 61, m at next level, right associativity) : ctl_scope.
Notation "m ;; k" := (cbind m (fun _ => k))
  (at level 61, right associativity) : ctl_scope.

(** Running a control program against an environment. *)
Inductive CObs : Type :=
| cobs (X : Type) (e : Ctl X) (x : X).
Arguments cobs {X} e x.

Definition CTrace := list CObs.

Definition CHandler (ES : Type) : Type := forall X, Ctl X -> ES -> X * ES.

Definition cask {ES X} (h : CHandler ES) (e : Ctl X) (es : ES) : X := fst (h X e es).
Definition cnext {ES X} (h : CHandler ES) (e : Ctl X) (es : ES) : ES := snd (h X e es).

Fixpoint crun {ES R} (h : CHandler ES) (p : CProg R) (es : ES) : R * ES * CTrace :=
  match p with
  | CRet r => (r, es, [])
  | CCall e k =>
      let rt := crun h (k (cask h e es)) (cnext h e es) in
      (fst (fst rt), snd (fst rt), cobs e (cask h e es) :: snd rt)
  end.

Definition creturned {ES S A} (h : CHandler ES) (m : CM S A) (s : S) (es : ES) : Res A :=
  fst (fst (fst (crun h (m s) es))).
Definition cfinal {ES S A} (h : CHandler ES) (m : CM S A) (s : S) (es : ES) : S :=
  snd (fst (fst (crun h (m s) es))).
Definition ccalls {ES S A} (h : CHandler ES) (m : CM S A) (s : S) (es : ES) : CTrace :=
  snd (crun h (m s) es).
Definition cenv {ES S A} (h : CHandler ES) (m : CM S A) (s : S) (es : ES) : ES :=
  snd (fst (crun h (m s) es)).

(** The answers a control environment gives to the calls of [Ext]. *)
Definition base_handler {ES} (h : CHandler ES) : Handler ES := fun X e => h X (Base e).

Definition lift_obs (o : Obs) : CObs :=
  match o with obs e x => cobs (Base e) x end.

Local Open Scope ctl_scope.

(** *** QueryFetcher::cancel *)

Definition QueryFetcher_cancel {S} (q : QueryFetcher.t) : CM S unit :=
  ccall (Fetcher_cancel (QueryFetcher._fetcher q)).

(** *** pause, resume, flushAndPause *)

Definition DataReplicator__pauseApplier : CM DataReplicator.t unit :=
  d <- lift get ;;
  match DataReplicator._applier d with
  | Some a => d' <- ccall (Applier_wait a d) ;; lift (modify (fun _ => d'))
  | None => lift (ret tt)
  end ;;
  lift (modify (DataReplicator.set__applierPaused true)) ;;
  lift (modify (DataReplicator.set__applier None)).

Definition DataReplicator_pause : CM DataReplicator.t Status.t :=
  DataReplicator__pauseApplier ;;
  lift (ret Status.OK).

Definition DataReplicator_resume (wait : bool) : CM DataReplicator.t Status.t :=
  handle <- ccall (Exec_scheduleControlWork Work_resumeFinish) ;;
  let status := StatusWith_getStatus handle in
  (if wait && Status.isOK status then
     handleValue <- lift (StatusWith_getValue handle) ;;
     d <- lift get ;;
     d' <- ccall (Exec_wait handleValue d) ;;
     lift (modify (fun _ => d'))
   else lift (ret tt)) ;;
  lift (ret status).

Definition DataReplicator_flushAndPause : CM DataReplicator.t TimestampStatus :=
  d <- lift get ;;
  (if DataReplicator._applierActive d then
     lift (modify (DataReplicator.set__applierPaused true)) ;;
     d <- lift get ;;
     a <- lift (deref (DataReplicator._applier d) "_applier") ;;
     d' <- ccall (Applier_wait a d) ;;
     lift (modify (fun _ => d'))
   else lift (ret tt)) ;;
  d <- lift get ;;
  lift (ret (SWValue (DataReplicator._lastTimestampApplied d))).

(** *** shutdown *)

Definition DataReplicator__cancelAllHandles_inlock : CM DataReplicator.t unit :=
  d <- lift get ;;
  match DataReplicator._fetcher d with
  | Some f => QueryFetcher_cancel (OplogFetcher.base f)
  | None => lift (ret tt)
  end ;;
  match DataReplicator._applier d with
  | Some a => ccall (Applier_cancel a)
  | None => lift (ret tt)
  end ;;
  match DataReplicator._reporter d with
  | Some r => lift (call (Reporter_cancel r))
  | None => lift (ret tt)
  end ;;
  match DataReplicator._initialSyncState d with
  | Some iss =>
      if DatabasesCloner_isActive (InitialSyncState.dbsCloner iss)
      then lift (DataReplicator_on_dbsCloner DatabasesCloner_cancel)
      else lift (ret tt)
  | None => lift (ret tt)
  end.

Definition DataReplicator__shutdown : CM DataReplicator.t Status.t :=
  eventStatus <- lift (call Exec_makeEvent) ;;
  if negb (StatusWith_isOK eventStatus) then lift (ret (StatusWith_getStatus eventStatus))
  else
    event <- lift (StatusWith_getValue eventStatus) ;;
    lift (modify (DataReplicator.set__onShutdown event)) ;;
    DataReplicator__cancelAllHandles_inlock ;;
    lift (modify (DataReplicator.set__doShutdown true)) ;;
    (* Schedule _doNextActions in case nothing is active to trigger the _onShutdown event. *)
    statusHandle <- lift (call (Exec_scheduleWork Work_doNextActions)) ;;
    if StatusWith_isOK statusHandle then
      d <- lift get ;;
      d' <- lift (call (Exec_waitForEvent (DataReplicator._onShutdown d) d)) ;;
      lift (modify (fun _ => d')) ;;
      d <- lift get ;;
      f <- lift (deref (DataReplicator._fetcher d) "_fetcher") ;;
      fetching <- lift (QueryFetcher_isActive (OplogFetcher.base f)) ;;
      lift (invariant (negb fetching) "!_fetcher->isActive()") ;;
      lift (invariant (negb (DataReplicator._applierActive d)) "!_applierActive") ;;
      r <- lift (deref (DataReplicator._reporter d) "_reporter") ;;
      reporting <- lift (call (Reporter_isActive r)) ;;
      lift (invariant (negb reporting) "!_reporter->isActive()") ;;
      lift (ret Status.OK)
    else lift (ret (StatusWith_getStatus statusHandle)).

Definition DataReplicator_shutdown : CM DataReplicator.t Status.t :=
  DataReplicator__shutdown.

(** *** resync *)

Definition DataReplicator_resync : CM DataReplicator.t TimestampStatus :=
  DataReplicator__shutdown ;;
  (* Drop databases and do initialSync(); *)
  cbh <- ccall (Exec_scheduleDBWork Work_dropUserDatabases) ;;
  if negb (StatusWith_isOK cbh) then lift (ret (SWStatus (StatusWith_getStatus cbh)))
  else
    handle <- lift (StatusWith_getValue cbh) ;;
    d <- lift get ;;
    d' <- ccall (Exec_wait handle d) ;;
    lift (modify (fun _ => d')) ;;
    status <- lift DataReplicator_initialSync ;;
    (if StatusWith_isOK status then
       lastApplied <- lift (StatusWith_getValue status) ;;
       lift (DataReplicator__resetState_inlock lastApplied)
     else lift (ret tt)) ;;
    lift (ret status).

(** *** The missing-document callback *)

Definition DataReplicator__onMissingFetched (fetchResult : BatchDataStatus)
    (nextAction : NextAction.t) (ops : Operations) (nss : NamespaceString)
    : CM DataReplicator.t unit :=
  onRunThread <- lift (call Exec_isRunThread) ;;
  lift (invariant onRunThread "_exec->isRunThread()") ;;
  if negb (StatusWith_isOK fetchResult) then
    (* TODO: do retries on network issues, like SyncTail::getMissingDoc *)
    lift (DataReplicator_on_initialSyncState
            (InitialSyncState_setStatus (StatusWith_getStatus fetchResult))) ;;
    lift DataReplicator__doNextActions
  else
    batchData <- lift (StatusWith_getValue fetchResult) ;;
    match BatchData.documents batchData with
    | [] =>
        (* TODO: skip apply for this doc, like multiInitialSyncApply? *)
        lift (DataReplicator_on_initialSyncState
                (InitialSyncState_setStatus
                   (Status.mk ErrorCodes.InitialSyncFailure
                      [Str "missing doc not found"]))) ;;
        lift DataReplicator__doNextActions
    | missingDoc :: _ =>
        s <- ccall (Exec_scheduleDBWork (Work_insertMissingDoc nss missingDoc)) ;;
        if negb (StatusWith_isOK s) then
          lift (DataReplicator_on_initialSyncState (InitialSyncState_setStatus_CBH s)) ;;
          lift DataReplicator__doNextActions
        else
          handle <- lift (StatusWith_getValue s) ;;
          rs <- ccall (Exec_waitDBWork handle) ;;
          if negb (Status.isOK rs) then
            lift (DataReplicator_on_initialSyncState (InitialSyncState_setStatus rs)) ;;
            lift DataReplicator__doNextActions
          else
            status <- lift (DataReplicator__scheduleApplyBatch_inlock_ops ops) ;;
            if negb (Status.isOK status) then
              lift (DataReplicator_on_initialSyncState (InitialSyncState_setStatus status)) ;;
              iss <- lift DataReplicator_initialSyncState ;;
              lift (call (Exec_signalEvent (InitialSyncState.finishEvent iss)))
            else lift (ret tt)
    end.

(** *** The completion function handed to the applier *)

Definition DataReplicator_applierCompletion (ts : TimestampStatus) (theOps : Operations)
    : CM DataReplicator.t unit :=
  status <- lift (call (Exec_scheduleWork
                          (Work_onApplyBatchFinish ts theOps
                             (Z.of_nat (List.length theOps))))) ;;
  if negb (StatusWith_isOK status) then
    lift (DataReplicator_on_initialSyncState (InitialSyncState_setStatus_CBH status)) ;;
    iss <- lift DataReplicator_initialSyncState ;;
    lift (call (Exec_signalEvent (InitialSyncState.finishEvent iss)))
  else
    (* block until callback done. *)
    handle <- lift (StatusWith_getValue status) ;;
    d <- lift get ;;
    d' <- ccall (Exec_wait handle d) ;;
    lift (modify (fun _ => d')).

Local Close Scope ctl_scope.

(** ** Environments and drivers used in the statements *)

(** An environment in which every external call succeeds, no callback
    changes [nextAction], and no executor callback runs while the caller
    waits. *)
Definition calm {X} (e : Ext X) : X :=
  match e in Ext X return X with
  | Exec_isRunThread => true
  | Exec_now => 1000
  | Exec_makeEvent => SWValue (Event_id 1)
  | Exec_signalEvent _ => tt
  | Exec_waitForEvent _ cur => cur
  | Exec_scheduleWork _ => SWValue 0%nat
  | Exec_scheduleWorkAt _ _ => SWValue 0%nat
  | Exec_scheduleRemoteCommand _ _ => SWValue 0%nat
  | Coord_chooseNewSyncSource => "primary:27017"
  | Coord_getMyLastOptime => (0, 0)
  | Coord_setMyLastOptime _ => tt
  | Coord_blacklistSyncSource _ _ => tt
  | Coord_setFollowerMode _ => true
  | Fetcher_schedule _ => Status.OK
  | Fetcher_isActive _ => true
  | Fetcher_wait _ => []
  | Applier_start _ => Status.OK
  | Applier_isActive _ => false
  | Reporter_getStatus _ => Status.OK
  | Reporter_isActive _ => false
  | Reporter_cancel _ => tt
  | Reporter_trigger _ => tt
  | DatabaseCloner_new _ => true
  | DatabaseCloner_start _ => Status.OK
  | Invoke_work _ _ na => na
  | Invoke_finishFn _ _ => tt
  | FailPoint _ => false
  | sleepmillis _ => tt
  | Indeterminate_size_t => 0
  end.

Definition calm_handler : Handler unit := fun X e es => (calm e, es).

(** The same environment with the executor refusing to schedule remote
    commands. *)
Definition no_remote_handler : Handler unit := fun X e es =>
  match e in Ext X return X * unit with
  | Exec_scheduleRemoteCommand _ _ =>
      (SWStatus (Status.mk (ErrorCodes.Other 91) [Str "shutdown in progress"]), es)
  | e' => (calm e', es)
  end.



(** The object a member function leaves behind, and its return value. *)
Definition final {ES S A} (h : Handler ES) (m : M S A) (s : S) (es : ES) : S :=
  snd (result h (m s) es).
Definition returned {ES S A} (h : Handler ES) (m : M S A) (s : S) (es : ES) : Res A :=
  fst (result h (m s) es).
Definition calls {ES S A} (h : Handler ES) (m : M S A) (s : S) (es : ES) : Trace :=
  trace h (m s) es.

(** The environment a program leaves behind. *)
Definition env_after {ES R} (h : Handler ES) (p : Prog R) (es : ES) : ES :=
  snd (fst (run h p es)).

(** The statuses given to [_finishFn], in order. *)
Definition finishFn_calls (t : Trace) : list Status.t :=
  flat_map (fun o =>
    match o with
    | obs e _ => match e with Invoke_finishFn _ s => [s] | _ => [] end
    end) t.

(** The arguments given to [_work], in order. *)
Definition work_calls (t : Trace) : list (BatchDataStatus * NextAction.t) :=
  flat_map (fun o =>
    match o with
    | obs e _ => match e with Invoke_work _ r na => [(r, na)] | _ => [] end
    end) t.

(** The entry points through which the executor and the owner drive a
    databases cloner. *)
Inductive ClonerCall : Type :=
| Cloner_start
| Cloner_cancel
| Cloner_onListDatabaseFinish (response : StatusWith BSONObj)
| Cloner_onEachDBCloneFinish (status : Status.t) (name : string).

Definition DatabasesCloner_step (c : ClonerCall) : M DatabasesCloner.t unit :=
  match c with
  | Cloner_start => DatabasesCloner_start ;; ret tt
  | Cloner_cancel => DatabasesCloner_cancel
  | Cloner_onListDatabaseFinish response => DatabasesCloner__onListDatabaseFinish response
  | Cloner_onEachDBCloneFinish status name => DatabasesCloner__onEachDBCloneFinish status name
  end.

Fixpoint DatabasesCloner_steps (cs : list ClonerCall) : M DatabasesCloner.t unit :=
  match cs with
  | [] => ret tt
  | c :: rest => DatabasesCloner_step c ;; DatabasesCloner_steps rest
  end.

(** Successive calls of a status setter. *)
Fixpoint DatabasesCloner__setStatus_each (l : list Status.t) : M DatabasesCloner.t unit :=
  match l with
  | [] => ret tt
  | s :: rest => DatabasesCloner__setStatus s ;; DatabasesCloner__setStatus_each rest
  end.

Fixpoint InitialSyncState_setStatus_each (l : list Status.t) : M InitialSyncState.t unit :=
  match l with
  | [] => ret tt
  | s :: rest => InitialSyncState_setStatus s ;; InitialSyncState_setStatus_each rest
  end.

(** A [listDatabases] reply naming the given databases. *)
Definition listDatabases_reply (names : list string) : StatusWith BSONObj :=
  SWValue [("databases",
            BSONObject (map (fun n => ("", BSONObject [("name", BSONString n)])) names));
           ("ok", BSONNumber 1)].

Definition doc_ts (t : Timestamp) : BSONObj := [("ts", BSONTimestamp t)].

Definition batch_of (docs : list BSONObj) : BatchDataStatus :=
  SWValue (BatchData.mk 17 "local.oplog.rs" docs).

(** Inputs of the statements below. *)
Definition example_opts : DataReplicatorOptions.t :=
  DataReplicatorOptions.mk "" "local.oplog.rs" 0 (Some 0%nat) 100 200 300 400.

Definition example_cloner : DatabasesCloner.t :=
  DatabasesCloner_new "primary:27017" (Some (OwnerFinish 0)).

(** [example_cloner] after a successful [start]. *)
Definition started_cloner : DatabasesCloner.t :=
  final calm_handler DatabasesCloner_start example_cloner tt.

Definition example_state : InitialSyncState.t :=
  InitialSyncState_new example_cloner (Event_id 1) 0 0.

Definition first_failure : Status.t :=
  Status.mk ErrorCodes.InitialSyncFailure [Str "first"].
Definition second_failure : Status.t :=
  Status.mk ErrorCodes.UnknownError [Str "second"].

(** An oplog fetcher asked to start at timestamp 500. *)
Definition example_fetcher : OplogFetcher.t :=
  OplogFetcher_new 500 "primary:27017" "local.oplog.rs" (UserCallback 0).

(** A replicator in steady state after an initial sync from primary:27017
    that ended at timestamp 5: the initial-sync state is still there (its
    clean-up is disabled in [initialSync]), the cloner is done, the fetcher
    was started at timestamp 5. *)
Definition finished_cloner : DatabasesCloner.t :=
  DatabasesCloner.mk Status.OK "primary:27017" false ["admin"; "test"] 0
    (Some Bound_onDataClonerFinish) None.

Definition finished_initialSyncState : InitialSyncState.t :=
  InitialSyncState.mk finished_cloner 5 5 (Event_id 1) Status.OK 0 1.

Definition steady_replicator : DataReplicator.t :=
  DataReplicator.mk example_opts (Some 0%nat) DataReplicatorState.Steady
    false false false false [] false "primary:27017"
    (Some (OplogFetcher_new 5 "primary:27017" "local.oplog.rs" Bound_onOplogFetchFinish))
    None None (Some (Reporter.mk true "primary:27017"))
    (Some finished_initialSyncState)
    5 5 Timestamp_null None Event_invalid SetMyLastOptime.

(** A replicator with a coordinator right after [start]: steady state, no
    initial-sync state. *)
Definition started_replicator : DataReplicator.t :=
  final calm_handler DataReplicator_start (DataReplicator_new example_opts (Some 0%nat)) tt.

(** Modelled from the spec: the applier, whose code is not in this source
    file, applies the operations in order and reports the [ts] of the last
    one (design document, section 4.7). *)
Definition Applier_resultTimestamp (ops : Operations) : TimestampStatus :=
  match rev ops with
  | last :: _ => SWValue (BSONElement_timestamp (BSONObj_getField last "ts"))
  | [] => SWStatus (Status.mk ErrorCodes.BadValue [Str "no operations"])
  end.

(** The callbacks the executor delivers to a running replicator: a batch
    from the oplog fetcher, and the completion of the batch the applier was
    given. *)
Inductive ReplicatorCall : Type :=
| Deliver_batch (docs : list BSONObj)
| Applier_done.

Definition DataReplicator_step (c : ReplicatorCall) : M DataReplicator.t unit :=
  match c with
  | Deliver_batch docs =>
      DataReplicator__onOplogFetchFinish (batch_of docs) NextAction.kGetMore
  | Applier_done =>
      d <- get ;;
      a <- deref (DataReplicator._applier d) "_applier" ;;
      let ops := Applier.operations a in
      DataReplicator__onApplyBatchFinish (CallbackArgs.mk Status.OK)
        (Applier_resultTimestamp ops) ops (Z.of_nat (List.length ops))
  end.

Fixpoint DataReplicator_steps (cs : list ReplicatorCall) : M DataReplicator.t unit :=
  match cs with
  | [] => ret tt
  | c :: rest => DataReplicator_step c ;; DataReplicator_steps rest
  end.

(** The source sends entries 5, 6 and 7, which are applied; the fetcher,
    whose query still reads [ts >= 5], then delivers entry 5 again. *)
Definition first_round : list ReplicatorCall :=
  [Deliver_batch [doc_ts 5; doc_ts 6; doc_ts 7]; Applier_done].
Definition second_round : list ReplicatorCall :=
  [Deliver_batch [doc_ts 5]; Applier_done].

(** ** Vocabulary of the statements *)

(** [wp p Q]: whatever the environment answers, the trace and the result of
    [p] satisfy [Q]. *)
Fixpoint wp {R} (p : Prog R) (Q : Trace -> R -> Prop) : Prop :=
  match p with
  | Ret r => Q [] r
  | Call e k => forall x, wp (k x) (fun t => Q (obs e x :: t))
  end.

(** [respects T I m]: every call [m] makes satisfies [T], [m] leaves its
    object related by [I] to the one it started on, also when it stops with
    a fault, and that fault is not the loop bound of the embedding. *)
Definition respects {St A} (T : Obs -> Prop) (I : St -> St -> Prop) (m : M St A) : Prop :=
  forall s, wp (m s) (fun t rs =>
    Forall T t /\ I s (snd rs) /\ fst rs <> Crash LoopBound).

Definition is_FailPoint (o : Obs) : bool :=
  match o with
  | obs e _ => match e with FailPoint _ => true | _ => false end
  end.

Definition is_sleepmillis (o : Obs) : bool :=
  match o with
  | obs e _ => match e with sleepmillis _ => true | _ => false end
  end.

(** A call that is neither a fail-point check nor a sleep: the two calls
    that mark the retry loop of [initialSync]. *)
Definition plain_call (o : Obs) : Prop := is_FailPoint o || is_sleepmillis o = false.

(** The state and the pause flags, the part of the replicator [start] sets
    before it runs the steady-state dispatcher. *)
Definition same_mode (d d' : DataReplicator.t) : Prop :=
  DataReplicator._state d' = DataReplicator._state d
  /\ DataReplicator._applierPaused d' = DataReplicator._applierPaused d
  /\ DataReplicator._fetcherPaused d' = DataReplicator._fetcherPaused d
  /\ DataReplicator._reporterPaused d' = DataReplicator._reporterPaused d.

Definition appliedOps_of (d : DataReplicator.t) : option Z :=
  option_map InitialSyncState.appliedOps (DataReplicator._initialSyncState d).

Definition same_appliedOps (d d' : DataReplicator.t) : Prop :=
  appliedOps_of d' = appliedOps_of d.

Definition same_appliedOps_iss (i i' : InitialSyncState.t) : Prop :=
  InitialSyncState.appliedOps i' = InitialSyncState.appliedOps i.

Definition same_lastTimestampApplied (d d' : DataReplicator.t) : Prop :=
  DataReplicator._lastTimestampApplied d' = DataReplicator._lastTimestampApplied d.

(** The attempts and the sleeps of a run: each pass through the loop checks
    the fail point once, first thing. *)
Definition attempts (t : Trace) : nat := List.length (filter is_FailPoint t).
Definition sleeps (t : Trace) : nat := List.length (filter is_sleepmillis t).

(** The frame that relates any two objects. *)
Definition anything {St : Type} (s s' : St) : Prop := True.

Definition retries_exhausted : Status.t :=
  Status.mk ErrorCodes.InitialSyncFailure
    [Str "The maximum number of retries have been exhausted for initial sync."].

Definition failInitialSyncWithBadHost : Ext bool := FailPoint "failInitialSyncWithBadHost".

Definition no_sync_source : Status.t :=
  Status.mk ErrorCodes.InvalidSyncSource [Str "no sync source avail."].

(** What [initialSync] does before the loop, as seen from outside. *)
Definition cancel_reporter (d : DataReplicator.t) : Trace :=
  match DataReplicator._reporter d with
  | Some r => [obs (Reporter_cancel r) tt]
  | None => []
  end.






(** ** Vocabulary and environments of the further properties *)

(** The calls the dispatcher may make once shutdown was requested: it asks
    the fetcher and the reporter whether they are active, and signals the
    shutdown event. *)
Definition shutdown_probe (d : DataReplicator.t) (o : Obs) : Prop :=
  match o with
  | obs e _ =>
      match e with
      | Fetcher_isActive _ | Reporter_isActive _ => True
      | Exec_signalEvent ev => ev = DataReplicator._onShutdown d
      | _ => False
      end
  end.



(** The two calls that mark the retry loop of [initialSync]. *)
Definition retry_mark (o : Obs) : Prop := is_FailPoint o || is_sleepmillis o = true.

(** A [StatusWith] built from a status holds an error: the constructor
    asserts it. *)
Definition StatusWith_valid {T} (sw : StatusWith T) : Prop :=
  match sw with
  | SWStatus s => Status.isOK s = false
  | SWValue _ => True
  end.

(** The command [getLatestOplogTimestamp] and [_onDataClonerFinish] send to
    read the newest oplog entry. *)
Definition latest_entry_query (oplogNS : NamespaceString) : BSONObj :=
  [("find", BSONString (NamespaceString_coll oplogNS));
   ("sort", BSONObject [("$natural", BSONNumber (-1))]);
   ("limit", BSONNumber 1)].

Definition could_not_find_ts : Status.t :=
  Status.mk ErrorCodes.FailedToParse [Str "Could not find an oplog entry with 'ts' field."].

(** The fields [_onFetchCallback] appends to the [getMore] command. *)
Definition getMore_fields (batchData : BatchData.t) : BSONObj :=
  [("getMore", BSONNumber (BatchData.cursorId batchData));
   ("collection", BSONString (NamespaceString_coll (BatchData.nss batchData)))].

(** The databases for which a per-database cloner was constructed, in
    order. *)
Definition cloners_created (t : Trace) : list string :=
  flat_map (fun o =>
    match o with
    | obs e _ => match e with DatabaseCloner_new name => [name] | _ => [] end
    end) t.

(** One element of the [databases] array of a [listDatabases] reply. *)
Definition database_entry (name : string) : string * BSONElement :=
  ("", BSONObject [("name", BSONString name)]).

Definition could_not_create_cloner (name : string) (s : Status.t) : Status.t :=
  Status.mk ErrorCodes.InitialSyncFailure
    ([Str "could not create cloner for database: "; Str name; Str " due to: "]
     ++ Status.toString s).

(** The three pause flags. *)
Definition same_pause_flags (d d' : DataReplicator.t) : Prop :=
  DataReplicator._applierPaused d' = DataReplicator._applierPaused d
  /\ DataReplicator._fetcherPaused d' = DataReplicator._fetcherPaused d
  /\ DataReplicator._reporterPaused d' = DataReplicator._reporterPaused d.

(** [cpost h p es Q]: running [p] in the environment [h] from [es] ends with
    a result, an environment and a trace that satisfy [Q]. *)
Fixpoint cpost {ES R} (h : CHandler ES) (p : CProg R) (es : ES)
    (Q : R -> ES -> CTrace -> Prop) : Prop :=
  match p with
  | CRet r => Q r es []
  | CCall e k =>
      cpost h (k (cask h e es)) (cnext h e es)
        (fun r es' t => Q r es' (cobs e (cask h e es) :: t))
  end.

(** A control environment in which every call succeeds and no callback runs
    while the caller waits. *)
Definition calm_control {X} (e : Ctl X) : X :=
  match e in Ctl X return X with
  | Base e' => calm e'
  | Exec_scheduleControlWork _ => SWValue 0%nat
  | Exec_scheduleDBWork _ => SWValue 0%nat
  | Exec_wait _ cur => cur
  | Exec_waitDBWork _ => Status.OK
  | Fetcher_cancel _ => tt
  | Applier_cancel _ => tt
  | Applier_wait _ cur => cur
  end.

Definition calm_control_handler : CHandler unit := fun X e es => (calm_control e, es).

(** The calm environment with a coordinator that has no sync source to
    offer. *)
Definition no_source_handler : Handler unit := fun X e es =>
  match e in Ext X return X * unit with
  | Coord_chooseNewSyncSource => (HostAndPort_default, es)
  | e' => (calm e', es)
  end.

(** The calm environment in which the cloner of database [b] does not
    start. *)
Definition bad_database_handler : Handler unit := fun X e es =>
  match e in Ext X return X * unit with
  | DatabaseCloner_start name =>
      (if String.eqb name "b"
       then Status.mk (ErrorCodes.Other 26) [Str "ns not found"]
       else Status.OK, es)
  | e' => (calm e', es)
  end.

(** The calm control environment with an executor that makes no event. *)
Definition no_event_control_handler : CHandler unit := fun X e es =>
  match e in Ctl X return X * unit with
  | Base e' =>
      match e' in Ext X return X * unit with
      | Exec_makeEvent =>
          (SWStatus (Status.mk (ErrorCodes.Other 91) [Str "shutdown in progress"]), es)
      | e'' => (calm e'', es)
      end
  | e' => (calm_control e', es)
  end.

(** The calm environment with fetchers that cannot be scheduled. *)
Definition no_fetch_handler : Handler unit := fun X e es =>
  match e in Ext X return X * unit with
  | Fetcher_schedule _ =>
      (Status.mk (ErrorCodes.Other 91) [Str "shutdown in progress"], es)
  | e' => (calm e', es)
  end.

(** Options that name a sync source, for a replicator built without a
    coordinator. *)
Definition configured_opts : DataReplicatorOptions.t :=
  DataReplicatorOptions.mk "primary:27017" "local.oplog.rs" 0 (Some 0%nat) 100 200 300 400.

(** [steady_replicator] taken back into an initial sync: the cloner is done
    and the applier waits for the stop timestamp. *)
Definition syncing_replicator : DataReplicator.t :=
  DataReplicator.set__applierPaused true
    (DataReplicator.set__state DataReplicatorState.InitialSync steady_replicator).

(** An update of a document of [test.c] that the applier did not find. *)
Definition failed_update : BSONObj :=
  [("ts", BSONTimestamp 6); ("ns", BSONString "test.c");
   ("o2", BSONObject [("_id", BSONNumber 1)])].

(** * Properties *)

(** ** Running binds *)

Section RunLemmas.

Context {ES : Type} (h : Handler ES).

Lemma run_pbind {A B} (p : Prog A) (f : A -> Prog B) (es : ES) :
  run h (pbind p f) es =
    (result h (f (result h p es)) (env_after h p es),
     env_after h (f (result h p es)) (env_after h p es),
     trace h p es ++ trace h (f (result h p es)) (env_after h p es)).
Proof.
  revert es. induction p as [a | X e k IH]; intros es.
  - simpl. unfold result, env_after, trace. simpl.
    destruct (run h (f a) es) as [[r es'] t]. reflexivity.
  - simpl. rewrite IH. unfold result, env_after, trace. simpl. reflexivity.
Qed.

Lemma result_pbind {A B} (p : Prog A) (f : A -> Prog B) (es : ES) :
  result h (pbind p f) es = result h (f (result h p es)) (env_after h p es).
Proof. unfold result at 1. rewrite run_pbind. reflexivity. Qed.

Lemma trace_pbind {A B} (p : Prog A) (f : A -> Prog B) (es : ES) :
  trace h (pbind p f) es = trace h p es ++ trace h (f (result h p es)) (env_after h p es).
Proof. unfold trace at 1. rewrite run_pbind. reflexivity. Qed.

Lemma env_after_pbind {A B} (p : Prog A) (f : A -> Prog B) (es : ES) :
  env_after h (pbind p f) es = env_after h (f (result h p es)) (env_after h p es).
Proof. unfold env_after at 1. rewrite run_pbind. reflexivity. Qed.

End RunLemmas.

(** ** Properties of every run of a program *)

Lemma wp_mono {R} (p : Prog R) (Q Q' : Trace -> R -> Prop) :
  (forall t r, Q t r -> Q' t r) -> wp p Q -> wp p Q'.
Proof.
  revert Q Q'. induction p as [r | X e k IH]; simpl; intros Q Q' HQ Hp.
  - auto.
  - intros x. eapply IH; [ | apply Hp]. simpl. auto.
Qed.

Lemma wp_run {R} (p : Prog R) (Q : Trace -> R -> Prop) :
  wp p Q -> forall ES (h : Handler ES) es, Q (trace h p es) (result h p es).
Proof.
  revert Q. induction p as [r | X e k IH]; simpl; intros Q Hp ES h es.
  - exact Hp.
  - apply (IH _ _ (Hp (ask h e es)) ES h (next h e es)).
Qed.

Lemma wp_pbind {A B} (p : Prog A) (f : A -> Prog B) (Q : Trace -> B -> Prop) :
  wp p (fun t a => wp (f a) (fun t' => Q (t ++ t'))) -> wp (pbind p f) Q.
Proof.
  revert Q. induction p as [a | X e k IH]; simpl; intros Q Hp.
  - exact Hp.
  - intros x. apply IH. apply Hp.
Qed.

(** ** Frame conditions of member functions *)

Section Respects.

Context {St : Type} (T : Obs -> Prop) (I : St -> St -> Prop).
Hypothesis I_refl : forall s, I s s.
Hypothesis I_trans : forall a b c, I a b -> I b c -> I a c.

Lemma respects_ret {A} (a : A) : respects T I (ret a).
Proof. intros s. simpl. repeat split; auto. discriminate. Qed.

Lemma respects_crash {A} (x : Fault) : x <> LoopBound -> respects T I (@crash St A x).
Proof. intros Hx s. simpl. repeat split; auto. congruence. Qed.

Lemma respects_get : respects T I get.
Proof. intros s. simpl. repeat split; auto. discriminate. Qed.

Lemma respects_gets {A} (f : St -> A) : respects T I (gets f).
Proof. intros s. simpl. repeat split; auto. discriminate. Qed.

Lemma respects_modify (f : St -> St) : (forall s, I s (f s)) -> respects T I (modify f).
Proof. intros Hf s. simpl. repeat split; auto. discriminate. Qed.

Lemma respects_call {X} (e : Ext X) : (forall x, T (obs e x)) -> respects T I (call e).
Proof. intros He s. simpl. intros x. simpl. repeat split; auto. discriminate. Qed.

Lemma respects_bind {A B} (m : M St A) (f : A -> M St B) :
  respects T I m -> (forall a, respects T I (f a)) -> respects T I (bind m f).
Proof.
  intros Hm Hf s. unfold bind. apply wp_pbind.
  eapply wp_mono; [ | apply (Hm s)]. intros t [r s'] (Ht & Hs & Hr). simpl in *.
  destruct r as [a | x].
  - eapply wp_mono; [ | apply (Hf a s')]. intros t' rs (Ht' & Hs' & Hr'). simpl.
    repeat split; [apply Forall_app; auto | eauto | auto].
  - simpl. rewrite app_nil_r. repeat split; auto. congruence.
Qed.

Lemma respects_invariant (b : bool) (what : string) : respects T I (invariant b what).
Proof. destruct b; [apply respects_ret | apply respects_crash; discriminate]. Qed.

Lemma respects_when (b : bool) (m : M St unit) : respects T I m -> respects T I (when b m).
Proof. destruct b; [auto | intros; apply respects_ret]. Qed.

Lemma respects_deref {A} (p : option A) (what : string) : respects T I (deref p what).
Proof. destruct p; [apply respects_ret | apply respects_crash; discriminate]. Qed.

Lemma respects_getValue {A} (sw : StatusWith A) : respects T I (StatusWith_getValue sw).
Proof. destruct sw; [apply respects_crash; discriminate | apply respects_ret]. Qed.

End Respects.

(** A member function run on a sub-object respects the owner's frame when
    it respects a frame of the sub-object that the write-back preserves. *)
Lemma respects_zoom {St Tt A} (T : Obs -> Prop) (I : St -> St -> Prop)
    (J : Tt -> Tt -> Prop) (getT : St -> Tt) (setT : Tt -> St -> St) (m : M Tt A) :
  respects T J m ->
  (forall s t', J (getT s) t' -> I s (setT t' s)) ->
  respects T I (zoom getT setT m).
Proof.
  intros Hm HJ s. unfold zoom. apply wp_pbind.
  eapply wp_mono; [ | apply (Hm (getT s))]. intros t [r t'] (Ht & Ht' & Hr). simpl in *.
  rewrite app_nil_r. auto.
Qed.

Lemma respects_zoom_ptr {St Tt A} (T : Obs -> Prop) (I : St -> St -> Prop)
    (J : Tt -> Tt -> Prop) (getP : St -> option Tt) (setP : Tt -> St -> St)
    (what : string) (m : M Tt A) :
  (forall s, I s s) ->
  respects T J m ->
  (forall s t t', getP s = Some t -> J t t' -> I s (setP t' s)) ->
  respects T I (zoom_ptr getP setP what m).
Proof.
  intros Hrefl Hm HJ s. unfold zoom_ptr. destruct (getP s) as [t0 | ] eqn:E.
  - apply wp_pbind.
    eapply wp_mono; [ | apply (Hm t0)]. intros t [r t'] (Ht & Ht' & Hr). simpl in *.
    rewrite app_nil_r. eauto.
  - simpl. repeat split; auto. discriminate.
Qed.

(** ** Frames of the replicator's dispatcher *)

Ltac frame_step :=
  first
    [ solve [apply respects_ret; assumption]
    | solve [apply respects_crash; first [assumption | discriminate]]
    | solve [apply respects_get; assumption]
    | solve [apply respects_gets; assumption]
    | solve [apply respects_invariant; assumption]
    | solve [apply respects_deref; assumption]
    | solve [apply respects_getValue; assumption]
    | solve [apply respects_call; first [assumption | intros; reflexivity]]
    | solve [apply respects_modify; first [assumption | intros; auto]]
    | solve [auto]
    | apply respects_when; try assumption
    | apply respects_bind; try assumption;
      try match goal with |- forall _, _ => intro end
    | match goal with
      | |- respects _ _ (if ?x then _ else _) => destruct x
      | |- respects _ _ (match ?x with _ => _ end) => destruct x
      end
    | progress lazy zeta ].

Ltac frame := repeat frame_step.

Section DataReplicatorFrame.

Variable I : DataReplicator.t -> DataReplicator.t -> Prop.
Variable J : InitialSyncState.t -> InitialSyncState.t -> Prop.

Hypothesis I_refl : forall d, I d d.
Hypothesis I_trans : forall a b c, I a b -> I b c -> I a c.
Hypothesis J_refl : forall i, J i i.
Hypothesis J_trans : forall a b c, J a b -> J b c -> J a c.

Hypothesis I_state : forall x d, I d (DataReplicator.set__state x d).
Hypothesis I_syncSource : forall x d, I d (DataReplicator.set__syncSource x d).
Hypothesis I_fetcher : forall x d, I d (DataReplicator.set__fetcher x d).
Hypothesis I_tmpFetcher : forall x d, I d (DataReplicator.set__tmpFetcher x d).
Hypothesis I_applier : forall x d, I d (DataReplicator.set__applier x d).
Hypothesis I_applierActive : forall x d, I d (DataReplicator.set__applierActive x d).
Hypothesis I_oplogBuffer : forall x d, I d (DataReplicator.set__oplogBuffer x d).
Hypothesis I_reporter : forall x d, I d (DataReplicator.set__reporter x d).
Hypothesis I_initialSyncState : forall d i i',
  DataReplicator._initialSyncState d = Some i -> J i i' ->
  I d (DataReplicator.set__initialSyncState (Some i') d).
Hypothesis J_status : forall x i, J i (InitialSyncState.set_status x i).
Hypothesis J_fetchedMissingDocs : forall x i, J i (InitialSyncState.set_fetchedMissingDocs x i).

Lemma frame_on_initialSyncState {A} (m : M InitialSyncState.t A) :
  respects plain_call J m -> respects plain_call I (DataReplicator_on_initialSyncState m).
Proof.
  intros Hm. unfold DataReplicator_on_initialSyncState.
  eapply respects_zoom_ptr; eauto.
Qed.

Lemma frame_ensureGoodSyncSource : respects plain_call I DataReplicator__ensureGoodSyncSource_inlock.
Proof. unfold DataReplicator__ensureGoodSyncSource_inlock. frame. Qed.

Lemma frame_scheduleFetch : respects plain_call I DataReplicator__scheduleFetch_inlock.
Proof.
  unfold DataReplicator__scheduleFetch_inlock, QueryFetcher_isActive, QueryFetcher_schedule.
  pose proof frame_ensureGoodSyncSource. frame.
Qed.

Lemma frame_getNextApplierBatch : respects plain_call I DataReplicator__getNextApplierBatch_inlock.
Proof. unfold DataReplicator__getNextApplierBatch_inlock. frame. Qed.

Lemma frame_scheduleApplyBatch_ops ops :
  respects plain_call I (DataReplicator__scheduleApplyBatch_inlock_ops ops).
Proof. unfold DataReplicator__scheduleApplyBatch_inlock_ops. frame. Qed.

Lemma frame_scheduleApplyBatch : respects plain_call I DataReplicator__scheduleApplyBatch_inlock.
Proof.
  unfold DataReplicator__scheduleApplyBatch_inlock.
  pose proof frame_getNextApplierBatch. pose proof frame_scheduleApplyBatch_ops. frame.
Qed.

Lemma frame_Steady : respects plain_call I DataReplicator__doNextActions_Steady_inlock.
Proof.
  unfold DataReplicator__doNextActions_Steady_inlock, QueryFetcher_isActive.
  pose proof frame_scheduleFetch. pose proof frame_scheduleApplyBatch. frame.
Qed.

Lemma frame_InitialSync : respects plain_call I DataReplicator__doNextActions_InitialSync_inlock.
Proof.
  unfold DataReplicator__doNextActions_InitialSync_inlock.
  pose proof frame_Steady. frame.
  apply frame_on_initialSyncState. unfold InitialSyncState_setStatus. frame.
Qed.

Lemma frame_anyActiveHandles : respects plain_call I DataReplicator__anyActiveHandles_inlock.
Proof.
  unfold DataReplicator__anyActiveHandles_inlock, QueryFetcher_isActive. frame.
Qed.

Lemma frame_doNextActions : respects plain_call I DataReplicator__doNextActions.
Proof.
  unfold DataReplicator__doNextActions, DataReplicator__doNextActions_Rollback_inlock,
    DataReplicator__changeStateIfNeeded.
  pose proof frame_Steady. pose proof frame_InitialSync.
  pose proof frame_anyActiveHandles. frame.
Qed.

Lemma frame_scheduleApplyAfterFetch ops :
  respects plain_call I (DataReplicator__scheduleApplyAfterFetch ops).
Proof.
  unfold DataReplicator__scheduleApplyAfterFetch, QueryFetcher_schedule.
  pose proof frame_doNextActions. frame.
  - apply frame_on_initialSyncState. frame.
  - apply frame_on_initialSyncState. unfold InitialSyncState_setStatus. frame.
Qed.

Lemma frame_handleFailedApplyBatch ts ops :
  respects plain_call I (DataReplicator__handleFailedApplyBatch ts ops).
Proof.
  unfold DataReplicator__handleFailedApplyBatch.
  pose proof frame_scheduleApplyAfterFetch. frame.
Qed.

Lemma frame_call_batchCompletedFn ts : respects plain_call I (DataReplicator_call_batchCompletedFn ts).
Proof. unfold DataReplicator_call_batchCompletedFn. frame. Qed.

End DataReplicatorFrame.

(** Evaluating a member function on an object whose fields are variables:
    everything is unfolded but the machine arithmetic and the BSON and
    host-name lookups. *)
Ltac mcbv :=
  cbv -[int_wrap size_t_wrap Z.eqb Z.add Z.sub Z.ltb Z.geb Z.leb Z.modulo Z.pow
        BSONObj_getField BSONElement_timestamp BSONElement_eoo HostAndPort_empty
        String.eqb NamespaceString_coll NamespaceString_db rev app].

(** ** The oplog fetcher's first batch *)

(** A fetcher that is not about to wrap its response counter hands every
    successful batch with a first document to the callback as it came: by
    the time [_delegateCallback] reads [_responses], [_onFetchCallback] has
    already counted the response, so [checkStartTS] is false. *)
Lemma OplogFetcher_batch_passed_through :
  forall ES (h : Handler ES) (es : ES) (o : OplogFetcher.t) (b : BatchData.t)
         (doc : BSONObj) (rest : list BSONObj) (na : NextAction.t) (bob : option BSONObj),
    ask h Exec_isRunThread es = true ->
    QueryFetcher._responses (OplogFetcher.base o) <> -1 ->
    -2 ^ 31 <= QueryFetcher._responses (OplogFetcher.base o) < 2 ^ 31 ->
    BatchData.documents b = doc :: rest ->
    work_calls (calls h (QueryFetcher__onFetchCallback (SWValue b) na bob) o es)
    = [(SWValue b, na)].
Proof.
  intros ES h es o b doc rest na bob Hrun Hne Hrange Hdocs.
  destruct o as [[f r w] startTS]. destruct b as [cid ns docs].
  simpl in Hne, Hrange, Hdocs. subst docs.
  assert (Hz : (int_wrap (r + 1) =? 0) = false).
  { apply Z.eqb_neq. unfold int_wrap.
    change (2 ^ 31) with 2147483648 in *. change (2 ^ 32) with 4294967296.
    destruct (Z.eq_dec r 2147483647) as [E | E].
    - rewrite E. discriminate.
    - rewrite Z.mod_small by lia. lia. }
  unfold ask in Hrun.
  destruct (h bool Exec_isRunThread es) as [rt es1] eqn:E. simpl in Hrun. subst rt.
  mcbv. rewrite E. mcbv. rewrite Hz. mcbv.
  destruct (h NextAction.t _ _) as [na' es']. mcbv.
  destruct na'; try reflexivity.
  destruct bob; reflexivity.
Qed.

(** C1. An oplog fetcher started at timestamp 500 receives its first batch.
    When the first document has [ts] 501, the callback is given the batch
    itself, not [OplogStartMissing], the next action stays [kGetMore] and the
    [getMore] command is prepared, so further batches follow.  When the
    batch has no document at all, the callback is not called, and the cursor
    goes on in the same way. *)
Theorem OplogFetcher_first_batch_not_validated :
  QueryFetcher._responses (OplogFetcher.base example_fetcher) = 0
  /\ work_calls
       (calls calm_handler
          (QueryFetcher__onFetchCallback (batch_of [doc_ts 501]) NextAction.kGetMore (Some []))
          example_fetcher tt)
     = [(batch_of [doc_ts 501], NextAction.kGetMore)]
  /\ returned calm_handler
       (QueryFetcher__onFetchCallback (batch_of [doc_ts 501]) NextAction.kGetMore (Some []))
       example_fetcher tt
     = Val (NextAction.kGetMore,
            Some [("getMore", BSONNumber 17); ("collection", BSONString "oplog.rs")])
  /\ work_calls
       (calls calm_handler
          (QueryFetcher__onFetchCallback (batch_of []) NextAction.kGetMore (Some []))
          example_fetcher tt)
     = []
  /\ returned calm_handler
       (QueryFetcher__onFetchCallback (batch_of []) NextAction.kGetMore (Some []))
       example_fetcher tt
     = Val (NextAction.kGetMore,
            Some [("getMore", BSONNumber 17); ("collection", BSONString "oplog.rs")]).
Proof. repeat split. Qed.

(** ** Status setters *)

Lemma InitialSyncState_setStatus_each_run :
  forall ES (h : Handler ES) (es : ES) (l : list Status.t) (i : InitialSyncState.t),
    run h (InitialSyncState_setStatus_each l i) es
    = ((Val tt, fold_left (fun i s => InitialSyncState.set_status s i) l i), es, []).
Proof.
  intros ES h es l. induction l as [ | s l IH]; intros i.
  - reflexivity.
  - simpl. apply IH.
Qed.

(** C2 (as amended). [InitialSyncState::setStatus] overwrites: after any
    sequence of calls the recorded status is the one passed last. *)
Theorem InitialSyncState_setStatus_records_last :
  forall ES (h : Handler ES) (es : ES) (l : list Status.t) (s : Status.t)
         (i : InitialSyncState.t),
    InitialSyncState.status (final h (InitialSyncState_setStatus_each (l ++ [s])) i es) = s
    /\ returned h (InitialSyncState_setStatus_each (l ++ [s])) i es = Val tt.
Proof.
  intros ES h es l s i. unfold final, returned, result.
  rewrite InitialSyncState_setStatus_each_run. simpl.
  rewrite fold_left_app. simpl. auto.
Qed.

(** C2, counterexample.  Two failures in a row: both the initial-sync state
    and a started databases cloner end up with the second one. *)
Lemma first_failure_is_overwritten :
  InitialSyncState.status
    (final calm_handler (InitialSyncState_setStatus_each [first_failure; second_failure])
       example_state tt) = second_failure
  /\ DatabasesCloner._status
       (final calm_handler (DatabasesCloner__setStatus_each [first_failure; second_failure])
          started_cloner tt) = second_failure
  /\ Status.isOK first_failure = false
  /\ Status.isOK second_failure = false
  /\ second_failure <> first_failure.
Proof. repeat split. discriminate. Qed.

(** The guard of [DatabasesCloner::_setStatus] is the opposite of its
    comment: a cloner that was never started records nothing at all. *)
Lemma DatabasesCloner__setStatus_before_start :
  forall ES (h : Handler ES) (es : ES) (l : list Status.t) (c : DatabasesCloner.t),
    Status.code (DatabasesCloner._status c) = ErrorCodes.NotYetInitialized ->
    final h (DatabasesCloner__setStatus_each l) c es = c.
Proof.
  intros ES h es l c Hc.
  assert (Hset : forall s, DatabasesCloner__setStatus s c = Ret (Val tt, c)).
  { intros s. destruct c as [[code reason] src act dbs n fn sto].
    simpl in Hc. subst code. reflexivity. }
  unfold final, result.
  induction l as [ | s l IH]; [reflexivity | ].
  simpl DatabasesCloner__setStatus_each. unfold bind at 1. rewrite Hset. exact IH.
Qed.

(** ** The finish callback of the databases cloner *)

(** When every database clones successfully the callback runs once, with
    OK, at the moment the counter reaches zero. *)
Lemma DatabasesCloner_all_ok_finishes_once :
  finishFn_calls
    (calls calm_handler
       (DatabasesCloner_steps
          [Cloner_start;
           Cloner_onListDatabaseFinish (listDatabases_reply ["a"; "b"]);
           Cloner_onEachDBCloneFinish Status.OK "a";
           Cloner_onEachDBCloneFinish Status.OK "b"])
       example_cloner tt)
  = [Status.OK].
Proof. reflexivity. Qed.

(** C3. Runs of the databases cloner in which the finish callback does not
    run exactly once: a [start] whose [listDatabases] command cannot be
    scheduled calls it twice; a single database cloner that fails makes it
    run twice; one failure among two databases makes it run three times; a
    cancellation right after [start] never calls it. *)
Theorem DatabasesCloner_finishFn_not_once :
  finishFn_calls (calls no_remote_handler (DatabasesCloner_steps [Cloner_start]) example_cloner tt)
  = [Status.mk (ErrorCodes.Other 91) [Str "shutdown in progress"];
     Status.mk (ErrorCodes.Other 91) [Str "shutdown in progress"]]
  /\ finishFn_calls
       (calls calm_handler
          (DatabasesCloner_steps
             [Cloner_start;
              Cloner_onListDatabaseFinish (listDatabases_reply ["a"]);
              Cloner_onEachDBCloneFinish first_failure "a"])
          example_cloner tt)
     = [first_failure; first_failure]
  /\ finishFn_calls
       (calls calm_handler
          (DatabasesCloner_steps
             [Cloner_start;
              Cloner_onListDatabaseFinish (listDatabases_reply ["a"; "b"]);
              Cloner_onEachDBCloneFinish first_failure "a";
              Cloner_onEachDBCloneFinish Status.OK "b"])
          example_cloner tt)
     = [first_failure; first_failure; first_failure]
  /\ finishFn_calls
       (calls calm_handler (DatabasesCloner_steps [Cloner_start; Cloner_cancel])
          example_cloner tt)
     = [].
Proof. repeat split. Qed.

(** ** DatabasesCloner::start *)

(** C10. [start] marks the cloner active before it looks at the status; on
    the early return for a status that is neither OK nor NotYetInitialized
    it returns that status, makes no external call and leaves the cloner
    active. *)
Theorem DatabasesCloner_start_error_leaves_active :
  forall ES (h : Handler ES) (es : ES) (c : DatabasesCloner.t),
    Status.isOK (DatabasesCloner._status c) = false ->
    ErrorCodes.eqb (Status.code (DatabasesCloner._status c)) ErrorCodes.NotYetInitialized
      = false ->
    returned h DatabasesCloner_start c es = Val (DatabasesCloner._status c)
    /\ final h DatabasesCloner_start c es = DatabasesCloner.set__active true c
    /\ DatabasesCloner_isActive (final h DatabasesCloner_start c es) = true
    /\ calls h DatabasesCloner_start c es = [].
Proof.
  intros ES h es c Hok Hcode.
  destruct c as [[code reason] src act dbs n fn sto].
  destruct code; try discriminate; repeat split.
Qed.

(** A cloner built with a finish callback that is not callable: the
    constructor records InvalidOptions, [start] returns it, and the cloner
    reports active afterwards. *)
Lemma DatabasesCloner_start_error_leaves_active_witness :
  let c := DatabasesCloner_new "primary:27017" None in
  DatabasesCloner_isActive c = false
  /\ Status.code (DatabasesCloner._status c) = ErrorCodes.InvalidOptions
  /\ returned calm_handler DatabasesCloner_start c tt = Val (DatabasesCloner._status c)
  /\ final calm_handler DatabasesCloner_start c tt = DatabasesCloner.set__active true c
  /\ DatabasesCloner_isActive (final calm_handler DatabasesCloner_start c tt) = true
  /\ calls calm_handler DatabasesCloner_start c tt = [].
Proof.
  intros c. split; [reflexivity | ]. split; [reflexivity | ].
  apply (@DatabasesCloner_start_error_leaves_active unit calm_handler tt c);
    reflexivity.
Defined.

(** ** Entry guards of the replicator *)

(** C6. [initialSync] called in a state other than Uninitialized returns
    InvalidRoleModification when the state is InitialSync and
    AlreadyInitialized when it is Steady or Rollback; it makes no external
    call and leaves the whole replicator, its state included, as it was. *)
Theorem initialSync_rejected_unless_Uninitialized :
  forall ES (h : Handler ES) (es : ES) (d : DataReplicator.t),
    DataReplicator._state d <> DataReplicatorState.Uninitialized ->
    exists s : Status.t,
      returned h DataReplicator_initialSync d es = Val (SWStatus s)
      /\ (DataReplicator._state d = DataReplicatorState.InitialSync ->
          Status.code s = ErrorCodes.InvalidRoleModification)
      /\ (DataReplicator._state d = DataReplicatorState.Steady
          \/ DataReplicator._state d = DataReplicatorState.Rollback ->
          Status.code s = ErrorCodes.AlreadyInitialized)
      /\ final h DataReplicator_initialSync d es = d
      /\ calls h DataReplicator_initialSync d es = [].
Proof.
  intros ES h es d Hstate.
  destruct d as [opts rc state fp rp aa ap buf sd src f tf a r iss la lf rb sto ev bc].
  simpl in Hstate.
  destruct state; try congruence; eexists; (split; [reflexivity | ]);
    repeat split; simpl; intros; try reflexivity;
    repeat match goal with H : _ \/ _ |- _ => destruct H end; congruence.
Qed.

Lemma initialSync_rejected_unless_Uninitialized_witness :
  (let d := DataReplicator.set__state DataReplicatorState.Steady
              (DataReplicator_new example_opts (Some 0%nat)) in
   exists s : Status.t,
     returned calm_handler DataReplicator_initialSync d tt = Val (SWStatus s)
     /\ (DataReplicator._state d = DataReplicatorState.InitialSync ->
         Status.code s = ErrorCodes.InvalidRoleModification)
     /\ (DataReplicator._state d = DataReplicatorState.Steady
         \/ DataReplicator._state d = DataReplicatorState.Rollback ->
         Status.code s = ErrorCodes.AlreadyInitialized)
     /\ final calm_handler DataReplicator_initialSync d tt = d
     /\ calls calm_handler DataReplicator_initialSync d tt = [])
  /\ (let d := DataReplicator.set__state DataReplicatorState.InitialSync
                 (DataReplicator_new example_opts (Some 0%nat)) in
      exists s : Status.t,
        returned calm_handler DataReplicator_initialSync d tt = Val (SWStatus s)
        /\ (DataReplicator._state d = DataReplicatorState.InitialSync ->
            Status.code s = ErrorCodes.InvalidRoleModification)
        /\ (DataReplicator._state d = DataReplicatorState.Steady
            \/ DataReplicator._state d = DataReplicatorState.Rollback ->
            Status.code s = ErrorCodes.AlreadyInitialized)
        /\ final calm_handler DataReplicator_initialSync d tt = d
        /\ calls calm_handler DataReplicator_initialSync d tt = []).
Proof.
  split; intros d;
    apply (@initialSync_rejected_unless_Uninitialized unit calm_handler tt d);
    simpl; discriminate.
Defined.

(** [start] in a state other than Uninitialized returns IllegalOperation,
    makes no external call and leaves the replicator as it was. *)
Lemma start_rejected_unless_Uninitialized :
  forall ES (h : Handler ES) (es : ES) (d : DataReplicator.t),
    DataReplicator._state d <> DataReplicatorState.Uninitialized ->
    returned h DataReplicator_start d es
    = Val (Status.mk ErrorCodes.IllegalOperation
             [Str "Already started in another state: ";
              Str (toString (DataReplicator._state d))])
    /\ final h DataReplicator_start d es = d
    /\ calls h DataReplicator_start d es = [].
Proof.
  intros ES h es d Hstate.
  destruct d as [opts rc state fp rp aa ap buf sd src f tf a r iss la lf rb sto ev bc].
  simpl in Hstate. destruct state; try congruence; repeat split.
Qed.

Lemma Steady_dispatcher_keeps_mode :
  respects plain_call same_mode DataReplicator__doNextActions_Steady_inlock.
Proof.
  apply frame_Steady; unfold same_mode; intros;
    try (destruct d; simpl; tauto); intuition congruence.
Qed.

(** [start] in state Uninitialized: the state becomes Steady and the three
    pause flags are cleared; the call returns OK unless the steady-state
    dispatcher stops with a fault. *)
Lemma start_enters_Steady :
  forall ES (h : Handler ES) (es : ES) (d : DataReplicator.t),
    DataReplicator._state d = DataReplicatorState.Uninitialized ->
    let d' := final h DataReplicator_start d es in
    DataReplicator._state d' = DataReplicatorState.Steady
    /\ DataReplicator._applierPaused d' = false
    /\ DataReplicator._fetcherPaused d' = false
    /\ DataReplicator._reporterPaused d' = false
    /\ (returned h DataReplicator_start d es = Val Status.OK
        \/ exists f, returned h DataReplicator_start d es = Crash f).
Proof.
  intros ES h es d Hstate.
  assert (W : wp (DataReplicator_start d)
                (fun _ rs =>
                   DataReplicator._state (snd rs) = DataReplicatorState.Steady
                   /\ DataReplicator._applierPaused (snd rs) = false
                   /\ DataReplicator._fetcherPaused (snd rs) = false
                   /\ DataReplicator._reporterPaused (snd rs) = false
                   /\ (fst rs = Val Status.OK \/ exists f, fst rs = Crash f))).
  { unfold DataReplicator_start.
    destruct d as [opts rc state fp rp aa ap buf sd src f tf a r iss la lf rb sto ev bc].
    simpl in Hstate. subst state.
    cbn [bind get pbind DataReplicator._state DataReplicatorState.eqb negb fst snd modify].
    apply wp_pbind.
    eapply wp_mono; [ | apply Steady_dispatcher_keeps_mode].
    intros t [r' d'] (_ & (H1 & H2 & H3 & H4) & _). simpl in *.
    destruct r' as [[] | x]; simpl; eauto 10. }
  apply (wp_run _ _ W h es).
Qed.

(** C7. A replicator built without a replication coordinator is in state
    Uninitialized and has no sync source; [start] on it passes the state
    guard and then dereferences the null coordinator in the steady-state
    dispatcher instead of returning OK. *)
Theorem start_without_coordinator_faults :
  forall ES (h : Handler ES) (es : ES) (opts : DataReplicatorOptions.t),
    DataReplicator._state (DataReplicator_new2 opts) = DataReplicatorState.Uninitialized
    /\ returned h DataReplicator_start (DataReplicator_new2 opts) es
       = Crash (NullDereference "_replCoord")
    /\ calls h DataReplicator_start (DataReplicator_new2 opts) es = [].
Proof. intros ES h es opts. repeat split. Qed.

(** ** Oplog-fetch completion with an error *)

Section OplogFetchError.

Context {ES : Type} (h : Handler ES).

#[local] Opaque DataReplicator__doNextActions.

(** C5. [_onOplogFetchFinish] with an error, on the run thread of a
    replicator that has a coordinator and a fetcher.  For
    OplogStartMissing, where [_didRollback] reports that no rollback took
    place: the coordinator is asked to enter RS_RECOVERING, the executor
    is asked for the time, the sync source is blacklisted until that time
    plus the oplog-start-missing penalty, and the dispatcher is run on the
    replicator with its sync source cleared.  For any other error except
    CallbackCanceled: the time is read, the source is blacklisted until
    that time plus the network-connection-error penalty, and the
    dispatcher is run on the replicator with its sync source cleared. *)
Theorem onOplogFetchFinish_error_blacklists_source :
  forall (es : ES) (d : DataReplicator.t) (rc : ReplicationCoordinator)
         (f : OplogFetcher.t) (status : Status.t) (nextAction : NextAction.t),
    DataReplicator._replCoord d = Some rc ->
    DataReplicator._fetcher d = Some f ->
    ask h Exec_isRunThread es = true ->
    Status.isOK status = false ->
    Status.code status <> ErrorCodes.CallbackCanceled ->
    let callback := DataReplicator__onOplogFetchFinish (SWStatus status) nextAction in
    let src := DataReplicator._syncSource d in
    let cleared := DataReplicator.set__syncSource HostAndPort_default d in
    let es1 := next h Exec_isRunThread es in
    (Status.code status = ErrorCodes.OplogStartMissing ->
     let setMode := Coord_setFollowerMode MemberState.RS_RECOVERING in
     let es2 := next h setMode es1 in
     let until :=
       ask h Exec_now es2
       + DataReplicatorOptions.blacklistSyncSourcePenaltyForOplogStartMissing
           (DataReplicator._opts d) in
     let blacklist := Coord_blacklistSyncSource src until in
     let es3 := next h Exec_now es2 in
     let es4 := next h blacklist es3 in
     calls h callback d es
     = obs Exec_isRunThread true
         :: obs setMode (ask h setMode es1)
         :: obs Exec_now (ask h Exec_now es2)
         :: obs blacklist (ask h blacklist es3)
         :: calls h DataReplicator__doNextActions cleared es4
     /\ final h callback d es = final h DataReplicator__doNextActions cleared es4
     /\ returned h callback d es = returned h DataReplicator__doNextActions cleared es4)
    /\ (Status.code status <> ErrorCodes.OplogStartMissing ->
        let until :=
          ask h Exec_now es1
          + DataReplicatorOptions.blacklistSyncSourcePenaltyForNetworkConnectionError
              (DataReplicator._opts d) in
        let blacklist := Coord_blacklistSyncSource src until in
        let es2 := next h Exec_now es1 in
        let es3 := next h blacklist es2 in
        calls h callback d es
        = obs Exec_isRunThread true
            :: obs Exec_now (ask h Exec_now es1)
            :: obs blacklist (ask h blacklist es2)
            :: calls h DataReplicator__doNextActions cleared es3
        /\ final h callback d es = final h DataReplicator__doNextActions cleared es3
        /\ returned h callback d es = returned h DataReplicator__doNextActions cleared es3).
Proof.
  intros es d rc f status nextAction Hrc Hf Hrun Hok Hcancel.
  destruct d as [opts rc' state fp rp aa ap buf sd src f' tf a r iss la lf rb sto ev bc].
  destruct status as [code reason].
  simpl in Hrc, Hf, Hok, Hcancel. subst rc' f'.
  unfold calls, final, returned, result, trace, DataReplicator__onOplogFetchFinish.
  cbn -[Z.add]. rewrite Hrun. 
  split; intros Hcode.
  - subst code. cbn -[Z.add].
    destruct (ask h (Coord_setFollowerMode MemberState.RS_RECOVERING) _); cbn -[Z.add]; auto.
  - destruct code; try discriminate; try congruence; cbn -[Z.add]; auto.
Qed.

End OplogFetchError.

#[local] Transparent DataReplicator__doNextActions.

Lemma onOplogFetchFinish_error_blacklists_source_witness :
  (let callback :=
     DataReplicator__onOplogFetchFinish
       (SWStatus (Status.mk ErrorCodes.OplogStartMissing [])) NextAction.kNoAction in
   calls calm_handler callback steady_replicator tt
   = obs Exec_isRunThread true
       :: obs (Coord_setFollowerMode MemberState.RS_RECOVERING) true
       :: obs Exec_now 1000
       :: obs (Coord_blacklistSyncSource "primary:27017" 1300) tt
       :: calls calm_handler DataReplicator__doNextActions
            (DataReplicator.set__syncSource HostAndPort_default steady_replicator) tt)
  /\ (let callback :=
        DataReplicator__onOplogFetchFinish
          (SWStatus (Status.mk (ErrorCodes.Other 6) [Str "host unreachable"]))
          NextAction.kNoAction in
      calls calm_handler callback steady_replicator tt
      = obs Exec_isRunThread true
          :: obs Exec_now 1000
          :: obs (Coord_blacklistSyncSource "primary:27017" 1400) tt
          :: calls calm_handler DataReplicator__doNextActions
               (DataReplicator.set__syncSource HostAndPort_default steady_replicator) tt).
Proof.
  split.
  - apply (proj1 (@onOplogFetchFinish_error_blacklists_source unit calm_handler tt
                    steady_replicator 0%nat _
                    (Status.mk ErrorCodes.OplogStartMissing []) NextAction.kNoAction
                    eq_refl eq_refl eq_refl eq_refl ltac:(discriminate))).
    reflexivity.
  - apply (proj2 (@onOplogFetchFinish_error_blacklists_source unit calm_handler tt
                    steady_replicator 0%nat _
                    (Status.mk (ErrorCodes.Other 6) [Str "host unreachable"])
                    NextAction.kNoAction
                    eq_refl eq_refl eq_refl eq_refl ltac:(discriminate))).
    discriminate.
Defined.

(** ** Completion of an applier batch *)

Ltac frame_side :=
  unfold same_appliedOps, same_appliedOps_iss, appliedOps_of, same_lastTimestampApplied;
  intros;
  solve [ reflexivity
        | congruence
        | match goal with d : DataReplicator.t |- _ => destruct d; simpl in *; congruence end
        | match goal with
          | d : DataReplicator.t |- _ => destruct d; simpl in *; subst; simpl; congruence
          end
        | match goal with i : InitialSyncState.t |- _ => destruct i; simpl in *; congruence end
        | exact I ].

(** What runs after the counter update of [_onApplyBatchFinish] leaves
    [appliedOps] alone. *)
Lemma doNextActions_keeps_appliedOps :
  respects plain_call same_appliedOps DataReplicator__doNextActions.
Proof. apply frame_doNextActions with (J := same_appliedOps_iss); frame_side. Qed.

Lemma handleFailedApplyBatch_keeps_appliedOps ts ops :
  respects plain_call same_appliedOps (DataReplicator__handleFailedApplyBatch ts ops).
Proof. apply frame_handleFailedApplyBatch with (J := same_appliedOps_iss); frame_side. Qed.

Lemma call_batchCompletedFn_keeps_appliedOps ts :
  respects plain_call same_appliedOps (DataReplicator_call_batchCompletedFn ts).
Proof. apply frame_call_batchCompletedFn; frame_side. Qed.

Lemma doNextActions_keeps_lastTimestampApplied :
  respects plain_call same_lastTimestampApplied DataReplicator__doNextActions.
Proof. apply frame_doNextActions with (J := fun _ _ => True); frame_side. Qed.

Lemma call_batchCompletedFn_keeps_lastTimestampApplied ts :
  respects plain_call same_lastTimestampApplied (DataReplicator_call_batchCompletedFn ts).
Proof. apply frame_call_batchCompletedFn; frame_side. Qed.

(** C9. [_onApplyBatchFinish] first asserts that the callback status is OK.
    Past that assertion, without an initial-sync state the call stops at
    once on the null [_initialSyncState] handle, whatever the replicator's
    state; with one, [appliedOps] ends up increased by [numApplied],
    whatever the replicator's state and whether or not the batch
    succeeded. *)
Theorem onApplyBatchFinish_needs_initialSyncState :
  forall ES (h : Handler ES) (es : ES) (d : DataReplicator.t) (cbData : CallbackArgs.t)
         (ts : TimestampStatus) (ops : Operations) (numApplied : Z),
    let callback := DataReplicator__onApplyBatchFinish cbData ts ops numApplied in
    (Status.isOK (CallbackArgs.status cbData) = false ->
     returned h callback d es = Crash (InvariantFailure "cbData.status.isOK()")
     /\ final h callback d es = d
     /\ calls h callback d es = [])
    /\ (Status.isOK (CallbackArgs.status cbData) = true ->
        DataReplicator._initialSyncState d = None ->
        returned h callback d es = Crash (NullDereference "_initialSyncState")
        /\ final h callback d es = d
        /\ calls h callback d es = [])
    /\ (Status.isOK (CallbackArgs.status cbData) = true ->
        forall iss : InitialSyncState.t,
          DataReplicator._initialSyncState d = Some iss ->
          appliedOps_of (final h callback d es)
          = Some (size_t_wrap (InitialSyncState.appliedOps iss + numApplied))).
Proof.
  intros ES h es d cbData ts ops numApplied callback. subst callback.
  split; [ | split].
  - intros Hcb.
    unfold returned, final, calls, result, trace, DataReplicator__onApplyBatchFinish.
    rewrite Hcb. repeat split.
  - intros Hcb Hiss.
    destruct d as [opts rc state fp rp aa ap buf sd src f tf a r iss la lf rb sto ev bc].
    simpl in Hiss. subst iss.
    unfold returned, final, calls, result, trace, DataReplicator__onApplyBatchFinish.
    rewrite Hcb. repeat split.
  - intros Hcb iss Hiss.
    assert (W : wp (DataReplicator__onApplyBatchFinish cbData ts ops numApplied d)
                  (fun _ rs =>
                     appliedOps_of (snd rs)
                     = Some (size_t_wrap (InitialSyncState.appliedOps iss + numApplied)))).
    { unfold DataReplicator__onApplyBatchFinish, DataReplicator_on_initialSyncState.
      rewrite Hcb.
      cbn [bind invariant ret pbind fst snd].
      unfold bind at 1, zoom_ptr at 1. rewrite Hiss.
      cbn [pbind modify fst snd].
      match goal with
      | |- wp (?m ?s) _ =>
          assert (L : respects plain_call same_appliedOps m)
      end.
      { pose proof doNextActions_keeps_appliedOps.
        pose proof handleFailedApplyBatch_keeps_appliedOps.
        pose proof call_batchCompletedFn_keeps_appliedOps.
        assert (forall d, same_appliedOps d d) by frame_side.
        assert (forall a b c, same_appliedOps a b -> same_appliedOps b c -> same_appliedOps a c)
          by frame_side.
        frame; frame_side. }
      eapply wp_mono; [ | apply L].
      intros t rs (_ & Hs & _). unfold same_appliedOps in Hs. rewrite Hs.
      destruct d; reflexivity. }
    apply (wp_run _ _ W h es).
Qed.

Lemma onApplyBatchFinish_needs_initialSyncState_witness :
  (let callback :=
     DataReplicator__onApplyBatchFinish
       (CallbackArgs.mk (Status.mk ErrorCodes.CallbackCanceled [])) (SWValue 8)
       [doc_ts 6; doc_ts 7; doc_ts 8] 3 in
   returned calm_handler callback steady_replicator tt
   = Crash (InvariantFailure "cbData.status.isOK()")
   /\ final calm_handler callback steady_replicator tt = steady_replicator
   /\ calls calm_handler callback steady_replicator tt = [])
  /\ (let callback :=
        DataReplicator__onApplyBatchFinish (CallbackArgs.mk Status.OK) (SWValue 8)
          [doc_ts 6; doc_ts 7; doc_ts 8] 3 in
      let d := started_replicator in
      DataReplicator._state d = DataReplicatorState.Steady
      /\ returned calm_handler callback d tt = Crash (NullDereference "_initialSyncState")
      /\ final calm_handler callback d tt = d
      /\ calls calm_handler callback d tt = [])
  /\ (let callback :=
        DataReplicator__onApplyBatchFinish (CallbackArgs.mk Status.OK) (SWValue 8)
          [doc_ts 6; doc_ts 7; doc_ts 8] 3 in
      appliedOps_of (final calm_handler callback steady_replicator tt)
      = Some (size_t_wrap (1 + 3))).
Proof.
  split; [ | split].
  - apply (proj1 (@onApplyBatchFinish_needs_initialSyncState unit calm_handler tt
                    steady_replicator
                    (CallbackArgs.mk (Status.mk ErrorCodes.CallbackCanceled []))
                    (SWValue 8) [doc_ts 6; doc_ts 7; doc_ts 8] 3)).
    reflexivity.
  - split; [reflexivity | ].
    apply (proj1 (proj2 (@onApplyBatchFinish_needs_initialSyncState unit calm_handler tt
                    started_replicator
                    (CallbackArgs.mk Status.OK) (SWValue 8)
                    [doc_ts 6; doc_ts 7; doc_ts 8] 3)));
      reflexivity.
  - apply (proj2 (proj2 (@onApplyBatchFinish_needs_initialSyncState unit calm_handler tt
                    steady_replicator
                    (CallbackArgs.mk Status.OK) (SWValue 8)
                    [doc_ts 6; doc_ts 7; doc_ts 8] 3)) eq_refl
             finished_initialSyncState).
    reflexivity.
Defined.

(** C8 (as amended). A successful applier-batch completion writes the
    batch's result timestamp to [_lastTimestampApplied] without looking at
    the value it replaces, and nothing that runs afterwards in the callback
    changes it: the value does not decrease exactly when the result
    timestamp is at least the previous value. *)
Theorem onApplyBatchFinish_records_result_timestamp :
  forall ES (h : Handler ES) (es : ES) (d : DataReplicator.t) (cbData : CallbackArgs.t)
         (resultTimestamp : Timestamp) (ops : Operations) (numApplied : Z)
         (iss : InitialSyncState.t),
    Status.isOK (CallbackArgs.status cbData) = true ->
    DataReplicator._initialSyncState d = Some iss ->
    let d' :=
      final h
        (DataReplicator__onApplyBatchFinish cbData (SWValue resultTimestamp) ops numApplied)
        d es in
    DataReplicator._lastTimestampApplied d' = resultTimestamp
    /\ (DataReplicator._lastTimestampApplied d <= DataReplicator._lastTimestampApplied d'
        <-> DataReplicator._lastTimestampApplied d <= resultTimestamp).
Proof.
  intros ES h es d cbData v ops numApplied iss Hcb Hiss d'.
  assert (E : DataReplicator._lastTimestampApplied d' = v).
  { subst d'.
    assert (W : wp (DataReplicator__onApplyBatchFinish cbData (SWValue v) ops numApplied d)
                  (fun _ rs => DataReplicator._lastTimestampApplied (snd rs) = v)).
    { unfold DataReplicator__onApplyBatchFinish, DataReplicator_on_initialSyncState.
      rewrite Hcb.
      cbn [bind invariant ret pbind fst snd].
      unfold bind at 1, zoom_ptr at 1. rewrite Hiss.
      cbn [pbind modify fst snd].
      change (StatusWith_isOK (SWValue v)) with true.
      cbn [negb StatusWith_getValue].
      unfold bind at 1. cbn [pbind modify fst snd].
      unfold bind at 1. cbn [pbind ret fst snd].
      unfold bind at 1. cbn [pbind modify fst snd].
      match goal with
      | |- wp (?m ?s) _ =>
          assert (L : respects plain_call same_lastTimestampApplied m)
      end.
      { pose proof doNextActions_keeps_lastTimestampApplied.
        pose proof call_batchCompletedFn_keeps_lastTimestampApplied.
        assert (forall d, same_lastTimestampApplied d d) by frame_side.
        assert (forall a b c, same_lastTimestampApplied a b ->
                              same_lastTimestampApplied b c ->
                              same_lastTimestampApplied a c) by frame_side.
        frame; frame_side. }
      eapply wp_mono; [ | apply L].
      intros t rs (_ & Hs & _). unfold same_lastTimestampApplied in Hs. rewrite Hs.
      destruct d; reflexivity. }
    apply (wp_run _ _ W h es). }
  rewrite E. split; [reflexivity | tauto].
Qed.

Lemma onApplyBatchFinish_records_result_timestamp_witness :
  let d' :=
    final calm_handler
      (DataReplicator__onApplyBatchFinish (CallbackArgs.mk Status.OK) (SWValue 8)
         [doc_ts 6; doc_ts 7; doc_ts 8] 3)
      steady_replicator tt in
  DataReplicator._lastTimestampApplied d' = 8
  /\ (DataReplicator._lastTimestampApplied steady_replicator
        <= DataReplicator._lastTimestampApplied d'
      <-> DataReplicator._lastTimestampApplied steady_replicator <= 8).
Proof.
  apply (@onApplyBatchFinish_records_result_timestamp unit calm_handler tt
           steady_replicator (CallbackArgs.mk Status.OK) 8
           [doc_ts 6; doc_ts 7; doc_ts 8] 3 finished_initialSyncState);
    reflexivity.
Defined.

(** C8, counterexample.  Entries 5, 6 and 7 are fetched, buffered, popped in
    order and applied: [_lastTimestampApplied] becomes 7.  Entry 5 is then
    delivered again, buffered, popped and applied: the completion of that
    batch sets [_lastTimestampApplied] to 5. *)
Lemma lastTimestampApplied_decreases :
  returned calm_handler (DataReplicator_steps (first_round ++ second_round))
    steady_replicator tt = Val tt
  /\ DataReplicator._lastTimestampApplied
       (final calm_handler (DataReplicator_steps first_round) steady_replicator tt) = 7
  /\ DataReplicator._lastTimestampApplied
       (final calm_handler (DataReplicator_steps (first_round ++ second_round))
          steady_replicator tt) = 5
  /\ DataReplicator._applier
       (final calm_handler (DataReplicator_steps (first_round ++ [Deliver_batch [doc_ts 5]]))
          steady_replicator tt) = Some (Applier.mk [doc_ts 5]).
Proof. repeat split. Qed.

(** ** The retry loop of initialSync *)



Lemma plain_calls_count (t : Trace) :
  Forall plain_call t -> attempts t = 0%nat /\ sleeps t = 0%nat.
Proof.
  unfold attempts, sleeps. induction 1 as [ | o t Ho Ht [IHa IHs]]; [auto | ].
  unfold plain_call in Ho. apply orb_false_elim in Ho. destruct Ho as [Ha Hs].
  simpl. rewrite Ha, Hs. auto.
Qed.

#[local] Hint Extern 0 (anything _ _) => exact I : core.

Ltac frame_any :=
  try solve [unfold anything; intros; exact I].

Lemma DatabasesCloner_start_plain :
  respects plain_call anything DatabasesCloner_start.
Proof.
  assert (R : forall c : DatabasesCloner.t, anything c c) by frame_any.
  assert (Tr : forall a b c : DatabasesCloner.t, anything a b -> anything b c -> anything a c)
    by frame_any.
  assert (F : respects plain_call anything DatabasesCloner__failed).
  { unfold DatabasesCloner__failed, DatabasesCloner_call_finishFn. frame; frame_any. }
  assert (S1 : forall s, respects plain_call anything (DatabasesCloner__setStatus s)).
  { intros s. unfold DatabasesCloner__setStatus. frame; frame_any. }
  assert (N : respects plain_call anything DatabasesCloner__doNextActions).
  { unfold DatabasesCloner__doNextActions. frame; frame_any. }
  unfold DatabasesCloner_start, DatabasesCloner__setStatus_CBH. frame; frame_any.
Qed.

Lemma InitialSyncState_deliver_plain {St} (batches : list (BatchDataStatus * NextAction.t))
    (status : TimestampStatus) :
  respects plain_call (@anything St) (InitialSyncState_deliver batches status).
Proof.
  assert (R : forall c : St, anything c c) by frame_any.
  assert (Tr : forall a b c : St, anything a b -> anything b c -> anything a c)
    by frame_any.
  revert status. induction batches as [ | [fetchResult nextAction] rest IH]; intros status.
  - simpl. frame.
  - simpl. unfold InitialSyncState__setTimestampSatus. frame; frame_any.
Qed.

Lemma DataReplicator_on_dbsCloner_plain {A} (m : M DatabasesCloner.t A) :
  respects plain_call anything m ->
  respects plain_call anything (DataReplicator_on_dbsCloner m).
Proof.
  intros Hm. unfold DataReplicator_on_dbsCloner, DataReplicator_on_initialSyncState.
  eapply respects_zoom_ptr with (J := anything); frame_any.
  eapply respects_zoom with (J := anything); frame_any. exact Hm.
Qed.

(** After its fail-point check an attempt neither checks the fail point
    again nor sleeps. *)
Lemma initialSync_attempt_once (attemptErrorStatus : Status.t) (d : DataReplicator.t) :
  wp (DataReplicator_initialSync_attempt attemptErrorStatus d)
     (fun t rs => attempts t = 1%nat /\ sleeps t = 0%nat /\ fst rs <> Crash LoopBound).
Proof.
  unfold DataReplicator_initialSync_attempt.
  unfold bind at 1. cbn [call pbind fst snd wp]. intros failPoint. lazy zeta.
  match goal with
  | |- wp (?m ?s) _ => assert (L : respects plain_call anything m)
  end.
  { assert (R : forall c : DataReplicator.t, anything c c) by frame_any.
    assert (Tr : forall a b c : DataReplicator.t, anything a b -> anything b c -> anything a c)
      by frame_any.
    assert (E : respects plain_call anything DataReplicator__ensureGoodSyncSource_inlock)
      by (apply frame_ensureGoodSyncSource; frame_any).
    assert (Sf : respects plain_call anything DataReplicator__scheduleFetch_inlock)
      by (apply frame_scheduleFetch; frame_any).
    assert (Cs : respects plain_call anything (DataReplicator_on_dbsCloner DatabasesCloner_start))
      by (apply DataReplicator_on_dbsCloner_plain, DatabasesCloner_start_plain).
    assert (Ci : forall si, respects plain_call anything
                   (DataReplicator_on_dbsCloner (DatabasesCloner_setStorageInterface si))).
    { intros si. apply DataReplicator_on_dbsCloner_plain.
      unfold DatabasesCloner_setStorageInterface. frame; frame_any. }
    assert (Oi : forall f, respects plain_call anything
                   (DataReplicator_on_initialSyncState (modify f))).
    { intros f. unfold DataReplicator_on_initialSyncState.
      eapply respects_zoom_ptr with (J := anything); frame_any. frame; frame_any. }
    assert (Di : respects plain_call anything DataReplicator_initialSyncState).
    { unfold DataReplicator_initialSyncState. frame. }
    assert (Gl : forall src ns, respects plain_call (@anything DataReplicator.t)
                   (InitialSyncState_getLatestOplogTimestamp src ns)).
    { intros src ns. unfold InitialSyncState_getLatestOplogTimestamp.
      pose proof (@InitialSyncState_deliver_plain DataReplicator.t). frame. }
    frame; frame_any. }
  eapply wp_mono; [ | apply L]. intros t rs (Ht & _ & Hr).
  apply plain_calls_count in Ht. destruct Ht as [Ha Hs].
  unfold attempts, sleeps in *. simpl. rewrite Ha, Hs. auto.
Qed.


Section FailPointActive.

Context {ES : Type} (h : Handler ES).
Hypothesis fail_point_active : forall es, ask h failInitialSyncWithBadHost es = true.



End FailPointActive.

Section AfterFailedAttempt.

Context {ES : Type} (h : Handler ES).

(** An attempt entered with a failure recorded in [attemptErrorStatus]
    checks the fail point and does nothing else. *)
Lemma initialSync_attempt_after_failure (attemptErrorStatus : Status.t)
    (d : DataReplicator.t) (es : ES) :
  Status.isOK attemptErrorStatus = false ->
  exists s : Status.t,
    Status.isOK s = false
    /\ run h (DataReplicator_initialSync_attempt attemptErrorStatus d) es
       = ((Val s, d), next h failInitialSyncWithBadHost es,
          [obs failInitialSyncWithBadHost (ask h failInitialSyncWithBadHost es)]).
Proof.
  intros Hs. unfold DataReplicator_initialSync_attempt.
  unfold bind at 1. cbn [call pbind run fst snd]. fold failInitialSyncWithBadHost.
  destruct (ask h failInitialSyncWithBadHost es).
  - exists no_sync_source. split; reflexivity.
  - exists attemptErrorStatus. split; [exact Hs | ].
    match goal with
    | |- context [run h ?p _] => assert (E : p = Ret (Val attemptErrorStatus, d))
    end.
    { lazy zeta. unfold bind at 1. cbn [get pbind fst snd]. rewrite Hs. cbn [andb].
      unfold bind at 1. cbn [ret pbind fst snd]. rewrite Hs. reflexivity. }
    rewrite E. reflexivity.
Qed.



End AfterFailedAttempt.



(** * Further properties *)

(** ** Batches through the query fetchers *)

(** X1. A plain query fetcher hands every response to its owner's work
    function exactly once and unchanged, and counts it in [_responses] (an
    [int], with its wrap-around).  The action the owner decides is what the
    fetcher gets back.  The [getMore] command is completed, with the cursor
    id and the collection, only for an OK batch on which the owner decided
    [kGetMore]; the invariant on [getMoreBob] fails there when no builder was
    supplied. *)
Theorem QueryFetcher_passes_every_batch :
  forall ES (h : Handler ES) (es : ES) (q : QueryFetcher.t)
         (fetchResult : BatchDataStatus) (nextAction : NextAction.t)
         (getMoreBob : option BSONObj),
    let callback :=
      @QueryFetcher__onFetchCallback QueryFetcher.t _ fetchResult nextAction getMoreBob in
    let decided := ask h (Invoke_work (QueryFetcher._work q) fetchResult nextAction) es in
    work_calls (calls h callback q es) = [(fetchResult, nextAction)]
    /\ final h callback q es
       = QueryFetcher.set__responses (int_wrap (QueryFetcher._responses q + 1)) q
    /\ (StatusWith_isOK fetchResult = false \/ decided <> NextAction.kGetMore ->
        returned h callback q es = Val (decided, getMoreBob))
    /\ (forall batchData : BatchData.t,
          fetchResult = SWValue batchData ->
          decided = NextAction.kGetMore ->
          match getMoreBob with
          | Some bob =>
              returned h callback q es
              = Val (NextAction.kGetMore, Some (bob ++ getMore_fields batchData))
          | None => returned h callback q es = Crash (InvariantFailure "getMoreBob")
          end).
Proof.
  intros ES h es q fetchResult nextAction getMoreBob callback decided.
  subst callback decided.
  destruct q as [f r w].
  unfold calls, final, returned, result, trace, QueryFetcher__onFetchCallback.
  cbn -[int_wrap Z.add].
  destruct (ask h (Invoke_work w fetchResult nextAction) es) eqn:E;
    destruct fetchResult as [e | b]; unfold StatusWith_isOK, StatusWith_getStatus;
    cbn -[int_wrap Z.add];
    try destruct (Status.isOK e) eqn:Ee; cbn -[int_wrap Z.add];
    try destruct getMoreBob; cbn -[int_wrap Z.add];
    (split; [reflexivity | split; [reflexivity | split]]);
    try (intros [H | H]; try discriminate; try congruence; try reflexivity);
    try (intros b' Hb Hd; try discriminate; inversion Hb; subst; reflexivity).
Qed.

(** X2. An error response reaches the owner of an oplog fetcher unchanged
    and exactly once, whatever the number of responses seen so far; the
    action the owner decides is returned and the [getMore] builder is left as
    it came.  Off the run thread the invariant fails before the owner is
    called. *)
Theorem OplogFetcher_forwards_errors :
  forall ES (h : Handler ES) (es : ES) (o : OplogFetcher.t) (e : Status.t)
         (nextAction : NextAction.t) (getMoreBob : option BSONObj),
    Status.isOK e = false ->
    let callback :=
      @QueryFetcher__onFetchCallback OplogFetcher.t _ (SWStatus e) nextAction getMoreBob in
    let _work := QueryFetcher._work (OplogFetcher.base o) in
    let es1 := next h Exec_isRunThread es in
    (ask h Exec_isRunThread es = true ->
     work_calls (calls h callback o es) = [(SWStatus e, nextAction)]
     /\ returned h callback o es
        = Val (ask h (Invoke_work _work (SWStatus e) nextAction) es1, getMoreBob))
    /\ (ask h Exec_isRunThread es = false ->
        work_calls (calls h callback o es) = []
        /\ returned h callback o es = Crash (InvariantFailure "_exec->isRunThread()")).
Proof.
  intros ES h es o e nextAction getMoreBob He callback _work es1.
  subst callback _work es1.
  destruct o as [[f r w] startTS].
  unfold calls, returned, result, trace, QueryFetcher__onFetchCallback.
  cbn -[int_wrap Z.add Z.eqb]. unfold StatusWith_isOK, StatusWith_getStatus.
  split; intros Hrun; rewrite Hrun; cbn -[int_wrap Z.add Z.eqb].
  - rewrite He. cbn -[int_wrap Z.add Z.eqb]. auto.
  - auto.
Qed.

Lemma OplogFetcher_forwards_errors_witness :
  let callback :=
    @QueryFetcher__onFetchCallback OplogFetcher.t _ (SWStatus first_failure)
      NextAction.kGetMore (Some []) in
  work_calls (calls calm_handler callback example_fetcher tt)
  = [(SWStatus first_failure, NextAction.kGetMore)]
  /\ returned calm_handler callback example_fetcher tt = Val (NextAction.kGetMore, Some []).
Proof.
  apply (proj1 (@OplogFetcher_forwards_errors unit calm_handler tt example_fetcher
                  first_failure NextAction.kGetMore (Some []) eq_refl)).
  reflexivity.
Defined.

(** X3. An OK batch without documents is kept from the owner of an oplog
    fetcher, unless the response counter is zero after its increment (the
    start-timestamp branch): on the run thread the only external call is the
    run-thread check, [nextAction] is left as it came, and the [getMore] is
    still prepared when it was [kGetMore]. *)
Theorem OplogFetcher_swallows_empty_batch :
  forall ES (h : Handler ES) (es : ES) (o : OplogFetcher.t) (batchData : BatchData.t)
         (nextAction : NextAction.t) (getMoreBob : option BSONObj),
    ask h Exec_isRunThread es = true ->
    int_wrap (QueryFetcher._responses (OplogFetcher.base o) + 1) <> 0 ->
    BatchData.documents batchData = [] ->
    let callback :=
      @QueryFetcher__onFetchCallback OplogFetcher.t _ (SWValue batchData) nextAction
        getMoreBob in
    calls h callback o es = [obs Exec_isRunThread true]
    /\ (nextAction <> NextAction.kGetMore ->
        returned h callback o es = Val (nextAction, getMoreBob))
    /\ (forall bob : BSONObj,
          nextAction = NextAction.kGetMore ->
          getMoreBob = Some bob ->
          returned h callback o es
          = Val (NextAction.kGetMore, Some (bob ++ getMore_fields batchData))).
Proof.
  intros ES h es o b nextAction getMoreBob Hrun Hr Hdocs callback. subst callback.
  destruct o as [[f r w] startTS]. destruct b as [cid ns docs].
  simpl in Hr, Hdocs. subst docs. apply Z.eqb_neq in Hr.
  unfold calls, returned, result, trace, QueryFetcher__onFetchCallback.
  cbn -[int_wrap Z.add Z.eqb]. rewrite Hrun. cbn -[int_wrap Z.add Z.eqb].
  rewrite Hr. cbn -[int_wrap Z.add Z.eqb].
  destruct nextAction; destruct getMoreBob; cbn; (split; [reflexivity | split]);
    intros; try congruence; try match goal with H : Some _ = Some _ |- _ => inversion H end;
    subst; reflexivity.
Qed.

Lemma OplogFetcher_swallows_empty_batch_witness :
  let callback :=
    @QueryFetcher__onFetchCallback OplogFetcher.t _ (batch_of []) NextAction.kGetMore
      (Some []) in
  calls calm_handler callback example_fetcher tt = [obs Exec_isRunThread true]
  /\ returned calm_handler callback example_fetcher tt
     = Val (NextAction.kGetMore,
            Some (getMore_fields (BatchData.mk 17 "local.oplog.rs" []))).
Proof.
  generalize (@OplogFetcher_swallows_empty_batch unit calm_handler tt example_fetcher
                (BatchData.mk 17 "local.oplog.rs" []) NextAction.kGetMore (Some [])
                eq_refl ltac:(vm_compute; discriminate) eq_refl).
  cbv zeta. intros (H1 & _ & H3).
  split; [exact H1 | exact (H3 [] eq_refl eq_refl)].
Defined.

(** ** Reading the newest oplog entry *)

Lemma setTimestampSatus_returns {St} (fetchResult : BatchDataStatus)
    (nextAction : NextAction.t) (status : TimestampStatus) (s : St) :
  StatusWith_valid fetchResult ->
  exists r : TimestampStatus,
    InitialSyncState__setTimestampSatus fetchResult nextAction status s = Ret (Val r, s)
    /\ StatusWith_valid r
    /\ (StatusWith_isOK fetchResult = false -> r = SWStatus (StatusWith_getStatus fetchResult))
    /\ (forall b, fetchResult = SWValue b ->
        match BatchData.documents b with
        | doc :: _ =>
            if BSONObj_hasField doc "ts"
            then r = SWValue (BSONElement_timestamp (BSONObj_getField doc "ts"))
            else r = SWStatus could_not_find_ts
        | [] => r = SWStatus could_not_find_ts
        end).
Proof.
  intros Hv. unfold InitialSyncState__setTimestampSatus.
  destruct fetchResult as [e | b]; simpl in Hv.
  - unfold StatusWith_isOK. simpl. rewrite Hv. simpl.
    eexists. split; [reflexivity | ]. repeat split; auto. intros; discriminate.
  - cbn -[BSONObj_hasField BSONObj_getField BSONElement_timestamp].
    destruct (BatchData.documents b) as [ | doc rest] eqn:Edocs;
      cbn -[BSONObj_hasField BSONObj_getField BSONElement_timestamp].
    + eexists. split; [reflexivity | ]. repeat split; try discriminate.
      intros b' E. inversion E. subst b'. rewrite Edocs. reflexivity.
    + destruct (BSONObj_hasField doc "ts") eqn:Ehas;
        cbn -[BSONObj_hasField BSONObj_getField BSONElement_timestamp];
        (eexists; split; [reflexivity | ]); repeat split; try discriminate;
        intros b' E; inversion E; subst b'; rewrite Edocs, Ehas; reflexivity.
Qed.

Lemma setTimestampSatus_makes_no_call {St} (fetchResult : BatchDataStatus)
    (nextAction : NextAction.t) (status : TimestampStatus) (s : St) :
  exists r : Res TimestampStatus,
    InitialSyncState__setTimestampSatus fetchResult nextAction status s = Ret (r, s).
Proof.
  unfold InitialSyncState__setTimestampSatus.
  destruct (negb (StatusWith_isOK fetchResult)); [eexists; reflexivity | ].
  destruct fetchResult as [e | b]; [eexists; reflexivity | ].
  cbn -[BSONObj_hasField]. destruct (BatchData.documents b) as [ | doc rest];
    [eexists; reflexivity | ].
  cbn [hd_error]. destruct (negb (BSONObj_hasField doc "ts")); eexists; reflexivity.
Qed.

Lemma InitialSyncState_deliver_last {St} (earlier : list (BatchDataStatus * NextAction.t))
    (fetchResult : BatchDataStatus) (nextAction : NextAction.t)
    (status : TimestampStatus) (s : St) :
  Forall (fun b => StatusWith_valid (fst b)) earlier ->
  exists status' : TimestampStatus,
    InitialSyncState_deliver (earlier ++ [(fetchResult, nextAction)]) status s
    = InitialSyncState__setTimestampSatus fetchResult nextAction status' s.
Proof.
  intros Hv. revert status.
  induction Hv as [ | [fr na] rest Hfr Hrest IH]; intros status.
  - exists status. simpl. unfold bind.
    destruct (setTimestampSatus_makes_no_call fetchResult nextAction status s) as (r & Hr).
    rewrite Hr. destruct r; reflexivity.
  - simpl in Hfr. simpl. unfold bind at 1.
    destruct (@setTimestampSatus_returns St fr na status s Hfr) as (r & Hr & _).
    rewrite Hr. cbn [pbind fst snd]. apply IH.
Qed.

(** X4. [getLatestOplogTimestamp] builds a fetcher for the newest oplog
    entry of the source (find on the oplog collection, sort by [$natural]
    descending, limit 1).  If it cannot be scheduled, that status is returned
    and the fetcher is not waited for.  If it is scheduled and delivers no
    batch, the initial BadValue is returned.  Otherwise only the last batch
    delivered counts: the result is its error; or the [ts] of its first
    document; or FailedToParse when it has no document or its first document
    has no [ts]. *)
Theorem getLatestOplogTimestamp_reports_last_batch :
  forall ES (h : Handler ES) (es : ES) (St : Type) (s : St)
         (source : HostAndPort) (oplogNS : NamespaceString),
    let get := @InitialSyncState_getLatestOplogTimestamp St source oplogNS in
    let f := Fetcher.mk source (NamespaceString_db oplogNS) (latest_entry_query oplogNS)
               Bound_setTimestampSatus in
    let scheduled := ask h (Fetcher_schedule f) es in
    let batches := ask h (Fetcher_wait f) (next h (Fetcher_schedule f) es) in
    (Status.isOK scheduled = false ->
     returned h get s es = Val (SWStatus scheduled)
     /\ calls h get s es = [obs (Fetcher_schedule f) scheduled])
    /\ (Status.isOK scheduled = true ->
        batches = [] ->
        returned h get s es = Val (SWStatus (Status.mk ErrorCodes.BadValue [])))
    /\ (Status.isOK scheduled = true ->
        Forall (fun b => StatusWith_valid (fst b)) batches ->
        forall earlier fetchResult nextAction,
          batches = earlier ++ [(fetchResult, nextAction)] ->
          (StatusWith_isOK fetchResult = false ->
           returned h get s es = Val (SWStatus (StatusWith_getStatus fetchResult)))
          /\ (forall b doc rest,
                fetchResult = SWValue b ->
                BatchData.documents b = doc :: rest ->
                BSONObj_hasField doc "ts" = true ->
                returned h get s es
                = Val (SWValue (BSONElement_timestamp (BSONObj_getField doc "ts"))))
          /\ (forall b,
                fetchResult = SWValue b ->
                match BatchData.documents b with
                | doc :: _ => BSONObj_hasField doc "ts" = false
                | [] => True
                end ->
                returned h get s es = Val (SWStatus could_not_find_ts))).
Proof.
  intros ES h es St s source oplogNS get f scheduled batches.
  assert (Hrun : Status.isOK scheduled = true ->
                 returned h get s es
                 = fst (result h (InitialSyncState_deliver batches
                                    (SWStatus (Status.mk ErrorCodes.BadValue [])) s)
                          (next h (Fetcher_wait f) (next h (Fetcher_schedule f) es)))).
  { intros Hok. subst get. unfold returned, result, InitialSyncState_getLatestOplogTimestamp.
    fold (latest_entry_query oplogNS). fold f.
    unfold bind at 1. cbn [call pbind run fst snd]. fold scheduled. rewrite Hok.
    cbn [negb]. unfold bind at 1. cbn [call pbind run fst snd]. reflexivity. }
  split; [ | split].
  - intros Hok. subst get.
    unfold returned, calls, result, trace, InitialSyncState_getLatestOplogTimestamp.
    fold (latest_entry_query oplogNS). fold f.
    unfold bind. cbn [call pbind run fst snd]. fold scheduled. rewrite Hok.
    cbn. auto.
  - intros Hok Hnil. rewrite (Hrun Hok), Hnil. reflexivity.
  - intros Hok Hvalid earlier fetchResult nextAction Hbatches.
    rewrite (Hrun Hok), Hbatches.
    rewrite Hbatches in Hvalid. apply Forall_app in Hvalid. destruct Hvalid as [Hearlier Hlast].
    inversion Hlast as [ | x l Hfr _]. subst x l. simpl in Hfr.
    destruct (InitialSyncState_deliver_last fetchResult nextAction
                (SWStatus (Status.mk ErrorCodes.BadValue [])) s Hearlier) as (status' & Hd).
    rewrite Hd.
    destruct (@setTimestampSatus_returns St fetchResult nextAction status' s Hfr)
      as (r & Hr & _ & Herr & Hval).
    rewrite Hr. unfold result. cbn [run fst snd].
    split; [ | split].
    + intros H. rewrite (Herr H). reflexivity.
    + intros b doc rest E Hdocs Hhas. specialize (Hval b E). rewrite Hdocs, Hhas in Hval.
      rewrite Hval. reflexivity.
    + intros b E Hno. specialize (Hval b E).
      destruct (BatchData.documents b) as [ | doc rest]; [rewrite Hval; reflexivity | ].
      rewrite Hno in Hval. rewrite Hval. reflexivity.
Qed.

(** ** The databases cloner *)

(** X5. [DatabasesCloner::cancel] makes no external call, so it never
    invokes the finish callback, and it leaves the cloner inactive.  An
    inactive cloner is unchanged; an active one whose status is not the
    initial NotYetInitialized ends with CallbackCanceled, 'Initial Sync
    Cancelled.'.  Cancelling twice is cancelling once. *)
Theorem DatabasesCloner_cancel_is_silent :
  forall ES (h : Handler ES) (es : ES) (c : DatabasesCloner.t),
    let c' := final h DatabasesCloner_cancel c es in
    calls h DatabasesCloner_cancel c es = []
    /\ returned h DatabasesCloner_cancel c es = Val tt
    /\ DatabasesCloner_isActive c' = false
    /\ (DatabasesCloner_isActive c = false -> c' = c)
    /\ (DatabasesCloner_isActive c = true ->
        Status.code (DatabasesCloner._status c) <> ErrorCodes.NotYetInitialized ->
        DatabasesCloner_getStatus c'
        = Status.mk ErrorCodes.CallbackCanceled [Str "Initial Sync Cancelled."])
    /\ final h DatabasesCloner_cancel c' es = c'.
Proof.
  intros ES h es c.
  destruct c as [[code reason] src act dbs n fn sto].
  destruct act; destruct code; cbn; repeat split; intros; try discriminate; congruence.
Qed.

Section ListDatabases.

Context {ES : Type} (h : Handler ES).

Lemma DatabasesCloner_forEachDatabase_started :
  forall (names : list string) (tail : BSONObj) (c : DatabasesCloner.t) (es : ES),
    (forall n es', In n names ->
       ask h (DatabaseCloner_new n) es' = true
       /\ Status.isOK (ask h (DatabaseCloner_start n) es') = true) ->
    0 <= DatabasesCloner._clonersActive c ->
    DatabasesCloner._clonersActive c + Z.of_nat (List.length names) < 2 ^ 31 ->
    exists (es' : ES) (t : Trace),
      let c' :=
        DatabasesCloner.set__databaseCloners (DatabasesCloner._databaseCloners c ++ names)
          (DatabasesCloner.set__clonersActive
             (DatabasesCloner._clonersActive c + Z.of_nat (List.length names)) c) in
      run h (DatabasesCloner_forEachDatabase (map database_entry names ++ tail) c) es
      = (fst (fst (run h (DatabasesCloner_forEachDatabase tail c') es')),
         snd (fst (run h (DatabasesCloner_forEachDatabase tail c') es')),
         t ++ snd (run h (DatabasesCloner_forEachDatabase tail c') es'))
      /\ cloners_created t = names
      /\ finishFn_calls t = [].
Proof.
  induction names as [ | name names IH]; intros tail c es Hok Hlo Hhi.
  - exists es, []. cbn [map app List.length Z.of_nat].
    destruct c as [st src act dbs n fn sto]. cbn.
    rewrite app_nil_r, Z.add_0_r.
    destruct (run h _ es) as [[r es'] t]. auto.
  - destruct (Hok name es (or_introl eq_refl)) as [Hnew _].
    destruct (Hok name (next h (DatabaseCloner_new name) es) (or_introl eq_refl))
      as [_ Hstart].
    cbn [List.length] in Hhi. rewrite Nat2Z.inj_succ in Hhi.
    assert (Hw : int_wrap (DatabasesCloner._clonersActive c + 1)
                 = DatabasesCloner._clonersActive c + 1).
    { unfold int_wrap. change (2 ^ 31) with 2147483648 in *.
      change (2 ^ 32) with 4294967296. rewrite Z.mod_small by lia. lia. }
    set (c1 := DatabasesCloner.set__databaseCloners
                 (DatabasesCloner._databaseCloners c ++ [name])
                 (DatabasesCloner.set__clonersActive
                    (DatabasesCloner._clonersActive c + 1) c)).
    destruct (IH tail c1
                (next h (DatabaseCloner_start name) (next h (DatabaseCloner_new name) es)))
      as (es' & t & Hrun & Hcreated & Hfinish).
    { intros n es0 Hn. apply Hok. right. exact Hn. }
    { subst c1. destruct c; simpl in *. lia. }
    { subst c1. destruct c; simpl in *. lia. }
    exists es',
      (obs (DatabaseCloner_new name) true
       :: obs (DatabaseCloner_start name)
            (ask h (DatabaseCloner_start name) (next h (DatabaseCloner_new name) es))
       :: t).
    cbn zeta in Hrun |- *. cbn [List.length].
    replace (DatabasesCloner.set__databaseCloners
               (DatabasesCloner._databaseCloners c ++ name :: names)
               (DatabasesCloner.set__clonersActive
                  (DatabasesCloner._clonersActive c + Z.of_nat (S (List.length names))) c))
      with (DatabasesCloner.set__databaseCloners
              (DatabasesCloner._databaseCloners c1 ++ names)
              (DatabasesCloner.set__clonersActive
                 (DatabasesCloner._clonersActive c1 + Z.of_nat (List.length names)) c1)).
    2: { subst c1. destruct c; cbv -[Z.of_nat Z.add app List.length]. rewrite <- app_assoc.
         cbn [app]. f_equal. lia. }
    split; [ | split; [simpl; rewrite Hcreated; reflexivity | exact Hfinish]].
    destruct (run h (DatabasesCloner_forEachDatabase tail _) es') as [[r e] t'].
    cbn [fst snd] in Hrun |- *.
    cbn [map app DatabasesCloner_forEachDatabase database_entry BSONElement_Obj].
    unfold bind. cbn [ret modify call pbind fst snd run].
    change (BSONElement_str (BSONObj_getField [("name", BSONString name)] "name")) with name.
    rewrite Hw, Hnew.
    cbn [ret modify call pbind fst snd run]. rewrite Hstart.
    cbn [negb ret modify call pbind fst snd run].
    match goal with
    | |- context [run h (DatabasesCloner_forEachDatabase _ ?x) _] => change x with c1
    end.
    rewrite Hrun. reflexivity.
Qed.

End ListDatabases.

Section ListDatabasesReply.

Context {ES : Type} (h : Handler ES).

Lemma onListDatabaseFinish_reply_run :
  forall (es : ES) (c : DatabasesCloner.t) (names : list string),
    ask h Exec_isRunThread es = true ->
    DatabasesCloner._databaseCloners c = [] ->
    run h (DatabasesCloner__onListDatabaseFinish (listDatabases_reply names) c) es
    = run h
        (pbind (Call Exec_isRunThread (fun _ => Ret tt))
           (fun _ =>
              (DatabasesCloner_forEachDatabase (map database_entry names) ;;
               DatabasesCloner__doNextActions) c))
        es.
Proof.
  intros es c names Hrun Hdbs.
  destruct c as [st src act dbs n fn sto]. simpl in Hdbs. subst dbs.
  unfold DatabasesCloner__onListDatabaseFinish, listDatabases_reply.
  unfold bind at 1. cbn [call pbind run fst snd]. rewrite Hrun.
  reflexivity.
Qed.

(** X6. A [listDatabases] reply received on the run thread by an active
    cloner with an OK status and no per-database cloner yet: when every
    per-database cloner can be created and started, one is created for each
    database named in the reply, in the order of the reply; [_clonersActive]
    ends at the number of databases; the finish callback is not invoked. *)
Theorem onListDatabaseFinish_starts_every_database :
  forall (es : ES) (c : DatabasesCloner.t) (names : list string),
    ask h Exec_isRunThread es = true ->
    (forall n es', In n names ->
       ask h (DatabaseCloner_new n) es' = true
       /\ Status.isOK (ask h (DatabaseCloner_start n) es') = true) ->
    DatabasesCloner._databaseCloners c = [] ->
    DatabasesCloner._clonersActive c = 0 ->
    Z.of_nat (List.length names) < 2 ^ 31 ->
    DatabasesCloner_isActive c = true ->
    Status.isOK (DatabasesCloner_getStatus c) = true ->
    let callback := DatabasesCloner__onListDatabaseFinish (listDatabases_reply names) in
    returned h callback c es = Val tt
    /\ final h callback c es
       = DatabasesCloner.set__databaseCloners names
           (DatabasesCloner.set__clonersActive (Z.of_nat (List.length names)) c)
    /\ cloners_created (calls h callback c es) = names
    /\ finishFn_calls (calls h callback c es) = [].
Proof.
  intros es c names Hrun Hok Hdbs Hn Hlen Hact Hst callback. subst callback.
  unfold returned, final, calls, result, trace.
  rewrite (onListDatabaseFinish_reply_run es c names Hrun Hdbs).
  cbn [pbind run fst snd]. unfold bind.
  destruct (@DatabasesCloner_forEachDatabase_started ES h names [] c
              (next h Exec_isRunThread es) Hok ltac:(lia) ltac:(lia))
    as (es' & t & Hfor & Hcreated & Hfinish).
  cbn zeta in Hfor. rewrite app_nil_r, Hdbs, Hn in Hfor. cbn [app Z.add] in Hfor.
  rewrite run_pbind. unfold result, env_after, trace. rewrite Hfor.
  cbn [DatabasesCloner_forEachDatabase ret run fst snd].
  destruct c as [st src act dbs n fn sto]. simpl in Hact, Hst.
  unfold DatabasesCloner__doNextActions.
  cbn [bind get pbind run fst snd DatabasesCloner._active DatabasesCloner._status
       DatabasesCloner.set__databaseCloners DatabasesCloner.set__clonersActive
       DatabasesCloner._source DatabasesCloner._databaseCloners
       DatabasesCloner._clonersActive DatabasesCloner._finishFn DatabasesCloner._storage].
  rewrite Hact, Hst. cbn [andb negb ret run fst snd].
  rewrite !app_nil_r. unfold cloners_created, finishFn_calls in *. cbn [flat_map app].
  auto.
Qed.

Lemma DatabasesCloner_forEachDatabase_failed_start :
  forall (es : ES) (c : DatabasesCloner.t) (bad : string) (rest : BSONObj),
    ask h (DatabaseCloner_new bad) es = true ->
    Status.isOK (ask h (DatabaseCloner_start bad) (next h (DatabaseCloner_new bad) es))
    = false ->
    Status.code (DatabasesCloner._status c) <> ErrorCodes.NotYetInitialized ->
    let s := ask h (DatabaseCloner_start bad) (next h (DatabaseCloner_new bad) es) in
    run h (DatabasesCloner_forEachDatabase (database_entry bad :: rest) c) es
    = ((Val tt,
        DatabasesCloner.set__status (could_not_create_cloner bad s)
          (DatabasesCloner.set__clonersActive
             (int_wrap (DatabasesCloner._clonersActive c + 1)) c)),
       next h (DatabaseCloner_start bad) (next h (DatabaseCloner_new bad) es),
       [obs (DatabaseCloner_new bad) true; obs (DatabaseCloner_start bad) s]).
Proof.
  intros es c bad rest Hnew Hstart Hcode s.
  destruct c as [[code reason] src act dbs n fn sto]. simpl in Hcode.
  cbn [DatabasesCloner_forEachDatabase database_entry BSONElement_Obj].
  unfold DatabasesCloner__setStatus, bind.
  cbn [ret modify call get pbind fst snd run].
  change (BSONElement_str (BSONObj_getField [("name", BSONString bad)] "name")) with bad.
  rewrite Hnew. cbn [ret modify call get pbind fst snd run]. rewrite Hstart.
  cbn [negb ret modify call get pbind fst snd run DatabasesCloner._status
       DatabasesCloner.set__clonersActive Status.code].
  destruct code; try congruence; reflexivity.
Qed.

(** X7. When the cloner of one database of the reply fails to start, the
    databases named after it are skipped: cloners are created exactly for the
    databases before it and for itself.  The status becomes
    InitialSyncFailure, 'could not create cloner for database: NAME due to:
    ERROR'; [_clonersActive] also counts the failed one (it is incremented
    before [start] and not taken back); the finish callback is invoked once,
    with that status. *)
Theorem onListDatabaseFinish_stops_at_first_failure :
  forall (es : ES) (c : DatabasesCloner.t) (pre post : list string) (bad : string)
         (fn : FinishFn),
    ask h Exec_isRunThread es = true ->
    (forall n es', In n pre ->
       ask h (DatabaseCloner_new n) es' = true
       /\ Status.isOK (ask h (DatabaseCloner_start n) es') = true) ->
    (forall es', ask h (DatabaseCloner_new bad) es' = true
                 /\ Status.isOK (ask h (DatabaseCloner_start bad) es') = false) ->
    DatabasesCloner._databaseCloners c = [] ->
    DatabasesCloner._clonersActive c = 0 ->
    Z.of_nat (List.length pre) + 1 < 2 ^ 31 ->
    Status.isOK (DatabasesCloner_getStatus c) = true ->
    DatabasesCloner._finishFn c = Some fn ->
    let callback :=
      DatabasesCloner__onListDatabaseFinish (listDatabases_reply (pre ++ bad :: post)) in
    exists s : Status.t,
      Status.isOK s = false
      /\ final h callback c es
         = DatabasesCloner.set__status (could_not_create_cloner bad s)
             (DatabasesCloner.set__databaseCloners pre
                (DatabasesCloner.set__clonersActive (Z.of_nat (List.length pre) + 1) c))
      /\ cloners_created (calls h callback c es) = pre ++ [bad]
      /\ finishFn_calls (calls h callback c es) = [could_not_create_cloner bad s].
Proof.
  intros es c pre post bad fn Hrun Hok Hbad Hdbs Hn Hlen Hst Hfn callback. subst callback.
  unfold final, calls, result, trace.
  rewrite (onListDatabaseFinish_reply_run es c (pre ++ bad :: post) Hrun Hdbs).
  cbn [pbind run fst snd]. unfold bind.
  rewrite map_app. cbn [map].
  destruct (@DatabasesCloner_forEachDatabase_started ES h pre
              (database_entry bad :: map database_entry post) c
              (next h Exec_isRunThread es) Hok ltac:(lia) ltac:(lia))
    as (es' & t & Hfor & Hcreated & Hfinish).
  cbn zeta in Hfor. rewrite Hdbs, Hn in Hfor. cbn [app Z.add] in Hfor.
  destruct (Hbad es') as [Hnew _].
  destruct (Hbad (next h (DatabaseCloner_new bad) es')) as [_ Hstart].
  exists (ask h (DatabaseCloner_start bad) (next h (DatabaseCloner_new bad) es')).
  split; [exact Hstart | ].
  assert (Hw : int_wrap (Z.of_nat (List.length pre) + 1) = Z.of_nat (List.length pre) + 1).
  { unfold int_wrap. change (2 ^ 31) with 2147483648 in *.
    change (2 ^ 32) with 4294967296. rewrite Z.mod_small by lia. lia. }
  rewrite run_pbind. unfold result, env_after, trace. rewrite Hfor. clear Hfor.
  destruct c as [st src act dbs n fn' sto]. simpl in Hst, Hfn, Hdbs, Hn. subst fn' dbs n.
  rewrite (@DatabasesCloner_forEachDatabase_failed_start es' _ bad _ Hnew Hstart).
  2: { destruct st as [code reason]. destruct code; try discriminate. }
  cbn [fst snd DatabasesCloner._clonersActive DatabasesCloner.set__databaseCloners
       DatabasesCloner.set__clonersActive].
  rewrite Hw.
  match goal with
  | |- context [run h (DatabasesCloner__doNextActions ?x) ?e] =>
      assert (E : run h (DatabasesCloner__doNextActions x) e
                  = ((Val tt, x),
                     next h (Invoke_finishFn fn (DatabasesCloner._status x)) e,
                     [obs (Invoke_finishFn fn (DatabasesCloner._status x)) tt]))
  end.
  { unfold DatabasesCloner__doNextActions, DatabasesCloner__failed,
      DatabasesCloner_call_finishFn.
    cbn -[Z.add Z.of_nat]. rewrite andb_false_r. cbn -[Z.add Z.of_nat].
    match goal with
    | |- context [ask h ?e ?es0] => destruct (ask h e es0)
    end.
    reflexivity. }
  rewrite E. clear E.
  unfold cloners_created, finishFn_calls in *.
  cbn [flat_map fst snd app]. rewrite !flat_map_app, Hcreated, Hfinish.
  rewrite app_nil_r. repeat split.
Qed.

End ListDatabasesReply.

Lemma onListDatabaseFinish_starts_every_database_witness :
  let callback := DatabasesCloner__onListDatabaseFinish (listDatabases_reply ["admin"; "test"]) in
  returned calm_handler callback started_cloner tt = Val tt
  /\ final calm_handler callback started_cloner tt
     = DatabasesCloner.set__databaseCloners ["admin"; "test"]
         (DatabasesCloner.set__clonersActive 2 started_cloner)
  /\ cloners_created (calls calm_handler callback started_cloner tt) = ["admin"; "test"]
  /\ finishFn_calls (calls calm_handler callback started_cloner tt) = [].
Proof.
  apply (@onListDatabaseFinish_starts_every_database unit calm_handler tt started_cloner
           ["admin"; "test"]).
  - reflexivity.
  - intros n es' _. split; reflexivity.
  - reflexivity.
  - reflexivity.
  - reflexivity.
  - reflexivity.
  - reflexivity.
Defined.

Lemma onListDatabaseFinish_stops_at_first_failure_witness :
  let callback := DatabasesCloner__onListDatabaseFinish (listDatabases_reply ["a"; "b"; "c"]) in
  exists s : Status.t,
    Status.isOK s = false
    /\ final bad_database_handler callback started_cloner tt
       = DatabasesCloner.set__status (could_not_create_cloner "b" s)
           (DatabasesCloner.set__databaseCloners ["a"]
              (DatabasesCloner.set__clonersActive 2 started_cloner))
    /\ cloners_created (calls bad_database_handler callback started_cloner tt) = ["a"; "b"]
    /\ finishFn_calls (calls bad_database_handler callback started_cloner tt)
       = [could_not_create_cloner "b" s].
Proof.
  apply (@onListDatabaseFinish_stops_at_first_failure unit bad_database_handler tt
           started_cloner ["a"] ["c"] "b" (OwnerFinish 0)).
  - reflexivity.
  - intros n es' [<- | []]. split; reflexivity.
  - intros es'. split; reflexivity.
  - reflexivity.
  - reflexivity.
  - reflexivity.
  - reflexivity.
  - reflexivity.
Defined.

(** ** Choosing a sync source and starting the oplog fetcher *)

(** X8. [_ensureGoodSyncSource_inlock] always returns a status: OK only
    if [_syncSource] is set on return, InvalidSyncSource otherwise.  When a
    sync source is already set it returns OK without any external call and
    without changing the replicator. *)
Theorem ensureGoodSyncSource_OK_means_source :
  forall ES (h : Handler ES) (es : ES) (d : DataReplicator.t),
    exists s : Status.t,
      returned h DataReplicator__ensureGoodSyncSource_inlock d es = Val s
      /\ (Status.isOK s = true ->
          HostAndPort_empty
            (DataReplicator._syncSource
               (final h DataReplicator__ensureGoodSyncSource_inlock d es)) = false)
      /\ (Status.isOK s = false -> Status.code s = ErrorCodes.InvalidSyncSource)
      /\ (HostAndPort_empty (DataReplicator._syncSource d) = false ->
          s = Status.OK
          /\ final h DataReplicator__ensureGoodSyncSource_inlock d es = d
          /\ calls h DataReplicator__ensureGoodSyncSource_inlock d es = []).
Proof.
  intros ES h es d.
  destruct d as [opts rc state fp rp aa ap buf sd src f tf a r iss la lf rb sto ev bc].
  unfold returned, final, calls, result, trace, DataReplicator__ensureGoodSyncSource_inlock.
  cbn [bind get pbind run fst snd DataReplicator._syncSource].
  destruct (HostAndPort_empty src) eqn:Esrc.
  - destruct rc as [rc | ]; cbn.
    + destruct (HostAndPort_empty (ask h Coord_chooseNewSyncSource es)) eqn:E; cbn;
        eexists; (split; [reflexivity | ]); repeat split; auto; discriminate.
    + eexists; (split; [reflexivity | ]); repeat split; auto; discriminate.
  - cbn. eexists; (split; [reflexivity | ]); repeat split; auto; discriminate.
Qed.

(** X9. Without a replication coordinator and with no sync source yet,
    [_ensureGoodSyncSource_inlock] copies the sync source of the options into
    [_syncSource] but still returns InvalidSyncSource, 'No valid sync
    source.', without any external call.  If the options name a source, a
    second call returns OK and changes nothing. *)
Theorem ensureGoodSyncSource_without_coordinator :
  forall ES (h : Handler ES) (es : ES) (d : DataReplicator.t),
    DataReplicator._replCoord d = None ->
    HostAndPort_empty (DataReplicator._syncSource d) = true ->
    let d1 := final h DataReplicator__ensureGoodSyncSource_inlock d es in
    returned h DataReplicator__ensureGoodSyncSource_inlock d es
    = Val (Status.mk ErrorCodes.InvalidSyncSource [Str "No valid sync source."])
    /\ d1 = DataReplicator.set__syncSource
              (DataReplicatorOptions.syncSource (DataReplicator._opts d)) d
    /\ calls h DataReplicator__ensureGoodSyncSource_inlock d es = []
    /\ (HostAndPort_empty (DataReplicatorOptions.syncSource (DataReplicator._opts d)) = false ->
        returned h DataReplicator__ensureGoodSyncSource_inlock d1 es = Val Status.OK
        /\ final h DataReplicator__ensureGoodSyncSource_inlock d1 es = d1).
Proof.
  intros ES h es d Hrc Hsrc.
  destruct d as [opts rc state fp rp aa ap buf sd src f tf a r iss la lf rb sto ev bc].
  simpl in Hrc, Hsrc. subst rc.
  unfold returned, final, calls, result, trace, DataReplicator__ensureGoodSyncSource_inlock.
  cbn [bind get pbind run fst snd DataReplicator._syncSource DataReplicator._replCoord].
  rewrite Hsrc. cbn -[HostAndPort_empty].
  split; [reflexivity | ]. split; [reflexivity | ]. split; [reflexivity | ].
  intros H. rewrite H. split; reflexivity.
Qed.

Lemma ensureGoodSyncSource_without_coordinator_witness :
  let d := DataReplicator_new2 configured_opts in
  let d1 := DataReplicator.set__syncSource "primary:27017" d in
  returned calm_handler DataReplicator__ensureGoodSyncSource_inlock d tt
  = Val (Status.mk ErrorCodes.InvalidSyncSource [Str "No valid sync source."])
  /\ final calm_handler DataReplicator__ensureGoodSyncSource_inlock d tt = d1
  /\ returned calm_handler DataReplicator__ensureGoodSyncSource_inlock d1 tt = Val Status.OK.
Proof.
  generalize (@ensureGoodSyncSource_without_coordinator unit calm_handler tt
                (DataReplicator_new2 configured_opts) eq_refl eq_refl).
  cbv zeta. intros (H1 & H2 & _ & H4).
  split; [exact H1 | split; [exact H2 | ]].
  exact (proj1 (H4 eq_refl)).
Defined.

(** X10. [_scheduleFetch_inlock] never replaces an existing fetcher and
    never changes the replicator when there is one, also when the sync source
    is empty: an active fetcher is left alone (OK after one activity query),
    an inactive one is scheduled again and the result of [schedule] is
    returned. *)
Theorem scheduleFetch_keeps_existing_fetcher :
  forall ES (h : Handler ES) (es : ES) (d : DataReplicator.t) (f : OplogFetcher.t),
    DataReplicator._fetcher d = Some f ->
    let cursor := QueryFetcher._fetcher (OplogFetcher.base f) in
    let es1 := next h (Fetcher_isActive cursor) es in
    let scheduled := ask h (Fetcher_schedule cursor) es1 in
    final h DataReplicator__scheduleFetch_inlock d es = d
    /\ (ask h (Fetcher_isActive cursor) es = true ->
        returned h DataReplicator__scheduleFetch_inlock d es = Val Status.OK
        /\ calls h DataReplicator__scheduleFetch_inlock d es
           = [obs (Fetcher_isActive cursor) true])
    /\ (ask h (Fetcher_isActive cursor) es = false ->
        calls h DataReplicator__scheduleFetch_inlock d es
        = [obs (Fetcher_isActive cursor) false; obs (Fetcher_schedule cursor) scheduled]
        /\ (Status.isOK scheduled = true ->
            returned h DataReplicator__scheduleFetch_inlock d es = Val Status.OK)
        /\ (Status.isOK scheduled = false ->
            returned h DataReplicator__scheduleFetch_inlock d es = Val scheduled)).
Proof.
  intros ES h es d f Hf.
  destruct d as [opts rc state fp rp aa ap buf sd src f' tf a r iss la lf rb sto ev bc].
  simpl in Hf. subst f'.
  unfold returned, final, calls, result, trace, DataReplicator__scheduleFetch_inlock,
    QueryFetcher_isActive, QueryFetcher_schedule.
  cbn.
  destruct (ask h (Fetcher_isActive _) es) eqn:E; cbn.
  - repeat split; intros; discriminate.
  - destruct (Status.isOK (ask h (Fetcher_schedule _) _)) eqn:E2; cbn;
      repeat split; intros; try discriminate; try reflexivity.
Qed.

Lemma scheduleFetch_keeps_existing_fetcher_witness :
  final calm_handler DataReplicator__scheduleFetch_inlock steady_replicator tt
  = steady_replicator
  /\ returned calm_handler DataReplicator__scheduleFetch_inlock steady_replicator tt
     = Val Status.OK.
Proof.
  generalize (@scheduleFetch_keeps_existing_fetcher unit calm_handler tt steady_replicator
                _ eq_refl).
  cbv zeta. intros (H1 & H2 & _).
  split; [exact H1 | exact (proj1 (H2 eq_refl))].
Defined.

(** X11. When the replicator has no fetcher, [_scheduleFetch_inlock]
    creates one.  With a sync source set, the new oplog fetcher reads the
    remote oplog of that source from the coordinator's last optime (from the
    options' [startOptime] without a coordinator) and is stored in [_fetcher]
    whether or not it could be scheduled; nothing else changes.  With a
    coordinator that offers no sync source, a retry of [_doNextActions] is
    scheduled: if that fails, its status is returned and the replicator is
    unchanged; if it succeeds, the function goes on and creates a fetcher for
    the empty host. *)
Theorem scheduleFetch_creates_fetcher :
  forall ES (h : Handler ES) (es : ES) (d : DataReplicator.t),
    DataReplicator._fetcher d = None ->
    let ns := DataReplicatorOptions.remoteOplogNS (DataReplicator._opts d) in
    (HostAndPort_empty (DataReplicator._syncSource d) = false ->
     let startOptime :=
       match DataReplicator._replCoord d with
       | Some _ => OpTime_getTimestamp (ask h Coord_getMyLastOptime es)
       | None => DataReplicatorOptions.startOptime (DataReplicator._opts d)
       end in
     let created :=
       OplogFetcher_new startOptime (DataReplicator._syncSource d) ns
         Bound_onOplogFetchFinish in
     final h DataReplicator__scheduleFetch_inlock d es
     = DataReplicator.set__fetcher (Some created) d
     /\ OplogFetcher_getStartTimestamp created = startOptime)
    /\ (forall rc : ReplicationCoordinator,
          DataReplicator._replCoord d = Some rc ->
          HostAndPort_empty (DataReplicator._syncSource d) = true ->
          let es1 := next h Coord_getMyLastOptime es in
          let es2 := next h Coord_chooseNewSyncSource es1 in
          let retry := ask h (Exec_scheduleWork Work_doNextActions) es2 in
          ask h Coord_chooseNewSyncSource es1 = HostAndPort_default ->
          (StatusWith_isOK retry = false ->
           returned h DataReplicator__scheduleFetch_inlock d es
           = Val (StatusWith_getStatus retry)
           /\ final h DataReplicator__scheduleFetch_inlock d es = d)
          /\ (StatusWith_isOK retry = true ->
              DataReplicator._fetcher (final h DataReplicator__scheduleFetch_inlock d es)
              = Some (OplogFetcher_new
                        (OpTime_getTimestamp (ask h Coord_getMyLastOptime es))
                        HostAndPort_default ns Bound_onOplogFetchFinish))).
Proof.
  intros ES h es d Hf ns. subst ns.
  destruct d as [opts rc state fp rp aa ap buf sd src f' tf a r iss la lf rb sto ev bc].
  simpl in Hf. subst f'.
  unfold returned, final, result, DataReplicator__scheduleFetch_inlock,
    DataReplicator__ensureGoodSyncSource_inlock, QueryFetcher_isActive, QueryFetcher_schedule.
  split.
  - intros Hsrc. simpl in Hsrc.
    destruct rc as [rc | ];
      cbn -[HostAndPort_empty OplogFetcher_new]; rewrite Hsrc;
      cbn -[HostAndPort_empty OplogFetcher_new];
      match goal with
      | |- context [ask h (Fetcher_isActive ?c) ?e] =>
          destruct (ask h (Fetcher_isActive c) e)
      end;
      cbn -[HostAndPort_empty OplogFetcher_new];
      try match goal with
      | |- context [Status.isOK ?x] => destruct (Status.isOK x)
      end; auto.
  - intros rc' Hrc Hsrc. cbv zeta. intros Hnone.
    simpl in Hrc, Hsrc. subst rc.
    cbn -[HostAndPort_empty OplogFetcher_new]. rewrite Hsrc.
    cbn -[HostAndPort_empty OplogFetcher_new]. rewrite Hnone.
    cbn -[OplogFetcher_new].
    destruct (StatusWith_isOK (ask h (Exec_scheduleWork Work_doNextActions) _)) eqn:E.
    + split; [discriminate | intros _].
      cbn -[OplogFetcher_new].
      match goal with
      | |- context [ask h (Fetcher_isActive ?c) ?e] =>
          destruct (ask h (Fetcher_isActive c) e)
      end;
      cbn -[OplogFetcher_new];
      try match goal with
      | |- context [Status.isOK ?x] => destruct (Status.isOK x)
      end; auto.
    + split; [intros _ | discriminate]. cbn.
      destruct src; [ | discriminate]. auto.
Qed.

Lemma scheduleFetch_creates_fetcher_witness :
  let fresh := DataReplicator_new example_opts (Some 0%nat) in
  let chosen := DataReplicator.set__syncSource "primary:27017" fresh in
  final calm_handler DataReplicator__scheduleFetch_inlock chosen tt
  = DataReplicator.set__fetcher
      (Some (OplogFetcher_new 0 "primary:27017" "local.oplog.rs" Bound_onOplogFetchFinish))
      chosen
  /\ DataReplicator._fetcher
       (final no_source_handler DataReplicator__scheduleFetch_inlock fresh tt)
     = Some (OplogFetcher_new 0 HostAndPort_default "local.oplog.rs"
               Bound_onOplogFetchFinish).
Proof.
  intros fresh chosen. split.
  - generalize (@scheduleFetch_creates_fetcher unit calm_handler tt chosen eq_refl).
    cbv zeta. intros (H1 & _). exact (proj1 (H1 eq_refl)).
  - generalize (@scheduleFetch_creates_fetcher unit no_source_handler tt fresh eq_refl).
    cbv zeta. intros (_ & H2).
    exact (proj2 (H2 0%nat eq_refl eq_refl eq_refl) eq_refl).
Defined.

(** ** The oplog buffer and the applier *)

Lemma DataReplicator_popAll_all (buffer : list BSONObj) (ops : Operations) :
  DataReplicator_popAll buffer ops = (ops ++ buffer, []).
Proof.
  revert ops. induction buffer as [ | op rest IH]; intros ops; simpl.
  - rewrite app_nil_r. reflexivity.
  - rewrite IH, <- app_assoc. reflexivity.
Qed.

(** [_getNextApplierBatch_inlock] returns the whole buffer, in order, and
    leaves it empty; it makes no external call. *)
Lemma getNextApplierBatch_drains_buffer :
  forall ES (h : Handler ES) (es : ES) (d : DataReplicator.t),
    returned h DataReplicator__getNextApplierBatch_inlock d es
    = Val (DataReplicator._oplogBuffer d)
    /\ final h DataReplicator__getNextApplierBatch_inlock d es
       = DataReplicator.set__oplogBuffer [] d
    /\ calls h DataReplicator__getNextApplierBatch_inlock d es = [].
Proof.
  intros ES h es d.
  unfold returned, final, calls, result, trace, DataReplicator__getNextApplierBatch_inlock.
  cbn [bind get modify ret pbind run fst snd].
  rewrite DataReplicator_popAll_all. auto.
Qed.

(** X12. [_scheduleApplyBatch_inlock] does nothing and returns OK while
    the applier is paused or a batch is being applied.  Otherwise it sets
    [_applierActive] before it looks at the buffer: on an empty buffer the
    invariant on the size of the batch fails, with the flag left set. *)
Theorem scheduleApplyBatch_guards :
  forall ES (h : Handler ES) (es : ES) (d : DataReplicator.t),
    (DataReplicator._applierPaused d = true \/ DataReplicator._applierActive d = true ->
     returned h DataReplicator__scheduleApplyBatch_inlock d es = Val Status.OK
     /\ final h DataReplicator__scheduleApplyBatch_inlock d es = d
     /\ calls h DataReplicator__scheduleApplyBatch_inlock d es = [])
    /\ (DataReplicator._applierPaused d = false ->
        DataReplicator._applierActive d = false ->
        DataReplicator._oplogBuffer d = [] ->
        returned h DataReplicator__scheduleApplyBatch_inlock d es
        = Crash (InvariantFailure "ops.size()")
        /\ final h DataReplicator__scheduleApplyBatch_inlock d es
           = DataReplicator.set__applierActive true d
        /\ calls h DataReplicator__scheduleApplyBatch_inlock d es = []).
Proof.
  intros ES h es d.
  destruct d as [opts rc state fp rp aa ap buf sd src f tf a r iss la lf rb sto ev bc].
  simpl. split.
  - intros [H | H]; subst; [ | destruct ap]; repeat split.
  - intros; subst. repeat split.
Qed.

(** X13. With the applier neither paused nor busy, a non-empty buffer, an
    applier function configured and no applier still running,
    [_scheduleApplyBatch_inlock] hands the whole buffer, in order, to a new
    applier as one batch: the buffer is left empty, [_applierActive] is set
    and the status of the applier's [start] is returned.  The flag is set
    also when [start] fails. *)
Theorem scheduleApplyBatch_takes_whole_buffer :
  forall ES (h : Handler ES) (es : ES) (d : DataReplicator.t)
         (op : BSONObj) (rest : list BSONObj) (fn : nat),
    DataReplicator._applierPaused d = false ->
    DataReplicator._applierActive d = false ->
    DataReplicator._oplogBuffer d = op :: rest ->
    DataReplicatorOptions.applierFn (DataReplicator._opts d) = Some fn ->
    (forall a, DataReplicator._applier d = Some a -> ask h (Applier_isActive a) es = false) ->
    let batch := Applier.mk (op :: rest) in
    let es1 := match DataReplicator._applier d with
               | Some a => next h (Applier_isActive a) es
               | None => es
               end in
    let d' := final h DataReplicator__scheduleApplyBatch_inlock d es in
    returned h DataReplicator__scheduleApplyBatch_inlock d es
    = Val (ask h (Applier_start batch) es1)
    /\ d' = DataReplicator.set__applier (Some batch)
              (DataReplicator.set__oplogBuffer []
                 (DataReplicator.set__applierActive true d))
    /\ DataReplicator._applierActive d' = true.
Proof.
  intros ES h es d op rest fn Hp Ha Hbuf Hfn Hact.
  destruct d as [opts rc state fp rp aa ap buf sd src f tf a r iss la lf rb sto ev bc].
  destruct opts as [o1 o2 o3 o4 o5 o6 o7 o8].
  simpl in *. subst.
  unfold returned, final, calls, result, trace, DataReplicator__scheduleApplyBatch_inlock,
    DataReplicator__getNextApplierBatch_inlock.
  cbn [bind get modify ret pbind run fst snd negb andb DataReplicator._applierPaused
       DataReplicator._applierActive DataReplicator.set__applierActive
       DataReplicator._oplogBuffer DataReplicator._opts DataReplicator._applier].
  rewrite DataReplicator_popAll_all.
  destruct a as [a | ].
  - specialize (Hact a eq_refl). unfold ask in Hact.
    cbn. unfold ask, next. destruct (h bool (Applier_isActive a) es) as [b es1] eqn:E.
    simpl in Hact. subst b. cbn. auto.
  - cbn. auto.
Qed.

Lemma scheduleApplyBatch_takes_whole_buffer_witness :
  let d := DataReplicator.set__oplogBuffer [doc_ts 6; doc_ts 7] steady_replicator in
  returned calm_handler DataReplicator__scheduleApplyBatch_inlock d tt = Val Status.OK
  /\ final calm_handler DataReplicator__scheduleApplyBatch_inlock d tt
     = DataReplicator.set__applier (Some (Applier.mk [doc_ts 6; doc_ts 7]))
         (DataReplicator.set__oplogBuffer []
            (DataReplicator.set__applierActive true d))
  /\ DataReplicator._applierActive
       (final calm_handler DataReplicator__scheduleApplyBatch_inlock d tt) = true.
Proof.
  intros d.
  apply (@scheduleApplyBatch_takes_whole_buffer unit calm_handler tt d (doc_ts 6)
           [doc_ts 7] 0%nat); reflexivity.
Defined.

(** ** Oplog-fetch completion with a batch *)





Section OplogFetchSuccess.

Context {ES : Type} (h : Handler ES).

#[local] Opaque DataReplicator__doNextActions.


End OplogFetchSuccess.

#[local] Transparent DataReplicator__doNextActions.



(** A cancelled fetch is ignored: the callback returns at once and the
    replicator is unchanged. *)
Lemma onOplogFetchFinish_ignores_cancellation :
  forall ES (h : Handler ES) (es : ES) (d : DataReplicator.t) (reason : Msg)
         (nextAction : NextAction.t),
    ask h Exec_isRunThread es = true ->
    let callback :=
      DataReplicator__onOplogFetchFinish
        (SWStatus (Status.mk ErrorCodes.CallbackCanceled reason)) nextAction in
    returned h callback d es = Val tt
    /\ final h callback d es = d
    /\ calls h callback d es = [obs Exec_isRunThread true].
Proof.
  intros ES h es d reason nextAction Hrun callback. subst callback.
  unfold returned, final, calls, result, trace, DataReplicator__onOplogFetchFinish.
  unfold bind. cbn [call pbind run fst snd]. rewrite Hrun. cbn. auto.
Qed.

(** ** Resuming and resetting *)

Lemma doNextActions_keeps_pause_flags :
  respects plain_call same_pause_flags DataReplicator__doNextActions.
Proof.
  apply frame_doNextActions with (J := fun _ _ => True);
    unfold same_pause_flags; intros;
    solve [ exact I | tauto | intuition congruence
          | match goal with d : DataReplicator.t |- _ => destruct d; simpl in *; tauto end ].
Qed.

(** X15. [_resumeFinish] clears [_applierPaused] and [_fetcherPaused],
    and they are still clear when it returns, whatever [_doNextActions] then
    does and however it ends; [_reporterPaused] is not changed. *)
Theorem resumeFinish_clears_pause_flags :
  forall ES (h : Handler ES) (es : ES) (d : DataReplicator.t) (cbData : CallbackArgs.t),
    let d' := final h (DataReplicator__resumeFinish cbData) d es in
    DataReplicator._applierPaused d' = false
    /\ DataReplicator._fetcherPaused d' = false
    /\ DataReplicator._reporterPaused d' = DataReplicator._reporterPaused d.
Proof.
  intros ES h es d cbData.
  unfold final, result, DataReplicator__resumeFinish.
  cbn [bind modify pbind fst snd].
  match goal with
  | |- context [run h (DataReplicator__doNextActions ?d1) es] =>
      pose proof (wp_run _ _ (doNextActions_keeps_pause_flags d1) h es)
        as (_ & (H1 & H2 & H3) & _)
  end.
  unfold result in *. rewrite H1, H2, H3. destruct d; auto.
Qed.

(** [_resetState_inlock] sets both timestamps and empties the buffer, or
    fails its invariant and changes nothing; it fails while a batch is being
    applied. *)
Lemma resetState_requires_idle_replicator :
  forall ES (h : Handler ES) (es : ES) (d : DataReplicator.t) (lastAppliedOptime : Timestamp),
    let reset := DataReplicator__resetState_inlock lastAppliedOptime in
    (returned h reset d es = Val tt
     /\ final h reset d es
        = DataReplicator.set__oplogBuffer []
            (DataReplicator.set__lastTimestampApplied lastAppliedOptime
               (DataReplicator.set__lastTimestampFetched lastAppliedOptime d))
     \/ returned h reset d es = Crash (InvariantFailure "!_anyActiveHandles_inlock()")
        /\ final h reset d es = d)
    /\ (DataReplicator._applierActive d = true ->
        returned h reset d es = Crash (InvariantFailure "!_anyActiveHandles_inlock()")
        /\ calls h reset d es = []).
Proof.
  intros ES h es d ts reset. subst reset.
  destruct d as [opts rc state fp rp aa ap buf sd src f tf a r iss la lf rb sto ev bc].
  unfold returned, final, calls, result, trace, DataReplicator__resetState_inlock,
    DataReplicator__anyActiveHandles_inlock, QueryFetcher_isActive, DatabasesCloner_isActive.
  unfold bind. cbn [get pbind run fst snd DataReplicator._applierActive].
  destruct aa; cbn.
  { split; [right | ]; auto. }
  split; [ | discriminate].
  destruct f as [f | ]; cbn;
    try (destruct (ask h (Fetcher_isActive _) es); cbn; [right; auto | ]);
    destruct iss as [iss | ]; cbn;
    try (destruct (DatabasesCloner._active (InitialSyncState.dbsCloner iss)); cbn;
         [right; auto | ]);
    destruct r as [r | ]; cbn;
    try match goal with
        | |- context [ask h (Reporter_isActive ?x) ?e] =>
            destruct (ask h (Reporter_isActive x) e); cbn
        end;
    auto.
Qed.

(** ** The dispatcher *)

(** X16. Once shutdown was requested, [_doNextActions] schedules nothing
    and changes nothing: it returns and leaves the replicator as it was, and
    its only external calls are the activity queries on the fetcher and the
    reporter and the signal of the shutdown event.  While a batch is being
    applied it makes no call at all; with no fetcher, no initial-sync state
    and no reporter (and no batch in progress) it signals the shutdown event
    at once. *)
Theorem doNextActions_during_shutdown :
  forall ES (h : Handler ES) (es : ES) (d : DataReplicator.t),
    DataReplicator._doShutdown d = true ->
    returned h DataReplicator__doNextActions d es = Val tt
    /\ final h DataReplicator__doNextActions d es = d
    /\ Forall (shutdown_probe d) (calls h DataReplicator__doNextActions d es)
    /\ (DataReplicator._applierActive d = true ->
        calls h DataReplicator__doNextActions d es = [])
    /\ (DataReplicator._applierActive d = false ->
        DataReplicator._fetcher d = None ->
        DataReplicator._initialSyncState d = None ->
        DataReplicator._reporter d = None ->
        calls h DataReplicator__doNextActions d es
        = [obs (Exec_signalEvent (DataReplicator._onShutdown d)) tt]).
Proof.
  intros ES h es d Hsd.
  destruct d as [opts rc state fp rp aa ap buf sd src f tf a r iss la lf rb sto ev bc].
  simpl in Hsd. subst sd.
  unfold returned, final, calls, result, trace, DataReplicator__doNextActions,
    DataReplicator__anyActiveHandles_inlock, QueryFetcher_isActive, DatabasesCloner_isActive.
  destruct aa.
  { cbn. repeat split; auto; discriminate. }
  assert (Hunit : forall e es', ask h (Exec_signalEvent e) es' = tt)
    by (intros e es'; destruct (ask h (Exec_signalEvent e) es'); reflexivity).
  destruct f as [f | ]; cbn.
  - destruct (ask h (Fetcher_isActive _) es) eqn:E1; cbn.
    + repeat split; auto; try discriminate. repeat constructor.
    + destruct iss as [iss | ]; cbn;
        try (destruct (DatabasesCloner._active (InitialSyncState.dbsCloner iss)); cbn);
        destruct r as [r | ]; cbn;
        try match goal with
            | |- context [ask h (Reporter_isActive ?x) ?e] =>
                destruct (ask h (Reporter_isActive x) e); cbn
            end;
        repeat split; auto; try discriminate; repeat constructor;
        rewrite Hunit; reflexivity.
  - destruct iss as [iss | ]; cbn;
      try (destruct (DatabasesCloner._active (InitialSyncState.dbsCloner iss)); cbn);
      destruct r as [r | ]; cbn;
      try match goal with
          | |- context [ask h (Reporter_isActive ?x) ?e] =>
              destruct (ask h (Reporter_isActive x) e); cbn
          end;
      repeat split; auto; try discriminate; repeat constructor;
      intros; try discriminate; rewrite Hunit; reflexivity.
Qed.

Lemma doNextActions_during_shutdown_witness :
  let d := DataReplicator.set__doShutdown true steady_replicator in
  returned calm_handler DataReplicator__doNextActions d tt = Val tt
  /\ final calm_handler DataReplicator__doNextActions d tt = d
  /\ Forall (shutdown_probe d) (calls calm_handler DataReplicator__doNextActions d tt).
Proof.
  intros d.
  generalize (@doNextActions_during_shutdown unit calm_handler tt d eq_refl).
  intros (H1 & H2 & H3 & _). split; [exact H1 | split; [exact H2 | exact H3]].
Defined.

(** X17. The initial-sync step.  Without initial-sync state the replicator
    falls back to Uninitialized.  While the cloner is active or has failed,
    nothing happens.  Once the cloner is done with an OK status, the step is
    the steady-state step as long as the last applied timestamp is null
    ([isNull()], whatever its increment) or below the stop timestamp; when
    the last applied timestamp is not null and has reached the stop
    timestamp, the status is set to OK, the state becomes Uninitialized and
    the finish event is signalled, the only external call.  So initial sync
    does not complete on a last applied timestamp that is null, even when it
    equals the stop timestamp. *)
Theorem doNextActions_InitialSync_completion :
  forall ES (h : Handler ES) (es : ES) (d : DataReplicator.t),
    (DataReplicator._initialSyncState d = None ->
     final h DataReplicator__doNextActions_InitialSync_inlock d es
     = DataReplicator.set__state DataReplicatorState.Uninitialized d
     /\ calls h DataReplicator__doNextActions_InitialSync_inlock d es = [])
    /\ (forall iss : InitialSyncState.t,
          DataReplicator._initialSyncState d = Some iss ->
          let cloner := InitialSyncState.dbsCloner iss in
          (DatabasesCloner_isActive cloner = true
           \/ Status.isOK (DatabasesCloner_getStatus cloner) = false ->
           returned h DataReplicator__doNextActions_InitialSync_inlock d es = Val tt
           /\ final h DataReplicator__doNextActions_InitialSync_inlock d es = d
           /\ calls h DataReplicator__doNextActions_InitialSync_inlock d es = [])
          /\ (DatabasesCloner_isActive cloner = false ->
              Status.isOK (DatabasesCloner_getStatus cloner) = true ->
              Timestamp_isNull (DataReplicator._lastTimestampApplied d) = true
              \/ DataReplicator._lastTimestampApplied d < InitialSyncState.stopTimestamp iss ->
              DataReplicator__doNextActions_InitialSync_inlock d
              = DataReplicator__doNextActions_Steady_inlock d)
          /\ (DatabasesCloner_isActive cloner = false ->
              Status.isOK (DatabasesCloner_getStatus cloner) = true ->
              Timestamp_isNull (DataReplicator._lastTimestampApplied d) = false ->
              InitialSyncState.stopTimestamp iss <= DataReplicator._lastTimestampApplied d ->
              Event_isValid (InitialSyncState.finishEvent iss) = true ->
              final h DataReplicator__doNextActions_InitialSync_inlock d es
              = DataReplicator.set__initialSyncState
                  (Some (InitialSyncState.set_status Status.OK iss))
                  (DataReplicator.set__state DataReplicatorState.Uninitialized d)
              /\ calls h DataReplicator__doNextActions_InitialSync_inlock d es
                 = [obs (Exec_signalEvent (InitialSyncState.finishEvent iss)) tt])).
Proof.
  intros ES h es d.
  destruct d as [opts rc state fp rp aa ap buf sd src f tf a r iss' la lf rb sto ev bc].
  unfold returned, final, calls, result, trace, DataReplicator__doNextActions_InitialSync_inlock,
    DatabasesCloner_isActive, DatabasesCloner_getStatus.
  cbn [bind get pbind run fst snd DataReplicator._initialSyncState
       DataReplicator._lastTimestampApplied].
  split.
  - intros ->. cbn. auto.
  - intros iss ->. cbn [negb].
    destruct (DatabasesCloner._active (InitialSyncState.dbsCloner iss)) eqn:Eact;
      cbn [negb].
    { split; [ | split]; intros; try discriminate. cbn. auto. }
    destruct (Status.isOK (DatabasesCloner._status (InitialSyncState.dbsCloner iss))) eqn:Eok;
      cbn [negb].
    2: { split; [ | split]; intros; try discriminate. cbn. auto. }
    split; [ | split].
    + intros [H | H]; discriminate.
    + intros _ _ [H | H].
      * rewrite H. reflexivity.
      * destruct (negb (Timestamp_isNull la)); cbn [andb]; [ | reflexivity].
        destruct (la >=? InitialSyncState.stopTimestamp iss) eqn:E; [ | reflexivity].
        apply Z.geb_le in E. lia.
    + intros _ _ Hnull Hle Hev. rewrite Hnull. cbn [negb andb].
      assert (E : (la >=? InitialSyncState.stopTimestamp iss) = true)
        by (apply Z.geb_le; lia).
      rewrite E, Hev.
      assert (Hunit : forall e es', ask h (Exec_signalEvent e) es' = tt)
        by (intros e es'; destruct (ask h (Exec_signalEvent e) es'); reflexivity).
      cbn. rewrite Hunit. auto.
Qed.

Lemma doNextActions_InitialSync_completion_witness :
  let reached := DataReplicator.set__lastTimestampApplied (2 ^ 32 + 5) syncing_replicator in
  (DataReplicator._lastTimestampApplied syncing_replicator = 5
   /\ InitialSyncState.stopTimestamp finished_initialSyncState = 5
   /\ DataReplicator__doNextActions_InitialSync_inlock syncing_replicator
      = DataReplicator__doNextActions_Steady_inlock syncing_replicator)
  /\ (final calm_handler DataReplicator__doNextActions_InitialSync_inlock reached tt
      = DataReplicator.set__initialSyncState
          (Some (InitialSyncState.set_status Status.OK finished_initialSyncState))
          (DataReplicator.set__state DataReplicatorState.Uninitialized reached)
      /\ calls calm_handler DataReplicator__doNextActions_InitialSync_inlock reached tt
         = [obs (Exec_signalEvent (Event_id 1)) tt]).
Proof.
  intros reached. split.
  - split; [reflexivity | split; [reflexivity | ]].
    destruct (proj2 (@doNextActions_InitialSync_completion unit calm_handler tt
                       syncing_replicator) finished_initialSyncState eq_refl)
      as (_ & H & _).
    apply H; [reflexivity | reflexivity | left; reflexivity].
  - destruct (proj2 (@doNextActions_InitialSync_completion unit calm_handler tt reached)
                finished_initialSyncState eq_refl)
      as (_ & _ & H).
    apply H; try reflexivity. vm_compute. discriminate.
Defined.

(** ** The callbacks of initial sync *)

Lemma signalEvent_answer {ES} (h : Handler ES) (e : Event) (es : ES) :
  ask h (Exec_signalEvent e) es = tt.
Proof. destruct (ask h (Exec_signalEvent e) es). reflexivity. Qed.

(** X18. [_onDataClonerFinish].  A failed clone is recorded in the
    initial-sync state and the finish event is signalled (with no
    initial-sync state the null pointer is dereferenced).  A successful clone
    schedules a temporary fetcher for the newest oplog entry of the sync
    source, bound to [_onApplierReadyStart], and makes no other call; if it
    cannot be scheduled the status is recorded in the initial-sync state, and
    the finish event is not signalled. *)
Theorem onDataClonerFinish_outcomes :
  forall ES (h : Handler ES) (es : ES) (d : DataReplicator.t) (status : Status.t),
    let callback := DataReplicator__onDataClonerFinish status in
    let ns := DataReplicatorOptions.remoteOplogNS (DataReplicator._opts d) in
    let tmp := QueryFetcher_new (DataReplicator._syncSource d) ns (latest_entry_query ns)
                 Bound_onApplierReadyStart in
    let schedule := Fetcher_schedule (QueryFetcher._fetcher tmp) in
    (Status.isOK status = false ->
     (DataReplicator._initialSyncState d = None ->
      returned h callback d es = Crash (NullDereference "_initialSyncState")
      /\ final h callback d es = d
      /\ calls h callback d es = [])
     /\ (forall iss : InitialSyncState.t,
           DataReplicator._initialSyncState d = Some iss ->
           final h callback d es
           = DataReplicator.set__initialSyncState
               (Some (InitialSyncState.set_status status iss)) d
           /\ calls h callback d es
              = [obs (Exec_signalEvent (InitialSyncState.finishEvent iss)) tt]))
    /\ (Status.isOK status = true ->
        calls h callback d es = [obs schedule (ask h schedule es)]
        /\ (Status.isOK (ask h schedule es) = true ->
            returned h callback d es = Val tt
            /\ final h callback d es = DataReplicator.set__tmpFetcher (Some tmp) d)
        /\ (Status.isOK (ask h schedule es) = false ->
            forall iss : InitialSyncState.t,
              DataReplicator._initialSyncState d = Some iss ->
              final h callback d es
              = DataReplicator.set__initialSyncState
                  (Some (InitialSyncState.set_status (ask h schedule es) iss))
                  (DataReplicator.set__tmpFetcher (Some tmp) d))).
Proof.
  intros ES h es d status callback ns tmp schedule. subst callback ns tmp schedule.
  destruct d as [opts rc state fp rp aa ap buf sd src f tf a r iss' la lf rb sto ev bc].
  unfold returned, final, calls, result, trace, DataReplicator__onDataClonerFinish,
    DataReplicator_on_initialSyncState, DataReplicator_initialSyncState,
    InitialSyncState_setStatus, QueryFetcher_schedule.
  fold (latest_entry_query (DataReplicatorOptions.remoteOplogNS opts)).
  split; intros Hst; rewrite Hst; cbn [negb].
  - split.
    + intros Hiss. simpl in Hiss. subst iss'. cbn. auto.
    + intros iss Hiss. simpl in Hiss. subst iss'. cbn.
      rewrite signalEvent_answer. auto.
  - cbn -[QueryFetcher_new latest_entry_query].
    destruct (Status.isOK (ask h (Fetcher_schedule _) es)) eqn:E;
      cbn -[QueryFetcher_new latest_entry_query].
    + split; [reflexivity | split; [auto | discriminate]].
    + split; [ | split; [discriminate | ]].
      * destruct iss'; reflexivity.
      * intros _ iss Hiss. inversion Hiss. reflexivity.
Qed.

Section ApplierReadyStart.

Context {ES : Type} (h : Handler ES).

#[local] Opaque DataReplicator__doNextActions DataReplicator__doNextActions_InitialSync_inlock.

(** X19. [_onApplierReadyStart], on the run thread of a replicator with
    initial-sync state.  When the first document of the reply has a [ts],
    that timestamp becomes the stop timestamp, the applier is released
    ([_applierPaused] is cleared; if it was not paused the invariant fails,
    with the stop timestamp already stored) and the initial-sync step runs.
    When the reply is an error, or has no document, or its first document
    has no [ts], the error (FailedToParse in the last two cases) is recorded
    in the initial-sync state and [_doNextActions] runs. *)
Theorem onApplierReadyStart_releases_applier :
  forall (es : ES) (d : DataReplicator.t) (iss : InitialSyncState.t)
         (fetchResult : BatchDataStatus) (nextAction : NextAction.t),
    ask h Exec_isRunThread es = true ->
    DataReplicator._initialSyncState d = Some iss ->
    StatusWith_valid fetchResult ->
    let callback := DataReplicator__onApplierReadyStart fetchResult nextAction in
    let es1 := next h Exec_isRunThread es in
    (forall b doc rest,
       fetchResult = SWValue b ->
       BatchData.documents b = doc :: rest ->
       BSONObj_hasField doc "ts" = true ->
       let stop := BSONElement_timestamp (BSONObj_getField doc "ts") in
       let ready :=
         DataReplicator.set__initialSyncState
           (Some (InitialSyncState.set_stopTimestamp stop iss)) d in
       (DataReplicator._applierPaused d = false ->
        returned h callback d es = Crash (InvariantFailure "_applierPaused")
        /\ final h callback d es = ready)
       /\ (DataReplicator._applierPaused d = true ->
           let released := DataReplicator.set__applierPaused false ready in
           calls h callback d es
           = obs Exec_isRunThread true
               :: calls h DataReplicator__doNextActions_InitialSync_inlock released es1
           /\ final h callback d es
              = final h DataReplicator__doNextActions_InitialSync_inlock released es1))
    /\ (forall s : Status.t,
          (fetchResult = SWStatus s
           \/ s = could_not_find_ts
              /\ exists b, fetchResult = SWValue b
                           /\ match BatchData.documents b with
                              | doc :: _ => BSONObj_hasField doc "ts" = false
                              | [] => True
                              end) ->
          let failed :=
            DataReplicator.set__initialSyncState
              (Some (InitialSyncState.set_status s iss)) d in
          calls h callback d es
          = obs Exec_isRunThread true :: calls h DataReplicator__doNextActions failed es1
          /\ final h callback d es = final h DataReplicator__doNextActions failed es1).
Proof.
  intros es d iss fetchResult nextAction Hrun Hiss Hvalid callback es1.
  subst callback es1.
  destruct d as [opts rc state fp rp aa ap buf sd src f tf a r iss' la lf rb sto ev bc].
  simpl in Hiss. subst iss'.
  unfold returned, final, calls, result, trace, DataReplicator__onApplierReadyStart,
    DataReplicator_initialSyncState.
  unfold bind. cbn [call pbind run fst snd]. rewrite Hrun.
  cbn [invariant get deref ret pbind run fst snd DataReplicator._initialSyncState].
  set (d := DataReplicator.mk opts rc state fp rp aa ap buf sd src f tf a r (Some iss)
              la lf rb sto ev bc).
  destruct (@setTimestampSatus_returns DataReplicator.t fetchResult nextAction
              (SWStatus (Status.mk ErrorCodes.OplogStartMissing [])) d Hvalid)
    as (ts & Hts & Hv & Herr & Hval).
  rewrite Hts. cbn [pbind fst snd].
  split.
  - intros b doc rest Hb Hdocs Hhas. specialize (Hval b Hb). rewrite Hdocs, Hhas in Hval.
    subst ts. cbn zeta.
    unfold DataReplicator_on_initialSyncState, StatusWith_isOK. subst d.
    split; intros Hap; simpl in Hap; subst ap; cbn; auto.
  - intros s Hs.
    assert (Ets : ts = SWStatus s).
    { destruct Hs as [Hs | (Hs & b & Hb & Hno)].
      - subst fetchResult. simpl in Hvalid. apply Herr.
        unfold StatusWith_isOK. simpl. exact Hvalid.
      - specialize (Hval b Hb). subst s.
        destruct (BatchData.documents b); [exact Hval | ].
        rewrite Hno in Hval. exact Hval. }
    subst ts. simpl in Hv.
    unfold DataReplicator_on_initialSyncState, StatusWith_isOK, InitialSyncState_setStatus.
    subst d. cbn [StatusWith_getStatus]. rewrite Hv.
    cbn. auto.
Qed.

End ApplierReadyStart.

#[local] Transparent DataReplicator__doNextActions
  DataReplicator__doNextActions_InitialSync_inlock.

Lemma onApplierReadyStart_releases_applier_witness :
  let callback := DataReplicator__onApplierReadyStart (batch_of [doc_ts 9]) NextAction.kNoAction in
  let released :=
    DataReplicator.set__applierPaused false
      (DataReplicator.set__initialSyncState
         (Some (InitialSyncState.set_stopTimestamp 9 finished_initialSyncState))
         syncing_replicator) in
  final calm_handler callback syncing_replicator tt
  = final calm_handler DataReplicator__doNextActions_InitialSync_inlock released tt.
Proof.
  generalize (@onApplierReadyStart_releases_applier unit calm_handler tt syncing_replicator
                finished_initialSyncState (batch_of [doc_ts 9]) NextAction.kNoAction
                eq_refl eq_refl I).
  cbv zeta. intros (H1 & _).
  exact (proj2 (proj2 (H1 _ (doc_ts 9) [] eq_refl eq_refl eq_refl) eq_refl)).
Defined.

(** ** A batch the applier could not apply *)

(** X20. A batch that could not be applied outside initial sync is fatal:
    for an OK callback status, an error result and a state other than
    InitialSync (Rollback included), [_onApplyBatchFinish] ends in
    [fassert(28666, error)] without any external call, after it has added
    [numApplied] to [appliedOps]. *)
Theorem onApplyBatchFinish_failure_is_fatal_outside_initial_sync :
  forall ES (h : Handler ES) (es : ES) (d : DataReplicator.t) (iss : InitialSyncState.t)
         (cbData : CallbackArgs.t) (s : Status.t) (ops : Operations) (numApplied : Z),
    Status.isOK (CallbackArgs.status cbData) = true ->
    DataReplicator._initialSyncState d = Some iss ->
    Status.isOK s = false ->
    DataReplicator._state d <> DataReplicatorState.InitialSync ->
    let callback := DataReplicator__onApplyBatchFinish cbData (SWStatus s) ops numApplied in
    returned h callback d es = Crash (FatalAssertion 28666 s)
    /\ calls h callback d es = []
    /\ final h callback d es
       = DataReplicator.set__initialSyncState
           (Some (InitialSyncState.set_appliedOps
                    (size_t_wrap (InitialSyncState.appliedOps iss + numApplied)) iss)) d.
Proof.
  intros ES h es d iss cbData s ops numApplied Hcb Hiss Hs Hstate callback.
  subst callback.
  destruct d as [opts rc state fp rp aa ap buf sd src f tf a r iss' la lf rb sto ev bc].
  simpl in Hiss, Hstate. subst iss'.
  unfold returned, final, calls, result, trace, DataReplicator__onApplyBatchFinish,
    DataReplicator__handleFailedApplyBatch, DataReplicator_on_initialSyncState,
    StatusWith_isOK.
  rewrite Hcb. cbn [StatusWith_getStatus]. rewrite Hs.
  destruct state; try congruence; cbn -[size_t_wrap Z.add]; auto.
Qed.

Lemma onApplyBatchFinish_failure_is_fatal_outside_initial_sync_witness :
  returned calm_handler
    (DataReplicator__onApplyBatchFinish (CallbackArgs.mk Status.OK) (SWStatus first_failure)
       [doc_ts 6] 1)
    steady_replicator tt
  = Crash (FatalAssertion 28666 first_failure).
Proof.
  exact (proj1 (@onApplyBatchFinish_failure_is_fatal_outside_initial_sync unit calm_handler
                  tt steady_replicator finished_initialSyncState
                  (CallbackArgs.mk Status.OK) first_failure [doc_ts 6] 1
                  eq_refl eq_refl eq_refl ltac:(vm_compute; discriminate))).
Defined.

(** X21. [_scheduleApplyAfterFetch] counts the missing document in the
    initial-sync state and creates a temporary fetcher on the sync source for
    the document with the [o2._id] of the first operation of the batch, in
    the namespace named by its [ns], bound to [_onMissingFetched] with the
    whole batch.  If the fetcher cannot be scheduled, the status is recorded
    in the initial-sync state and the call does not return: its
    [_doNextActions()] locks [_mutex], which the caller, [_onApplyBatchFinish],
    still holds. *)
Theorem scheduleApplyAfterFetch_fetches_missing_document :
  forall ES (h : Handler ES) (es : ES) (d : DataReplicator.t) (iss : InitialSyncState.t)
         (op : BSONObj) (rest : Operations),
    DataReplicator._initialSyncState d = Some iss ->
    let ops := op :: rest in
    let nss : NamespaceString := BSONElement_str (BSONObj_getField op "ns") in
    let query := [("find", BSONString (NamespaceString_coll nss));
                  ("query", BSONObject [("_id", BSONObj_getFieldDotted op "o2" "_id")])] in
    let tmp := QueryFetcher_new (DataReplicator._syncSource d) nss query
                 (Bound_onMissingFetched ops nss) in
    let schedule := Fetcher_schedule (QueryFetcher._fetcher tmp) in
    let counted :=
      InitialSyncState.set_fetchedMissingDocs
        (size_t_wrap (InitialSyncState.fetchedMissingDocs iss + 1)) iss in
    let fetching :=
      DataReplicator.set__tmpFetcher (Some tmp)
        (DataReplicator.set__initialSyncState (Some counted) d) in
    calls h (DataReplicator__scheduleApplyAfterFetch ops) d es
    = [obs schedule (ask h schedule es)]
    /\ (Status.isOK (ask h schedule es) = true ->
        returned h (DataReplicator__scheduleApplyAfterFetch ops) d es = Val tt
        /\ final h (DataReplicator__scheduleApplyAfterFetch ops) d es = fetching)
    /\ (Status.isOK (ask h schedule es) = false ->
        returned h (DataReplicator__scheduleApplyAfterFetch ops) d es
        = Crash (UndefinedBehaviour "_mutex locked by the thread that owns it")
        /\ final h (DataReplicator__scheduleApplyAfterFetch ops) d es
           = DataReplicator.set__initialSyncState
               (Some (InitialSyncState.set_status (ask h schedule es) counted)) fetching).
Proof.
  intros ES h es d iss op rest Hiss ops nss query tmp schedule counted fetching.
  subst ops nss query tmp schedule counted fetching.
  destruct d as [opts rc state fp rp aa ap buf sd src f tf a r iss' la lf rb sto ev bc].
  simpl in Hiss. subst iss'.
  unfold returned, final, calls, result, trace, DataReplicator__scheduleApplyAfterFetch,
    DataReplicator__doNextActions_holding_mutex,
    DataReplicator_on_initialSyncState, InitialSyncState_setStatus, QueryFetcher_schedule.
  unfold bind.
  cbn -[size_t_wrap Z.add QueryFetcher_new NamespaceString_coll BSONObj_getField
        BSONObj_getFieldDotted BSONElement_str].
  split; [ | split; intros Hs; rewrite Hs ];
    cbn -[size_t_wrap Z.add QueryFetcher_new NamespaceString_coll BSONObj_getField
          BSONObj_getFieldDotted BSONElement_str]; auto.
  match goal with
  | |- context [Status.isOK ?x] => destruct (Status.isOK x)
  end; reflexivity.
Qed.

Lemma scheduleApplyAfterFetch_fetches_missing_document_witness :
  let fetch := DataReplicator__scheduleApplyAfterFetch [failed_update] in
  (returned calm_handler fetch syncing_replicator tt = Val tt
   /\ option_map InitialSyncState.fetchedMissingDocs
        (DataReplicator._initialSyncState (final calm_handler fetch syncing_replicator tt))
      = Some 1
   /\ option_map QueryFetcher._fetcher
        (DataReplicator._tmpFetcher (final calm_handler fetch syncing_replicator tt))
      = Some (Fetcher.mk "primary:27017" "test"
                [("find", BSONString "c"); ("query", BSONObject [("_id", BSONNumber 1)])]
                (Bound_onMissingFetched [failed_update] "test.c")))
  /\ returned no_fetch_handler fetch syncing_replicator tt
     = Crash (UndefinedBehaviour "_mutex locked by the thread that owns it").
Proof.
  split.
  - generalize (@scheduleApplyAfterFetch_fetches_missing_document unit calm_handler tt
                  syncing_replicator finished_initialSyncState failed_update [] eq_refl).
    cbv zeta. intros (_ & H1 & _). destruct (H1 eq_refl) as (R & F).
    split; [exact R | ]. rewrite F. split; reflexivity.
  - generalize (@scheduleApplyAfterFetch_fetches_missing_document unit no_fetch_handler tt
                  syncing_replicator finished_initialSyncState failed_update [] eq_refl).
    cbv zeta. intros (_ & _ & H2). exact (proj1 (H2 eq_refl)).
Defined.

(** ** What the retries of initialSync do *)

Section RetriesDoNoWork.

Context {ES : Type} (h : Handler ES).

Lemma initialSync_loop_after_failure :
  forall (fuel : nat) (failedAttempts : Z) (attemptErrorStatus : Status.t)
         (d : DataReplicator.t) (es : ES),
    failedAttempts + Z.of_nat fuel = maxFailedAttempts ->
    0 <= failedAttempts < maxFailedAttempts ->
    Status.isOK attemptErrorStatus = false ->
    exists (es' : ES) (t : Trace),
      run h (DataReplicator_initialSync_loop fuel failedAttempts attemptErrorStatus d) es
      = ((Val (SWStatus retries_exhausted), d), es', t)
      /\ Forall retry_mark t.
Proof.
  unfold maxFailedAttempts.
  induction fuel as [ | fuel IH]; intros n aes d es Hsum Hn Haes; [lia | ].
  cbn [DataReplicator_initialSync_loop]. unfold maxFailedAttempts.
  destruct (n <? 10) eqn:Hlt; [ | apply Z.ltb_ge in Hlt; lia].
  unfold bind at 1. rewrite run_pbind. unfold result, env_after, trace.
  destruct (@initialSync_attempt_after_failure ES h aes d es Haes) as (s & Hs & Hrun).
  rewrite Hrun. cbn [fst snd]. rewrite Hs.
  assert (Hw : int_wrap (n + 1) = n + 1).
  { unfold int_wrap. change (2 ^ 31) with 2147483648. change (2 ^ 32) with 4294967296.
    rewrite Z.mod_small by lia. lia. }
  rewrite Hw.
  cbn [bind get pbind fst snd call run].
  match goal with
  | |- context [ask h (sleepmillis ?w) ?e] => destruct (ask h (sleepmillis w) e)
  end.
  destruct (n + 1 >=? 10) eqn:Hge.
  - cbn. do 2 eexists. split; [reflexivity | ].
    repeat constructor.
  - assert (Hn1 : n + 1 < 10) by (rewrite Z.geb_leb in Hge; apply Z.leb_gt in Hge; lia).
    match goal with
    | |- context [run h (DataReplicator_initialSync_loop fuel (n + 1) ?a d) ?e] =>
        destruct (IH (n + 1) a d e ltac:(lia) ltac:(lia) Hs) as (es' & t & Hrun' & Ht)
    end.
    rewrite Hrun'. cbn. do 2 eexists. split; [reflexivity | ].
    repeat constructor. exact Ht.
Qed.

End RetriesDoNoWork.

Lemma initialSync_loop_first_attempt :
  forall ES (h : Handler ES) (fuel : nat) (failedAttempts : Z)
         (attemptErrorStatus : Status.t) (d : DataReplicator.t) (es : ES),
    failedAttempts + Z.of_nat fuel = maxFailedAttempts ->
    0 <= failedAttempts < maxFailedAttempts ->
    exists t1 t2 : Trace,
      trace h (DataReplicator_initialSync_loop fuel failedAttempts attemptErrorStatus d) es
      = t1 ++ t2
      /\ sleeps t1 = 0%nat
      /\ attempts t1 = 1%nat
      /\ Forall retry_mark t2
      /\ (t2 = []
          \/ fst (result h
                    (DataReplicator_initialSync_loop fuel failedAttempts attemptErrorStatus d)
                    es)
             = Val (SWStatus retries_exhausted)).
Proof.
  unfold maxFailedAttempts.
  intros ES h fuel n aes d es Hsum Hn.
  destruct fuel as [ | fuel]; [lia | ].
  cbn [DataReplicator_initialSync_loop]. unfold maxFailedAttempts.
  destruct (n <? 10) eqn:Hlt; [ | apply Z.ltb_ge in Hlt; lia].
  pose proof (wp_run _ _ (initialSync_attempt_once aes d) h es) as (Ha & Hs & _).
  exists (trace h (DataReplicator_initialSync_attempt aes d) es).
  match goal with
  | |- context [bind (DataReplicator_initialSync_attempt aes) ?k d] => set (K := k)
  end.
  unfold bind. rewrite trace_pbind, result_pbind.
  destruct (result h (DataReplicator_initialSync_attempt aes d) es) as [[s | x] d2];
    cbn [fst snd]; subst K; cbn beta.
  - destruct (Status.isOK s) eqn:Es.
    + exists []. cbn. repeat split; auto.
    + assert (Hw : int_wrap (n + 1) = n + 1).
      { unfold int_wrap. change (2 ^ 31) with 2147483648. change (2 ^ 32) with 4294967296.
        rewrite Z.mod_small by lia. lia. }
      rewrite Hw.
      unfold trace at 2, result.
      cbn [bind get pbind fst snd call run].
      match goal with
      | |- context [ask h (sleepmillis ?w) ?e] => destruct (ask h (sleepmillis w) e)
      end.
      destruct (n + 1 >=? 10) eqn:Hge.
      * cbn. eexists. repeat split; eauto. repeat constructor.
      * assert (Hn1 : n + 1 < 10) by (rewrite Z.geb_leb in Hge; apply Z.leb_gt in Hge; lia).
        match goal with
        | |- context [run h (DataReplicator_initialSync_loop fuel (n + 1) s d2) ?e] =>
            destruct (@initialSync_loop_after_failure ES h fuel (n + 1) s d2 e
                        ltac:(unfold maxFailedAttempts; lia)
                        ltac:(unfold maxFailedAttempts; lia) Es)
              as (es' & t & Hrun & Ht)
        end.
        rewrite Hrun. cbn [fst snd].
        eexists. repeat split; eauto.
        constructor; [reflexivity | exact Ht].
  - exists []. cbn. repeat split; auto.
Qed.

(** X22. [initialSync] does its work at most once.  The calls of every
    run split into a first part, with at most one check of the fail point and
    no sleep, and a rest that consists of fail-point checks and sleeps only.
    If there is a rest, the result is 'The maximum number of retries have
    been exhausted for initial sync.': [attemptErrorStatus] is never reset,
    so after one failed attempt the later iterations do nothing but check the
    fail point and sleep. *)
Theorem initialSync_retries_do_no_work :
  forall ES (h : Handler ES) (es : ES) (d : DataReplicator.t),
    exists t1 t2 : Trace,
      calls h DataReplicator_initialSync d es = t1 ++ t2
      /\ sleeps t1 = 0%nat
      /\ (attempts t1 <= 1)%nat
      /\ Forall retry_mark t2
      /\ (t2 = []
          \/ returned h DataReplicator_initialSync d es = Val (SWStatus retries_exhausted)).
Proof.
  intros ES h es d.
  destruct d as [opts rc state fp rp aa ap buf sd src f tf a r iss la lf rb sto ev bc].
  unfold calls, returned, DataReplicator_initialSync.
  destruct state; try solve [exists [], []; cbn; repeat split; auto].
  cbn [bind get pbind fst snd modify DataReplicator._state DataReplicatorState.eqb negb
       DataReplicator._reporter DataReplicator.set__state].
  change (Z.to_nat maxFailedAttempts) with 10%nat.
  destruct r as [r | ]; unfold trace, result;
    cbn [bind call ret pbind fst snd modify run app];
    match goal with
    | |- context [run h (DataReplicator_initialSync_loop 10 0 Status.OK ?d1) ?e] =>
        destruct (@initialSync_loop_first_attempt ES h 10%nat 0 Status.OK d1 e
                    eq_refl ltac:(unfold maxFailedAttempts; lia))
          as (t1 & t2 & Ht & Hs & Ha & Hm & Hr)
    end;
    unfold trace, result in Ht, Hr; rewrite Ht.
  - exists (obs (Reporter_cancel r) (ask h (Reporter_cancel r) es) :: t1), t2.
    split; [reflexivity | ].
    split; [unfold sleeps in *; cbn; exact Hs | ].
    split; [unfold attempts in *; cbn; rewrite Ha; lia | ].
    split; [exact Hm | exact Hr].
  - exists t1, t2.
    split; [reflexivity | ].
    split; [exact Hs | ].
    split; [rewrite Ha; lia | ].
    split; [exact Hm | exact Hr].
Qed.

Lemma initialSync_attempt_without_coordinator :
  forall ES (h : Handler ES) (es : ES) (d : DataReplicator.t),
    DataReplicator._replCoord d = None ->
    HostAndPort_empty (DataReplicator._syncSource d) = true ->
    exists (s : Status.t) (src : HostAndPort),
      Status.isOK s = false
      /\ run h (DataReplicator_initialSync_attempt Status.OK d) es
         = ((Val s, DataReplicator.set__syncSource src d),
            next h failInitialSyncWithBadHost es,
            [obs failInitialSyncWithBadHost (ask h failInitialSyncWithBadHost es)]).
Proof.
  intros ES h es d Hrc Hsrc.
  destruct d as [opts rc state fp rp aa ap buf sd src f tf a r iss la lf rb sto ev bc].
  simpl in Hrc, Hsrc. subst rc.
  unfold DataReplicator_initialSync_attempt.
  unfold bind at 1. cbn [call pbind]. cbn [run]. fold failInitialSyncWithBadHost.
  destruct (ask h failInitialSyncWithBadHost es).
  - exists no_sync_source, src. split; reflexivity.
  - exists (Status.mk ErrorCodes.InvalidSyncSource [Str "No valid sync source."]),
      (DataReplicatorOptions.syncSource opts).
    split; [reflexivity | ].
    match goal with
    | |- context [run h ?p _] =>
        assert (E : p = Ret (Val (Status.mk ErrorCodes.InvalidSyncSource
                                    [Str "No valid sync source."]),
                             DataReplicator.set__syncSource
                               (DataReplicatorOptions.syncSource opts)
                               (DataReplicator.mk opts None state fp rp aa ap buf sd src f tf
                                  a r iss la lf rb sto ev bc)))
    end.
    { unfold DataReplicator__ensureGoodSyncSource_inlock.
      cbn -[HostAndPort_empty]. rewrite Hsrc. cbn -[HostAndPort_empty]. rewrite Hsrc.
      reflexivity. }
    rewrite E. reflexivity.
Qed.

Lemma initialSync_loop_without_coordinator :
  forall ES (h : Handler ES) (fuel : nat) (failedAttempts : Z) (d : DataReplicator.t) (es : ES),
    failedAttempts + Z.of_nat fuel = maxFailedAttempts ->
    0 <= failedAttempts < maxFailedAttempts ->
    DataReplicator._replCoord d = None ->
    HostAndPort_empty (DataReplicator._syncSource d) = true ->
    exists (es' : ES) (t : Trace) (src : HostAndPort),
      run h (DataReplicator_initialSync_loop fuel failedAttempts Status.OK d) es
      = ((Val (SWStatus retries_exhausted), DataReplicator.set__syncSource src d), es', t)
      /\ Forall retry_mark t.
Proof.
  unfold maxFailedAttempts.
  intros ES h fuel n d es Hsum Hn Hrc Hsrc.
  destruct fuel as [ | fuel]; [lia | ].
  cbn [DataReplicator_initialSync_loop]. unfold maxFailedAttempts.
  destruct (n <? 10) eqn:Hlt; [ | apply Z.ltb_ge in Hlt; lia].
  unfold bind at 1. rewrite run_pbind. unfold result, env_after, trace.
  destruct (initialSync_attempt_without_coordinator h es d Hrc Hsrc)
    as (s & src & Hs & Hrun).
  rewrite Hrun. cbn [fst snd]. rewrite Hs.
  assert (Hw : int_wrap (n + 1) = n + 1).
  { unfold int_wrap. change (2 ^ 31) with 2147483648. change (2 ^ 32) with 4294967296.
    rewrite Z.mod_small by lia. lia. }
  rewrite Hw.
  cbn [bind get pbind fst snd call run].
  match goal with
  | |- context [ask h (sleepmillis ?w) ?e] => destruct (ask h (sleepmillis w) e)
  end.
  destruct (n + 1 >=? 10) eqn:Hge.
  - cbn. do 3 eexists. split; [reflexivity | ]. repeat constructor.
  - assert (Hn1 : n + 1 < 10) by (rewrite Z.geb_leb in Hge; apply Z.leb_gt in Hge; lia).
    match goal with
    | |- context [run h (DataReplicator_initialSync_loop fuel (n + 1) s ?d2) ?e] =>
        destruct (@initialSync_loop_after_failure ES h fuel (n + 1) s d2 e
                    ltac:(unfold maxFailedAttempts; lia)
                    ltac:(unfold maxFailedAttempts; lia) Hs)
          as (es' & t & Hrun' & Ht)
    end.
    rewrite Hrun'. cbn [fst snd]. do 3 eexists. split; [reflexivity | ].
    repeat constructor. exact Ht.
Qed.

(** X23. [initialSync] on a replicator without a coordinator, in state
    Uninitialized and with no sync source yet, fails with 'The maximum number
    of retries have been exhausted for initial sync.' whatever the
    environment answers, also when the options name a sync source: apart from
    cancelling the reporter, its only external calls are fail-point checks
    and sleeps.  The state is left at InitialSync; the initial-sync state and
    the fetcher are as before. *)
Theorem initialSync_without_coordinator_fails :
  forall ES (h : Handler ES) (es : ES) (d : DataReplicator.t),
    DataReplicator._state d = DataReplicatorState.Uninitialized ->
    DataReplicator._replCoord d = None ->
    HostAndPort_empty (DataReplicator._syncSource d) = true ->
    let d' := final h DataReplicator_initialSync d es in
    returned h DataReplicator_initialSync d es = Val (SWStatus retries_exhausted)
    /\ (exists t : Trace,
          calls h DataReplicator_initialSync d es = cancel_reporter d ++ t
          /\ Forall retry_mark t)
    /\ DataReplicator._state d' = DataReplicatorState.InitialSync
    /\ DataReplicator._initialSyncState d' = DataReplicator._initialSyncState d
    /\ DataReplicator._fetcher d' = DataReplicator._fetcher d.
Proof.
  intros ES h es d Hstate Hrc Hsrc.
  destruct d as [opts rc state fp rp aa ap buf sd src f tf a r iss la lf rb sto ev bc].
  simpl in Hstate, Hrc, Hsrc. subst state rc.
  unfold returned, final, calls, result, trace, DataReplicator_initialSync.
  cbn [bind get pbind fst snd modify DataReplicator._state DataReplicatorState.eqb negb
       DataReplicator._reporter DataReplicator.set__state].
  change (Z.to_nat maxFailedAttempts) with 10%nat.
  destruct r as [r | ];
    cbn [bind call ret pbind fst snd modify run app cancel_reporter DataReplicator._reporter];
    match goal with
    | |- context [run h (DataReplicator_initialSync_loop 10 0 Status.OK ?d1) ?e] =>
        destruct (@initialSync_loop_without_coordinator ES h 10%nat 0 d1 e eq_refl
                    ltac:(unfold maxFailedAttempts; lia) eq_refl Hsrc)
          as (es' & t & src' & Hrun & Ht)
    end;
    rewrite Hrun; cbn [fst snd].
  - destruct (ask h (Reporter_cancel r) es). repeat split; eauto.
  - repeat split; eauto.
Qed.

Lemma initialSync_without_coordinator_fails_witness :
  let d := DataReplicator_new2 configured_opts in
  returned calm_handler DataReplicator_initialSync d tt = Val (SWStatus retries_exhausted)
  /\ DataReplicator._state (final calm_handler DataReplicator_initialSync d tt)
     = DataReplicatorState.InitialSync.
Proof.
  intros d.
  generalize (@initialSync_without_coordinator_fails unit calm_handler tt d
                eq_refl eq_refl eq_refl).
  cbv zeta. intros (H1 & _ & H3 & _). split; [exact H1 | exact H3].
Defined.

(** * Properties of the control interface *)

(** ** Running lifted programs *)

Lemma crun_lift_prog {ES R} (h : CHandler ES) (p : Prog R) (es : ES) :
  crun h (lift_prog p) es
  = (result (base_handler h) p es, env_after (base_handler h) p es,
     map lift_obs (trace (base_handler h) p es)).
Proof.
  revert es. induction p as [r | X e k IH]; intros es.
  - reflexivity.
  - cbn [lift_prog crun]. rewrite IH. reflexivity.
Qed.

Lemma crun_cpbind {ES A B} (h : CHandler ES) (p : CProg A) (f : A -> CProg B) (es : ES) :
  crun h (cpbind p f) es
  = (fst (fst (crun h (f (fst (fst (crun h p es)))) (snd (fst (crun h p es))))),
     snd (fst (crun h (f (fst (fst (crun h p es)))) (snd (fst (crun h p es))))),
     snd (crun h p es)
     ++ snd (crun h (f (fst (fst (crun h p es)))) (snd (fst (crun h p es))))).
Proof.
  revert es. induction p as [a | X e k IH]; intros es.
  - simpl. destruct (crun h (f a) es) as [[r es'] t]. reflexivity.
  - simpl. rewrite IH. reflexivity.
Qed.

Lemma cpost_crun {ES R} (h : CHandler ES) (p : CProg R) (es : ES)
    (Q : R -> ES -> CTrace -> Prop) :
  cpost h p es Q ->
  Q (fst (fst (crun h p es))) (snd (fst (crun h p es))) (snd (crun h p es)).
Proof.
  revert es Q. induction p as [r | X e k IH]; intros es Q Hp.
  - exact Hp.
  - cbn [crun fst snd]. apply (IH _ _ _ Hp).
Qed.

Lemma cpost_of_crun {ES R} (h : CHandler ES) (p : CProg R) (es : ES)
    (Q : R -> ES -> CTrace -> Prop) :
  Q (fst (fst (crun h p es))) (snd (fst (crun h p es))) (snd (crun h p es)) ->
  cpost h p es Q.
Proof.
  revert es Q. induction p as [r | X e k IH]; intros es Q Hp.
  - exact Hp.
  - cbn [cpost]. apply IH. exact Hp.
Qed.

Lemma cpost_cpbind {ES A B} (h : CHandler ES) (p : CProg A) (f : A -> CProg B) (es : ES)
    (Q : B -> ES -> CTrace -> Prop) :
  cpost h p es (fun a es1 t1 => cpost h (f a) es1 (fun b es2 t2 => Q b es2 (t1 ++ t2))) ->
  cpost h (cpbind p f) es Q.
Proof.
  revert es Q. induction p as [a | X e k IH]; intros es Q Hp.
  - exact Hp.
  - cbn [cpbind cpost]. apply IH. exact Hp.
Qed.

(** ** pause, flushAndPause, resume *)

Lemma scheduleApplyBatch_while_paused :
  forall ES (h : Handler ES) (es : ES) (d : DataReplicator.t),
    DataReplicator._applierPaused d = true ->
    run h (DataReplicator__scheduleApplyBatch_inlock d) es = ((Val Status.OK, d), es, []).
Proof.
  intros ES h es d Hp.
  destruct d as [opts rc state fp rp aa ap buf sd src f tf a r iss la lf rb sto ev bc].
  simpl in Hp. subst ap. reflexivity.
Qed.

(** X24. [pause] always returns OK.  It waits for the applier if there is
    one, its only external call, then sets [_applierPaused] and drops the
    applier; without an applier nothing else changes.  After [pause],
    [_scheduleApplyBatch_inlock] schedules nothing: it returns OK, makes no
    call and changes nothing, in every environment. *)
Theorem pause_stops_applier :
  forall ES (h : CHandler ES) (es : ES) (d : DataReplicator.t),
    let d' := cfinal h DataReplicator_pause d es in
    creturned h DataReplicator_pause d es = Val Status.OK
    /\ DataReplicator._applierPaused d' = true
    /\ DataReplicator._applier d' = None
    /\ (DataReplicator._applier d = None ->
        d' = DataReplicator.set__applier None (DataReplicator.set__applierPaused true d)
        /\ ccalls h DataReplicator_pause d es = [])
    /\ (forall a : Applier.t,
          DataReplicator._applier d = Some a ->
          ccalls h DataReplicator_pause d es
          = [cobs (Applier_wait a d) (cask h (Applier_wait a d) es)])
    /\ (forall ES' (h' : Handler ES') (es' : ES'),
          returned h' DataReplicator__scheduleApplyBatch_inlock d' es' = Val Status.OK
          /\ final h' DataReplicator__scheduleApplyBatch_inlock d' es' = d'
          /\ calls h' DataReplicator__scheduleApplyBatch_inlock d' es' = []).
Proof.
  intros ES h es d d'.
  assert (Hp : creturned h DataReplicator_pause d es = Val Status.OK
               /\ DataReplicator._applierPaused d' = true
               /\ DataReplicator._applier d' = None
               /\ (DataReplicator._applier d = None ->
                   d' = DataReplicator.set__applier None
                          (DataReplicator.set__applierPaused true d)
                   /\ ccalls h DataReplicator_pause d es = [])
               /\ (forall a : Applier.t,
                     DataReplicator._applier d = Some a ->
                     ccalls h DataReplicator_pause d es
                     = [cobs (Applier_wait a d) (cask h (Applier_wait a d) es)])).
  { subst d'.
    unfold creturned, cfinal, ccalls, DataReplicator_pause, DataReplicator__pauseApplier.
    destruct d as [opts rc state fp rp aa ap buf sd src f tf a r iss la lf rb sto ev bc].
    destruct a as [a | ]; cbn.
    - repeat split; try discriminate. intros a' E. inversion E. subst a'. reflexivity.
    - repeat split; intros; discriminate. }
  destruct Hp as (H1 & H2 & H3 & H4 & H5).
  split; [exact H1 | split; [exact H2 | split; [exact H3 | split; [exact H4 | ]]]].
  split; [exact H5 | ].
  intros ES' h' es'. unfold returned, final, calls, result, trace.
  rewrite (scheduleApplyBatch_while_paused h' es' d' H2). auto.
Qed.

(** X25. [flushAndPause] does not pause an idle applier: with no batch in
    progress it returns [_lastTimestampApplied], makes no call and changes
    nothing.  With a batch in progress it sets [_applierPaused], waits for the
    applier and returns the timestamp applied when the wait ends; if
    [_applierActive] is set but there is no applier, the null pointer is
    dereferenced. *)
Theorem flushAndPause_reports_applied_timestamp :
  forall ES (h : CHandler ES) (es : ES) (d : DataReplicator.t),
    (DataReplicator._applierActive d = false ->
     creturned h DataReplicator_flushAndPause d es
     = Val (SWValue (DataReplicator._lastTimestampApplied d))
     /\ cfinal h DataReplicator_flushAndPause d es = d
     /\ ccalls h DataReplicator_flushAndPause d es = [])
    /\ (DataReplicator._applierActive d = true ->
        let waiting := DataReplicator.set__applierPaused true d in
        (DataReplicator._applier d = None ->
         creturned h DataReplicator_flushAndPause d es = Crash (NullDereference "_applier")
         /\ cfinal h DataReplicator_flushAndPause d es = waiting)
        /\ (forall a : Applier.t,
              DataReplicator._applier d = Some a ->
              let flushed := cask h (Applier_wait a waiting) es in
              creturned h DataReplicator_flushAndPause d es
              = Val (SWValue (DataReplicator._lastTimestampApplied flushed))
              /\ cfinal h DataReplicator_flushAndPause d es = flushed
              /\ ccalls h DataReplicator_flushAndPause d es
                 = [cobs (Applier_wait a waiting) flushed])).
Proof.
  intros ES h es d.
  destruct d as [opts rc state fp rp aa ap buf sd src f tf a r iss la lf rb sto ev bc].
  unfold creturned, cfinal, ccalls, DataReplicator_flushAndPause.
  split; intros Ha; simpl in Ha; subst aa.
  - cbn. auto.
  - split.
    + intros Hn. simpl in Hn. subst a. cbn. auto.
    + intros a' Hs. simpl in Hs. subst a. cbn. auto.
Qed.

(** X26. [resume] schedules [_resumeFinish] and returns the status of the
    scheduling.  It does not touch the replicator itself: without [wait], or
    when the scheduling failed, the replicator is unchanged and the
    scheduling is the only call; with [wait] it blocks until the scheduled
    work is done. *)
Theorem resume_schedules_resumeFinish :
  forall ES (h : CHandler ES) (es : ES) (d : DataReplicator.t) (wait : bool),
    let schedule := Exec_scheduleControlWork Work_resumeFinish in
    let scheduled := cask h schedule es in
    StatusWith_valid scheduled ->
    creturned h (DataReplicator_resume wait) d es = Val (StatusWith_getStatus scheduled)
    /\ (wait = false \/ StatusWith_isOK scheduled = false ->
        cfinal h (DataReplicator_resume wait) d es = d
        /\ ccalls h (DataReplicator_resume wait) d es = [cobs schedule scheduled])
    /\ (forall handle : Handle,
          wait = true ->
          scheduled = SWValue handle ->
          let resumed := cask h (Exec_wait handle d) (cnext h schedule es) in
          cfinal h (DataReplicator_resume wait) d es = resumed
          /\ ccalls h (DataReplicator_resume wait) d es
             = [cobs schedule scheduled; cobs (Exec_wait handle d) resumed]).
Proof.
  intros ES h es d wait schedule scheduled Hvalid. subst schedule scheduled.
  unfold creturned, cfinal, ccalls, DataReplicator_resume, StatusWith_isOK.
  unfold cbind. cbn [ccall cpbind crun fst snd].
  destruct (cask h (Exec_scheduleControlWork Work_resumeFinish) es) as [s | handle] eqn:E;
    simpl in Hvalid.
  - cbn [StatusWith_getStatus]. rewrite Hvalid, andb_false_r. cbn.
    repeat split; try discriminate.
  - destruct wait; cbn.
    + split; [reflexivity | split].
      * intros [H | H]; discriminate.
      * intros handle' _ Eh. inversion Eh. subst handle'. auto.
    + repeat split; try discriminate.
Qed.

Lemma resume_schedules_resumeFinish_witness :
  creturned calm_control_handler (DataReplicator_resume true) steady_replicator tt
  = Val Status.OK
  /\ ccalls calm_control_handler (DataReplicator_resume true) steady_replicator tt
     = [cobs (Exec_scheduleControlWork Work_resumeFinish) (SWValue 0%nat);
        cobs (Exec_wait 0%nat steady_replicator) steady_replicator].
Proof.
  generalize (@resume_schedules_resumeFinish unit calm_control_handler tt steady_replicator
                true I).
  cbv zeta. intros (H1 & _ & H3).
  split; [exact H1 | exact (proj2 (H3 0%nat eq_refl eq_refl))].
Defined.

(** ** shutdown *)

(** [_cancelAllHandles_inlock] returns, and changes nothing in the
    replicator but the cloner inside the initial-sync state. *)
Lemma cancelAllHandles_run :
  forall ES (h : CHandler ES) (es : ES) (d : DataReplicator.t),
    exists (es' : ES) (t : CTrace) (iss' : option InitialSyncState.t),
      crun h (DataReplicator__cancelAllHandles_inlock d) es
      = ((Val tt, DataReplicator.set__initialSyncState iss' d), es', t)
      /\ match DataReplicator._initialSyncState d with
         | Some iss =>
             DatabasesCloner_isActive (InitialSyncState.dbsCloner iss) = false ->
             iss' = Some iss
         | None => iss' = None
         end.
Proof.
  intros ES h es d.
  destruct d as [opts rc state fp rp aa ap buf sd src f tf a r iss la lf rb sto ev bc].
  unfold DataReplicator__cancelAllHandles_inlock, QueryFetcher_cancel,
    DataReplicator_on_dbsCloner, DataReplicator_on_initialSyncState, DatabasesCloner_cancel,
    DatabasesCloner_isActive.
  unfold cbind. cbn [lift lift_prog get ccall call ret cpbind fst snd
                     DataReplicator._fetcher DataReplicator._applier
                     DataReplicator._reporter DataReplicator._initialSyncState].
  destruct f as [f | ]; destruct a as [a | ]; destruct r as [r | ];
    cbn [lift lift_prog get ccall call ret cpbind crun fst snd];
    repeat match goal with
           | |- context [cask h ?e ?es0] =>
               match type of (cask h e es0) with
               | unit => destruct (cask h e es0)
               end
           end;
    (destruct iss as [iss | ];
     [ destruct iss as [[st src' act dbs n fn sto'] bt stt fe s fm ao];
       destruct act; cbn;
       [ destruct (negb (ErrorCodes.eqb (Status.code st) ErrorCodes.NotYetInitialized)); cbn
       | ]
     | cbn ]);
    do 2 eexists;
    try (exists (@None InitialSyncState.t); split; reflexivity);
    eexists (Some _); (split; [reflexivity | ]); cbn; intros; try discriminate; reflexivity.
Qed.

Section Shutdown.

Context {ES : Type} (h : CHandler ES).

(** X27. [_shutdown].  If the executor cannot make an event, its status is
    returned and the replicator is unchanged: no handle is cancelled and
    [_doShutdown] is not set.  Otherwise the event is stored, the handles are
    cancelled (which changes nothing but the cloner of the initial-sync
    state) and [_doShutdown] is set; if [_doNextActions] cannot be scheduled,
    that status is returned with [_doShutdown] left set.  After the wait for
    the shutdown event, a replicator without a fetcher dereferences the null
    [_fetcher]; one with an idle fetcher, no batch in progress and no
    reporter dereferences the null [_reporter]. *)
Theorem shutdown_outcomes :
  forall (es : ES) (d : DataReplicator.t),
    let made := cask h (Base Exec_makeEvent) es in
    (StatusWith_isOK made = false ->
     creturned h DataReplicator__shutdown d es = Val (StatusWith_getStatus made)
     /\ cfinal h DataReplicator__shutdown d es = d
     /\ ccalls h DataReplicator__shutdown d es = [cobs (Base Exec_makeEvent) made])
    /\ (forall event : Event,
          made = SWValue event ->
          exists (es' : ES) (iss' : option InitialSyncState.t),
            match DataReplicator._initialSyncState d with
            | Some iss =>
                DatabasesCloner_isActive (InitialSyncState.dbsCloner iss) = false ->
                iss' = Some iss
            | None => iss' = None
            end
            /\
            let stopping :=
              DataReplicator.set__doShutdown true
                (DataReplicator.set__initialSyncState iss'
                   (DataReplicator.set__onShutdown event d)) in
            let schedule := Base (Exec_scheduleWork Work_doNextActions) in
            let wait := Base (Exec_waitForEvent event stopping) in
            let stopped := cask h wait (cnext h schedule es') in
            (StatusWith_isOK (cask h schedule es') = false ->
             creturned h DataReplicator__shutdown d es
             = Val (StatusWith_getStatus (cask h schedule es'))
             /\ cfinal h DataReplicator__shutdown d es = stopping)
            /\ (StatusWith_isOK (cask h schedule es') = true ->
                (DataReplicator._fetcher stopped = None ->
                 creturned h DataReplicator__shutdown d es
                 = Crash (NullDereference "_fetcher")
                 /\ cfinal h DataReplicator__shutdown d es = stopped)
                /\ (forall f : OplogFetcher.t,
                      DataReplicator._fetcher stopped = Some f ->
                      cask h (Base (Fetcher_isActive
                                      (QueryFetcher._fetcher (OplogFetcher.base f))))
                        (cnext h wait (cnext h schedule es')) = false ->
                      DataReplicator._applierActive stopped = false ->
                      DataReplicator._reporter stopped = None ->
                      creturned h DataReplicator__shutdown d es
                      = Crash (NullDereference "_reporter")
                      /\ cfinal h DataReplicator__shutdown d es = stopped))).
Proof.
  intros es d made. subst made. split.
  - intros Hmade. unfold creturned, cfinal, ccalls.
    apply (cpost_crun h (DataReplicator__shutdown d) es
             (fun rs _ t => fst rs = _ /\ snd rs = _ /\ t = _)).
    unfold DataReplicator__shutdown. unfold cbind at 1.
    cbn [lift lift_prog call cpbind fst snd cpost]. rewrite Hmade. cbn. auto.
  - intros event Hmade.
    destruct (cancelAllHandles_run h (cnext h (Base Exec_makeEvent) es)
                (DataReplicator.set__onShutdown event d))
      as (es' & t & iss' & Hcancel & Hiss).
    exists es', iss'.
    split; [destruct d; exact Hiss | ]. cbn zeta.
    set (stopping := DataReplicator.set__doShutdown true
                       (DataReplicator.set__initialSyncState iss'
                          (DataReplicator.set__onShutdown event d))).
    set (schedule := Base (Exec_scheduleWork Work_doNextActions)).
    set (wait := Base (Exec_waitForEvent event stopping)).
    set (stopped := cask h wait (cnext h schedule es')).
    assert (Hev : DataReplicator._onShutdown stopping = event)
      by (subst stopping; destruct d; reflexivity).
    assert (Hstep : forall (r : Res Status.t) (d' : DataReplicator.t),
              (StatusWith_isOK (cask h schedule es') = false ->
               r = Val (StatusWith_getStatus (cask h schedule es')) /\ d' = stopping) ->
              (StatusWith_isOK (cask h schedule es') = true ->
               cpost h
                 (cbind (lift (deref (DataReplicator._fetcher stopped) "_fetcher"))
                    (fun f =>
                     cbind (lift (QueryFetcher_isActive (OplogFetcher.base f)))
                       (fun fetching =>
                     cbind (lift (invariant (negb fetching) "!_fetcher->isActive()"))
                       (fun _ =>
                     cbind (lift (invariant (negb (DataReplicator._applierActive stopped))
                                    "!_applierActive")) (fun _ =>
                     cbind (lift (deref (DataReplicator._reporter stopped) "_reporter"))
                       (fun r0 =>
                     cbind (lift (call (Reporter_isActive r0))) (fun reporting =>
                     cbind (lift (invariant (negb reporting) "!_reporter->isActive()"))
                       (fun _ => lift (ret Status.OK)))))))) stopped)
                 (cnext h wait (cnext h schedule es'))
                 (fun rs _ _ => fst rs = r /\ snd rs = d')) ->
              creturned h DataReplicator__shutdown d es = r
              /\ cfinal h DataReplicator__shutdown d es = d').
    { intros r d' Hfail Hwait. unfold creturned, cfinal.
      apply (cpost_crun h (DataReplicator__shutdown d) es
               (fun rs _ _ => fst rs = r /\ snd rs = d')).
      unfold DataReplicator__shutdown. unfold cbind at 1.
      cbn [lift lift_prog call cpbind fst snd cpost]. rewrite Hmade.
      cbn [StatusWith_isOK StatusWith_getStatus Status.isOK Status.code Status.OK
           ErrorCodes.eqb negb].
      unfold cbind at 1. cbn [lift lift_prog StatusWith_getValue ret cpbind fst snd].
      unfold cbind at 1. cbn [lift lift_prog modify cpbind fst snd].
      unfold cbind at 1. apply cpost_cpbind. apply cpost_of_crun. rewrite Hcancel.
      cbn [fst snd].
      unfold cbind at 1. cbn [lift lift_prog modify cpbind fst snd].
      unfold cbind at 1. cbn [lift lift_prog call cpbind fst snd cpost].
      fold stopping schedule.
      destruct (StatusWith_isOK (cask h schedule es')) eqn:Esched.
      - unfold cbind at 1. cbn [lift lift_prog get cpbind fst snd].
        unfold cbind at 1. cbn [lift lift_prog call cpbind fst snd cpost].
        rewrite Hev. fold wait stopped.
        unfold cbind at 1. cbn [lift lift_prog modify cpbind fst snd].
        unfold cbind at 1. cbn [lift lift_prog get cpbind fst snd].
        specialize (Hwait eq_refl).
        eapply cpost_crun in Hwait. apply cpost_of_crun. exact Hwait.
      - cbn. destruct (Hfail eq_refl) as [-> ->]. auto. }
    split.
    + intros Hsched. apply Hstep; [auto | rewrite Hsched; discriminate].
    + intros Hsched. split.
      * intros Hf. apply Hstep; [rewrite Hsched; discriminate | intros _].
        rewrite Hf. cbn. auto.
      * intros f Hf Hidle Happ Hrep.
        apply Hstep; [rewrite Hsched; discriminate | intros _].
        rewrite Hf. unfold cbind, QueryFetcher_isActive.
        cbn [lift lift_prog deref ret call cpbind fst snd cpost].
        rewrite Hidle, Happ, Hrep. cbn. auto.
Qed.

End Shutdown.

(** ** resync *)

Lemma initialSync_rejected_run :
  forall d : DataReplicator.t,
    DataReplicator._state d <> DataReplicatorState.Uninitialized ->
    exists s : Status.t,
      DataReplicator_initialSync d = Ret (Val (SWStatus s), d)
      /\ Status.isOK s = false.
Proof.
  intros d Hstate.
  destruct d as [opts rc state fp rp aa ap buf sd src f tf a r iss la lf rb sto ev bc].
  simpl in Hstate. destruct state; try congruence; eexists; split; reflexivity.
Qed.

Section Resync.

Context {ES : Type} (h : CHandler ES).

(** X28. [resync] ignores the result of [_shutdown]: when the executor
    cannot make the shutdown event, [resync] still schedules the drop of the
    user databases.  If that cannot be scheduled, its status is returned and
    the replicator is unchanged.  If it is scheduled and the replicator is
    not in state Uninitialized when the drop is done, [resync] returns the
    error of [initialSync], the replicator being as the wait left it. *)
Theorem resync_ignores_failed_shutdown :
  forall (es : ES) (d : DataReplicator.t),
    let makeEvent := Base Exec_makeEvent in
    let drop := Exec_scheduleDBWork Work_dropUserDatabases in
    let es1 := cnext h makeEvent es in
    let scheduled := cask h drop es1 in
    StatusWith_isOK (cask h makeEvent es) = false ->
    StatusWith_valid scheduled ->
    (StatusWith_isOK scheduled = false ->
     creturned h DataReplicator_resync d es = Val (SWStatus (StatusWith_getStatus scheduled))
     /\ cfinal h DataReplicator_resync d es = d
     /\ ccalls h DataReplicator_resync d es
        = [cobs makeEvent (cask h makeEvent es); cobs drop scheduled])
    /\ (forall handle : Handle,
          scheduled = SWValue handle ->
          let dropped := cask h (Exec_wait handle d) (cnext h drop es1) in
          DataReplicator._state dropped <> DataReplicatorState.Uninitialized ->
          (exists s : Status.t,
             Status.isOK s = false
             /\ creturned h DataReplicator_resync d es = Val (SWStatus s))
          /\ cfinal h DataReplicator_resync d es = dropped
          /\ ccalls h DataReplicator_resync d es
             = [cobs makeEvent (cask h makeEvent es); cobs drop scheduled;
                cobs (Exec_wait handle d) dropped]).
Proof.
  intros es d makeEvent drop es1 scheduled Hmade Hvalid.
  assert (Hshut : forall Q : Res TimestampStatus * DataReplicator.t -> ES -> CTrace -> Prop,
            cpost h
              (cbind (ccall drop)
                 (fun cbh =>
                    if negb (StatusWith_isOK cbh)
                    then lift (ret (SWStatus (StatusWith_getStatus cbh)))
                    else
                      cbind (lift (StatusWith_getValue cbh)) (fun handle =>
                      cbind (lift get) (fun d0 =>
                      cbind (ccall (Exec_wait handle d0)) (fun d' =>
                      cbind (lift (modify (fun _ => d'))) (fun _ =>
                      cbind (lift DataReplicator_initialSync) (fun status =>
                      cbind (if StatusWith_isOK status
                             then cbind (lift (StatusWith_getValue status))
                                    (fun lastApplied =>
                                       lift (DataReplicator__resetState_inlock lastApplied))
                             else lift (ret tt))
                        (fun _ => lift (ret status))))))))
                 d) es1
              (fun rs es' t => Q rs es' (cobs makeEvent (cask h makeEvent es) :: t)) ->
            Q (creturned h DataReplicator_resync d es, cfinal h DataReplicator_resync d es)
              (cenv h DataReplicator_resync d es) (ccalls h DataReplicator_resync d es)).
  { intros Q HQ. unfold creturned, cfinal, cenv, ccalls.
    rewrite <- surjective_pairing.
    apply (cpost_crun h (DataReplicator_resync d) es Q).
    unfold DataReplicator_resync. unfold cbind at 1. apply cpost_cpbind.
    unfold DataReplicator__shutdown. unfold cbind at 1.
    cbn [lift lift_prog call cpbind fst snd cpost]. fold makeEvent. rewrite Hmade.
    cbn [negb lift lift_prog ret cpost fst snd]. exact HQ. }
  split.
  - intros Hsched.
    apply (Hshut (fun rs _ t => fst rs = _ /\ snd rs = _ /\ t = _)).
    unfold cbind at 1. cbn [ccall cpbind cpost fst snd]. fold es1 scheduled.
    rewrite Hsched. cbn. auto.
  - intros handle Hsched dropped Hstate.
    destruct (@initialSync_rejected_run dropped Hstate)
      as (s & Hinit & Hs).
    apply (Hshut (fun rs _ t => (exists s0, Status.isOK s0 = false /\ fst rs = Val (SWStatus s0))
                                /\ snd rs = _ /\ t = _)).
    unfold cbind at 1. cbn [ccall cpbind cpost fst snd]. fold es1 scheduled.
    rewrite Hsched.
    cbn [StatusWith_isOK StatusWith_getStatus Status.isOK Status.code Status.OK
         ErrorCodes.eqb negb].
    unfold cbind at 1. cbn [lift lift_prog StatusWith_getValue ret cpbind fst snd].
    unfold cbind at 1. cbn [lift lift_prog get cpbind fst snd].
    unfold cbind at 1. cbn [ccall cpbind cpost fst snd]. fold drop es1 dropped.
    unfold cbind at 1. cbn [lift lift_prog modify cpbind fst snd].
    unfold cbind at 1. unfold lift at 1. rewrite Hinit.
    cbn [lift_prog cpbind fst snd]. unfold StatusWith_isOK. cbn [StatusWith_getStatus].
    rewrite Hs. cbn. eauto.
Qed.

End Resync.

Lemma resync_ignores_failed_shutdown_witness :
  (exists s : Status.t,
     Status.isOK s = false
     /\ creturned no_event_control_handler DataReplicator_resync steady_replicator tt
        = Val (SWStatus s))
  /\ cfinal no_event_control_handler DataReplicator_resync steady_replicator tt
     = steady_replicator.
Proof.
  generalize (@resync_ignores_failed_shutdown unit no_event_control_handler tt
                steady_replicator eq_refl I).
  cbv zeta. intros (_ & H2).
  destruct (H2 0%nat eq_refl ltac:(vm_compute; discriminate)) as (R & F & _).
  split; [exact R | exact F].
Defined.

(** ** The missing document and the applier's completion function *)

Section MissingFetched.

Context {ES : Type} (h : CHandler ES).

#[local] Opaque DataReplicator__doNextActions.

(** X29. [_onMissingFetched] on the run thread.  When the fetched document
    is inserted (the insert is scheduled, waited for and reports OK) and the
    applier starts, the batch that failed is given again, unchanged, to a new
    applier, and nothing else changes in the replicator.  When the fetch
    returns no document, InitialSyncFailure 'missing doc not found' is
    recorded in the initial-sync state and [_doNextActions] runs. *)
Theorem onMissingFetched_retries_batch :
  forall (es : ES) (d : DataReplicator.t) (fetchResult : BatchDataStatus)
         (nextAction : NextAction.t) (ops : Operations) (nss : NamespaceString),
    cask h (Base Exec_isRunThread) es = true ->
    let callback := DataReplicator__onMissingFetched fetchResult nextAction ops nss in
    let es1 := cnext h (Base Exec_isRunThread) es in
    (forall (b : BatchData.t) (doc : BSONObj) (rest : list BSONObj) (handle : Handle),
       fetchResult = SWValue b ->
       BatchData.documents b = doc :: rest ->
       let insert := Exec_scheduleDBWork (Work_insertMissingDoc nss doc) in
       let es2 := cnext h insert es1 in
       let es3 := cnext h (Exec_waitDBWork handle) es2 in
       let start := Base (Applier_start (Applier.mk ops)) in
       cask h insert es1 = SWValue handle ->
       Status.isOK (cask h (Exec_waitDBWork handle) es2) = true ->
       Status.isOK (cask h start es3) = true ->
       creturned h callback d es = Val tt
       /\ cfinal h callback d es = DataReplicator.set__applier (Some (Applier.mk ops)) d
       /\ ccalls h callback d es
          = [cobs (Base Exec_isRunThread) true;
             cobs insert (SWValue handle);
             cobs (Exec_waitDBWork handle) (cask h (Exec_waitDBWork handle) es2);
             cobs start (cask h start es3)])
    /\ (forall (b : BatchData.t) (iss : InitialSyncState.t),
          fetchResult = SWValue b ->
          BatchData.documents b = [] ->
          DataReplicator._initialSyncState d = Some iss ->
          let failed :=
            DataReplicator.set__initialSyncState
              (Some (InitialSyncState.set_status
                       (Status.mk ErrorCodes.InitialSyncFailure
                          [Str "missing doc not found"]) iss)) d in
          cfinal h callback d es
          = final (base_handler h) DataReplicator__doNextActions failed es1
          /\ ccalls h callback d es
             = cobs (Base Exec_isRunThread) true
                 :: map lift_obs
                      (calls (base_handler h) DataReplicator__doNextActions failed es1)).
Proof.
  intros es d fetchResult nextAction ops nss Hrun callback es1. subst callback.
  split.
  - intros b doc rest handle Hb Hdocs insert es2 es3 start Hins Hrs Hstart.
    subst fetchResult. unfold creturned, cfinal, ccalls.
    apply (cpost_crun h _ es (fun rs _ t => fst rs = _ /\ snd rs = _ /\ t = _)).
    unfold DataReplicator__onMissingFetched.
    unfold cbind at 1. cbn [lift lift_prog call cpbind fst snd cpost]. rewrite Hrun.
    unfold cbind at 1. cbn [lift lift_prog invariant ret cpbind fst snd].
    cbn [StatusWith_isOK StatusWith_getStatus Status.isOK Status.code Status.OK
         ErrorCodes.eqb negb].
    unfold cbind at 1. cbn [lift lift_prog StatusWith_getValue ret cpbind fst snd].
    rewrite Hdocs.
    unfold cbind at 1. cbn [ccall cpbind fst snd cpost]. fold es1 insert. rewrite Hins.
    cbn [StatusWith_isOK StatusWith_getStatus Status.isOK Status.code Status.OK
         ErrorCodes.eqb negb].
    unfold cbind at 1. cbn [lift lift_prog StatusWith_getValue ret cpbind fst snd].
    unfold cbind at 1. cbn [ccall cpbind fst snd cpost]. fold es2. rewrite Hrs.
    cbn [negb].
    unfold cbind at 1, DataReplicator__scheduleApplyBatch_inlock_ops.
    cbn [lift lift_prog bind modify call pbind cpbind fst snd cpost].
    fold es3 start. rewrite Hstart. cbn. auto.
  - intros b iss Hb Hdocs Hiss failed. subst fetchResult.
    unfold cfinal, ccalls.
    apply (cpost_crun h _ es (fun rs _ t => snd rs = _ /\ t = _)).
    unfold DataReplicator__onMissingFetched.
    unfold cbind at 1. cbn [lift lift_prog call cpbind fst snd cpost]. rewrite Hrun.
    unfold cbind at 1. cbn [lift lift_prog invariant ret cpbind fst snd].
    cbn [StatusWith_isOK StatusWith_getStatus Status.isOK Status.code Status.OK
         ErrorCodes.eqb negb].
    unfold cbind at 1. cbn [lift lift_prog StatusWith_getValue ret cpbind fst snd].
    rewrite Hdocs.
    unfold cbind at 1, DataReplicator_on_initialSyncState, InitialSyncState_setStatus,
      zoom_ptr, lift at 1.
    rewrite Hiss. cbn [modify pbind lift_prog cpbind fst snd].
    fold failed es1. apply cpost_of_crun. unfold lift. rewrite crun_lift_prog. auto.
Qed.

End MissingFetched.

#[local] Transparent DataReplicator__doNextActions.

Lemma onMissingFetched_retries_batch_witness :
  let callback :=
    DataReplicator__onMissingFetched (batch_of [[("_id", BSONNumber 1)]])
      NextAction.kNoAction [failed_update] "test.c" in
  creturned calm_control_handler callback syncing_replicator tt = Val tt
  /\ cfinal calm_control_handler callback syncing_replicator tt
     = DataReplicator.set__applier (Some (Applier.mk [failed_update])) syncing_replicator.
Proof.
  generalize (@onMissingFetched_retries_batch unit calm_control_handler tt
                syncing_replicator (batch_of [[("_id", BSONNumber 1)]])
                NextAction.kNoAction [failed_update] "test.c" eq_refl).
  cbv zeta. intros (H1 & _).
  destruct (H1 _ [("_id", BSONNumber 1)] [] 0%nat eq_refl eq_refl eq_refl eq_refl eq_refl)
    as (R & F & _).
  split; [exact R | exact F].
Defined.

(** X30. The completion function the replicator gives to every applier,
    called with a result [ts] and operations [theOps], schedules
    [_onApplyBatchFinish] with that result, those operations and
    [numApplied] equal to the number of those operations, also when [ts] is
    an error, and waits for it.  If it cannot be scheduled, the status is
    recorded in the initial-sync state and the finish event is signalled;
    with no initial-sync state the null pointer is dereferenced. *)
Theorem applierCompletion_counts_operations_given :
  forall ES (h : CHandler ES) (es : ES) (d : DataReplicator.t) (ts : TimestampStatus)
         (theOps : Operations),
    let completion := DataReplicator_applierCompletion ts theOps in
    let schedule :=
      Base (Exec_scheduleWork
              (Work_onApplyBatchFinish ts theOps (Z.of_nat (List.length theOps)))) in
    let scheduled := cask h schedule es in
    let es1 := cnext h schedule es in
    (forall handle : Handle,
       scheduled = SWValue handle ->
       let finished := cask h (Exec_wait handle d) es1 in
       creturned h completion d es = Val tt
       /\ cfinal h completion d es = finished
       /\ ccalls h completion d es
          = [cobs schedule scheduled; cobs (Exec_wait handle d) finished])
    /\ (StatusWith_isOK scheduled = false ->
        (DataReplicator._initialSyncState d = None ->
         creturned h completion d es = Crash (NullDereference "_initialSyncState")
         /\ cfinal h completion d es = d
         /\ ccalls h completion d es = [cobs schedule scheduled])
        /\ (forall iss : InitialSyncState.t,
              DataReplicator._initialSyncState d = Some iss ->
              cfinal h completion d es
              = DataReplicator.set__initialSyncState
                  (Some (InitialSyncState.set_status (StatusWith_getStatus scheduled) iss)) d
              /\ ccalls h completion d es
                 = [cobs schedule scheduled;
                    cobs (Base (Exec_signalEvent (InitialSyncState.finishEvent iss))) tt])).
Proof.
  intros ES h es d ts theOps completion schedule scheduled es1.
  subst completion scheduled es1.
  destruct d as [opts rc state fp rp aa ap buf sd src f tf a r iss' la lf rb sto ev bc].
  split.
  - intros handle Hsched. unfold creturned, cfinal, ccalls.
    apply (cpost_crun h _ es (fun rs _ t => fst rs = _ /\ snd rs = _ /\ t = _)).
    unfold DataReplicator_applierCompletion.
    unfold cbind at 1. cbn [lift lift_prog call cpbind fst snd cpost]. fold schedule.
    rewrite Hsched. cbn. auto.
  - intros Hsched. split.
    + intros Hiss. simpl in Hiss. subst iss'. unfold creturned, cfinal, ccalls.
      apply (cpost_crun h _ es (fun rs _ t => fst rs = _ /\ snd rs = _ /\ t = _)).
      unfold DataReplicator_applierCompletion.
      unfold cbind at 1. cbn [lift lift_prog call cpbind fst snd cpost]. fold schedule.
      rewrite Hsched. cbn. auto.
    + intros iss Hiss. simpl in Hiss. subst iss'. unfold cfinal, ccalls.
      apply (cpost_crun h _ es (fun rs _ t => snd rs = _ /\ t = _)).
      unfold DataReplicator_applierCompletion.
      unfold cbind at 1. cbn [lift lift_prog call cpbind fst snd cpost]. fold schedule.
      rewrite Hsched. cbn.
      match goal with
      | |- context [cask h ?e ?es0] =>
          match type of (cask h e es0) with unit => destruct (cask h e es0) end
      end.
      auto.
Qed.
